(** * taskback: reward and streak rules of the task-management backend

    A shallow embedding of the mongoose models and of the task routes:

    - [userSchema], [User]           src/unnamed/part_002 (the User model)
    - [taskSchema], [Task]           src/models/Task.js
    - [Task_part_001]                src/unnamed/part_001 (the other version
                                     of the Task model: raw due-date
                                     comparison, priority-tiered points)
    - [tasksRouter]                  src/unnamed/part_003 (routes on tasks)
    - [UserHooks], [tasksRouterRest] the rest of part_002 and part_003
    - [notificationsRouter]          src/routes/notifications.js
    - [projectSchema], [projectsRouter]
                                     src/unnamed/part_000 (the Project
                                     model), src/routes/projects.js

    Conventions of the embedding.

    - A [Date] is its time value: milliseconds since the epoch, in [Z].
      Every date that reaches the code is taken to be a valid one.
    - A JS [Number] holding a counter is an integer of [Z]; [%] is [Z.rem].
    - An [ObjectId] is a number of [N]; comparing two ids through
      [toString()] is equality of ids.
    - The database, the console and the clock form the [World]; code that
      awaits the database is written in the state monad [M].  Each
      [new Date()] and [Date.now()] is a reading of the clock, and two
      readings in a row may differ.
    - [setHours] works in the local time of the server, which is taken to be
      at a fixed offset from UTC ([tzOffsetMs]).
    - [console.log] lines are left out; [console.error] lines are kept.
    - A [save()] stores the document; storage failures are not modelled. *)

From Stdlib Require Import ZArith Ascii String List Lia.
From stdpp Require Import gmap strings list fin_maps pretty sorting.

Local Open Scope string_scope.
Local Open Scope list_scope.
Local Open Scope Z_scope.

Abbreviation ObjectId := N.

(** ** Schemas *)

Inductive Role := admin | designer | project_manager | sales_representative | employee.

#[global] Instance Role_eq_dec : EqDecision Role.
Proof. solve_decision. Defined.

Inductive RewardType := points | gift.

(** An element of [userSchema.rewards]. *)
Module Reward.
Record t := mk {
  type : RewardType;
  value : Z;
  description : string;
  date : Z
}.
End Reward.

(** src/unnamed/part_002, lines 4-67.  [password], [department],
    [permissions] and [createdAt] play no part in the reward rules and are
    left out. *)
Module userSchema.
Record doc := mk {
  _id : ObjectId;
  name : string;
  email : string;
  role : Role;
  rewardPoints : Z;
  currentStreak : Z;
  lastTaskCompletion : option Z;
  rewards : list Reward.t
}.

(** A document as [new User({name, email, role})] makes it: the reward
    fields take the defaults of the schema. *)
Definition defaults (id : ObjectId) (n e : string) (r : Role) : doc :=
  mk id n e r 0 0 None [].

Definition set_rewardPoints (v : Z) (u : doc) : doc :=
  mk (_id u) (name u) (email u) (role u) v (currentStreak u)
     (lastTaskCompletion u) (rewards u).
Definition set_currentStreak (v : Z) (u : doc) : doc :=
  mk (_id u) (name u) (email u) (role u) (rewardPoints u) v
     (lastTaskCompletion u) (rewards u).
Definition set_lastTaskCompletion (v : option Z) (u : doc) : doc :=
  mk (_id u) (name u) (email u) (role u) (rewardPoints u) (currentStreak u)
     v (rewards u).
Definition set_rewards (v : list Reward.t) (u : doc) : doc :=
  mk (_id u) (name u) (email u) (role u) (rewardPoints u) (currentStreak u)
     (lastTaskCompletion u) v.
End userSchema.

Inductive Status := pending | in_progress | completed | overdue.

Inductive Priority := low | medium | high | urgent.

Inductive ExtensionStatus := ext_pending | ext_approved | ext_rejected.

(** [taskSchema.extensionRequest], src/models/Task.js, lines 54-84. *)
Module ExtensionRequest.
Record t := mk {
  requested : bool;
  status : ExtensionStatus;
  requestedBy : option ObjectId;
  requestedAt : option Z;
  reason : option string;
  newDueDate : option Z;
  approvedBy : option ObjectId;
  approvedAt : option Z
}.

Definition defaults : t :=
  mk false ext_pending None None None None None None.
End ExtensionRequest.

(** An element of [taskSchema.comments]. *)
Module Comment.
Record t := mk {
  text : string;
  postedBy : ObjectId;
  createdAt : Z
}.
End Comment.

(** src/models/Task.js, lines 3-117.  [attachments] are left out: no route
    of the sources writes them.  The schema of src/unnamed/part_001 is the
    same without [extensionRequest], which its [completeTask] does not
    read. *)
Module taskSchema.
Record doc := mk {
  _id : ObjectId;
  title : string;
  description : string;
  project : ObjectId;
  assignedTo : ObjectId;
  status : Status;
  priority : Priority;
  dueDate : Z;
  completionDate : option Z;
  isCompletedOnTime : bool;
  rewardPoints : Z;
  createdBy : ObjectId;
  extensionRequest : ExtensionRequest.t;
  comments : list Comment.t;
  createdAt : Z;
  updatedAt : Z
}.

Definition set_status (v : Status) (t : doc) : doc :=
  mk (_id t) (title t) (description t) (project t) (assignedTo t) v
     (priority t) (dueDate t) (completionDate t) (isCompletedOnTime t)
     (rewardPoints t) (createdBy t) (extensionRequest t) (comments t)
     (createdAt t) (updatedAt t).
Definition set_dueDate (v : Z) (t : doc) : doc :=
  mk (_id t) (title t) (description t) (project t) (assignedTo t) (status t)
     (priority t) v (completionDate t) (isCompletedOnTime t)
     (rewardPoints t) (createdBy t) (extensionRequest t) (comments t)
     (createdAt t) (updatedAt t).
Definition set_completionDate (v : option Z) (t : doc) : doc :=
  mk (_id t) (title t) (description t) (project t) (assignedTo t) (status t)
     (priority t) (dueDate t) v (isCompletedOnTime t)
     (rewardPoints t) (createdBy t) (extensionRequest t) (comments t)
     (createdAt t) (updatedAt t).
Definition set_isCompletedOnTime (v : bool) (t : doc) : doc :=
  mk (_id t) (title t) (description t) (project t) (assignedTo t) (status t)
     (priority t) (dueDate t) (completionDate t) v
     (rewardPoints t) (createdBy t) (extensionRequest t) (comments t)
     (createdAt t) (updatedAt t).
Definition set_rewardPoints (v : Z) (t : doc) : doc :=
  mk (_id t) (title t) (description t) (project t) (assignedTo t) (status t)
     (priority t) (dueDate t) (completionDate t) (isCompletedOnTime t)
     v (createdBy t) (extensionRequest t) (comments t)
     (createdAt t) (updatedAt t).
Definition set_extensionRequest (v : ExtensionRequest.t) (t : doc) : doc :=
  mk (_id t) (title t) (description t) (project t) (assignedTo t) (status t)
     (priority t) (dueDate t) (completionDate t) (isCompletedOnTime t)
     (rewardPoints t) (createdBy t) v (comments t)
     (createdAt t) (updatedAt t).
Definition set_comments (v : list Comment.t) (t : doc) : doc :=
  mk (_id t) (title t) (description t) (project t) (assignedTo t) (status t)
     (priority t) (dueDate t) (completionDate t) (isCompletedOnTime t)
     (rewardPoints t) (createdBy t) (extensionRequest t) v
     (createdAt t) (updatedAt t).
Definition set_updatedAt (v : Z) (t : doc) : doc :=
  mk (_id t) (title t) (description t) (project t) (assignedTo t) (status t)
     (priority t) (dueDate t) (completionDate t) (isCompletedOnTime t)
     (rewardPoints t) (createdBy t) (extensionRequest t) (comments t)
     (createdAt t) v.
End taskSchema.

Inductive NotificationType := comment | extension_request | extension_response.

(** The fields the task routes pass to [Notification.create] and to
    [new Notification]; the model file itself is not among the sources. *)
Module notificationSchema.
Record doc := mk {
  recipient : ObjectId;
  task : ObjectId;
  type : NotificationType;
  actor : ObjectId;
  message : string
}.
End notificationSchema.

(** ** The world: database, console, clock *)

(** The lines written with [console.error] outside of [catch] blocks. *)
Inductive ConsoleError :=
  | UserNotFound (assignedTo : ObjectId) (task : ObjectId).

Record World := mkWorld {
  users : gmap N userSchema.doc;
  tasks : gmap N taskSchema.doc;
  notifications : list notificationSchema.doc;
  stderr : list ConsoleError;
  clock : nat → Z;        (* the time shown by the n-th reading *)
  tick : nat;             (* number of readings made so far *)
  tzOffsetMs : Z          (* local time = UTC + tzOffsetMs *)
}.

Definition M (A : Type) : Type := World → A * World.

Definition ret {A} (a : A) : M A := λ w, (a, w).

Definition bind {A B} (m : M A) (k : A → M B) : M B :=
  λ w, let r := m w in k (fst r) (snd r).

Notation "x <~ m ;; k" := (bind m (λ x, k))
  (at level 100, m at next level, right associativity).
Notation "m ;;; k" := (bind m (λ _, k))
  (at level 100, right associativity).

(** [new Date()], [Date.now()] *)
Definition newDate : M Z :=
  λ w, (clock w (tick w),
        mkWorld (users w) (tasks w) (notifications w) (stderr w)
                (clock w) (S (tick w)) (tzOffsetMs w)).

Definition getTzOffsetMs : M Z := λ w, (tzOffsetMs w, w).

Definition console_error (e : ConsoleError) : M unit :=
  λ w, (tt, mkWorld (users w) (tasks w) (notifications w) (stderr w ++ [e])
                    (clock w) (tick w) (tzOffsetMs w)).

Definition putUser (u : userSchema.doc) : M unit :=
  λ w, (tt, mkWorld (<[userSchema._id u := u]> (users w)) (tasks w)
                    (notifications w) (stderr w)
                    (clock w) (tick w) (tzOffsetMs w)).

Definition putTask (t : taskSchema.doc) : M unit :=
  λ w, (tt, mkWorld (users w) (<[taskSchema._id t := t]> (tasks w))
                    (notifications w) (stderr w)
                    (clock w) (tick w) (tzOffsetMs w)).

Definition putNotification (n : notificationSchema.doc) : M unit :=
  λ w, (tt, mkWorld (users w) (tasks w) (notifications w ++ [n]) (stderr w)
                    (clock w) (tick w) (tzOffsetMs w)).

Definition msPerDay : Z := 1000 * 60 * 60 * 24.

(** ** The User model (src/unnamed/part_002) *)

Module User.
Import userSchema.

Definition findById (id : ObjectId) : M (option doc) :=
  λ w, (users w !! id, w).

(** [User.find({ role: 'admin' })] *)
Definition find_admins : M (list doc) :=
  λ w, (filter (λ u, role u = admin) (snd <$> map_to_list (users w)), w).

(** The pre-save hook only hashes a modified password: for the documents
    saved here it does nothing. *)
Definition save (this : doc) : M unit := putUser this.

(** lines 129-145 *)
Definition addRewardPoints (this : doc) (pts : Z) (reason : string) : M doc :=
  let this := set_rewardPoints (rewardPoints this + pts) this in
  d <~ newDate ;;
  let this := set_rewards (rewards this ++ [Reward.mk points pts reason d]) this in
  save this ;;;
  ret this.

(** The result of [Math.floor((now - lastCompletion) / (1000*60*60*24))]. *)
Definition daysDiff (now lastCompletion : Z) : Z :=
  (now - lastCompletion) / msPerDay.

(** lines 153-165: the streak after the branches on [lastCompletion]. *)
Definition nextStreak (this : doc) (now : Z) : Z :=
  match lastTaskCompletion this with
  | None => 1
  | Some lastCompletion =>
      if daysDiff now lastCompletion =? 1 then currentStreak this + 1
      else if daysDiff now lastCompletion >? 1 then 1
      else currentStreak this
  end.

Definition streakDescription (streak : Z) : string :=
  "Streak reward for " +:+ pretty streak +:+ " consecutive tasks".

(** lines 148-182 *)
Definition updateStreak (this : doc) (taskCompletionDate : Z) : M doc :=
  now <~ newDate ;;
  let this := set_currentStreak (nextStreak this now) this in
  let this := set_lastTaskCompletion (Some taskCompletionDate) this in
  this <~ (if Z.rem (currentStreak this) 10 =? 0 then
             let giftPoints := currentStreak this * 100 in
             addRewardPoints this giftPoints
               (streakDescription (currentStreak this))
           else ret this) ;;
  save this ;;;
  ret this.
End User.

(** ** The Task model (src/models/Task.js) *)

Module Task.
Import taskSchema.

Definition findById (id : ObjectId) : M (option doc) :=
  λ w, (tasks w !! id, w).

(** lines 120-123: the pre-save hook stamps [updatedAt], then the document
    is stored. *)
Definition save (this : doc) : M doc :=
  now <~ newDate ;;
  let this := set_updatedAt now this in
  putTask this ;;;
  ret this.

(** [d.setHours(23, 59, 59, 999)]: the last millisecond of the local
    calendar day of [d]. *)
Definition setHours_23_59_59_999 (tz d : Z) : Z :=
  (d + tz) / msPerDay * msPerDay + (msPerDay - 1) - tz.

Definition completionReason (this : doc) : string :=
  "On-time task completion: " +:+ title this.

(** lines 126-172 *)
Definition completeTask (this : doc) : M doc :=
  now <~ newDate ;;
  let this := set_status completed this in
  let this := set_completionDate (Some now) this in
  tz <~ getTzOffsetMs ;;
  let dueDate := setHours_23_59_59_999 tz (dueDate this) in
  let this := set_isCompletedOnTime (now <=? dueDate) this in
  let this := if isCompletedOnTime this
              then set_rewardPoints 50 this
              else set_rewardPoints 0 this in
  this <~ save this ;;
  user <~ User.findById (assignedTo this) ;;
  match user with
  | Some user =>
      if isCompletedOnTime this then
        user <~ User.updateStreak user now ;;
        User.addRewardPoints user (rewardPoints this) (completionReason this) ;;;
        ret this
      else ret this
  | None =>
      console_error (UserNotFound (assignedTo this) (_id this)) ;;;
      ret this
  end.
End Task.

(** ** The other version of the Task model (src/unnamed/part_001) *)

Module Task_part_001.
Import taskSchema.

(** lines 109-122: the [switch] on the priority. *)
Definition priorityPoints (p : Priority) : Z :=
  match p with
  | urgent => 50
  | high => 30
  | medium => 20
  | low => 10
  end.

Definition completionReason (this : doc) : string :=
  "Task completion reward: " +:+ title this.

(** lines 95-152 *)
Definition completeTask (this : doc) : M doc :=
  now <~ newDate ;;
  let this := set_status completed this in
  let this := set_completionDate (Some now) this in
  let this := set_isCompletedOnTime (now <=? dueDate this) this in
  let this := if isCompletedOnTime this
              then let this := set_rewardPoints 50 this in
                   set_rewardPoints
                     (rewardPoints this + priorityPoints (priority this)) this
              else this in
  this <~ Task.save this ;;
  user <~ User.findById (assignedTo this) ;;
  match user with
  | Some user =>
      if isCompletedOnTime this then
        user <~ User.updateStreak user now ;;
        User.addRewardPoints user (rewardPoints this) (completionReason this) ;;;
        ret this
      else ret this
  | None =>
      console_error (UserNotFound (assignedTo this) (_id this)) ;;;
      ret this
  end.
End Task_part_001.

(** ** The task routes (src/unnamed/part_003) *)

Module Notification.
Import notificationSchema.

(** [Notification.create(n)], and [new Notification(n)] followed by
    [save()]. *)
Definition create (n : doc) : M unit := putNotification n.
End Notification.

(** What a handler hands to [res.json], next to the status code. *)
Record RewardInfo := mkRewardInfo {
  pointsEarned : Z;
  totalPoints : Z;
  ri_currentStreak : Z;
  ri_isCompletedOnTime : bool
}.

Inductive Body :=
  | Message (message : string)
  | TaskJson (task : taskSchema.doc)
  | TaskAndReward (task : option taskSchema.doc) (rewardInfo : option RewardInfo)
  | MessageAndTask (message : string) (task : taskSchema.doc).

Record Response := mkResponse { code : Z; body : Body }.

Definition json (b : Body) : Response := mkResponse 200 b.

Module tasksRouter.
Import taskSchema.

Definition dquote : string := String (ascii_of_nat 34) EmptyString.

(** [!s] for a field of the request body that holds a string or is
    missing. *)
Definition falsy (s : option string) : bool :=
  match s with
  | None => true
  | Some EmptyString => true
  | Some _ => false
  end.

Definition commentMessage (task : doc) (commenterName : string) : string :=
  "New comment on task " +:+ dquote +:+ title task +:+ dquote +:+
  " by " +:+ commenterName.

Definition commentNotification (recipient : ObjectId) (task : doc)
    (actor : ObjectId) (commenterName : string) : notificationSchema.doc :=
  notificationSchema.mk recipient (_id task) comment actor
    (commentMessage task commenterName).

(** lines 203-213 *)
Definition notifyCreator (task : doc) (user_id : ObjectId)
    (commenterName : string) : list notificationSchema.doc :=
  if bool_decide (createdBy task ≠ user_id)
  then [commentNotification (createdBy task) task user_id commenterName]
  else [].

(** lines 216-226 *)
Definition notifyAssigned (task : doc) (user_id : ObjectId)
    (commenterName : string) : list notificationSchema.doc :=
  if bool_decide (assignedTo task ≠ user_id)
  then [commentNotification (assignedTo task) task user_id commenterName]
  else [].

(** lines 230-245: the body of the [forEach] over the admin users. *)
Definition notifyAdmin (task : doc) (user_id : ObjectId)
    (commenterName : string) (admin : userSchema.doc)
    : list notificationSchema.doc :=
  if bool_decide (userSchema._id admin ≠ user_id) &&
     bool_decide (userSchema._id admin ≠ createdBy task) &&
     bool_decide (userSchema._id admin ≠ assignedTo task)
  then [commentNotification (userSchema._id admin) task user_id commenterName]
  else [].

Fixpoint createAll (ns : list notificationSchema.doc) : M unit :=
  match ns with
  | [] => ret tt
  | n :: ns => Notification.create n ;;; createAll ns
  end.

(** lines 177-253: POST /:id/comments *)
Definition post_comments (req_user : userSchema.doc) (id : ObjectId)
    (text : string) : M Response :=
  task <~ Task.findById id ;;
  match task with
  | None => ret (mkResponse 404 (Message "Task not found"))
  | Some task =>
      now <~ newDate ;;
      let task :=
        set_comments
          (comments task ++ [Comment.mk text (userSchema._id req_user) now])
          task in
      task <~ Task.save task ;;
      currentUser <~ User.findById (userSchema._id req_user) ;;
      let commenterName :=
        match currentUser with
        | Some currentUser => userSchema.name currentUser
        | None => "unknown"
        end in
      let user_id := userSchema._id req_user in
      adminUsers <~ User.find_admins ;;
      let notificationPromises :=
        notifyCreator task user_id commenterName ++
        notifyAssigned task user_id commenterName ++
        concat (map (notifyAdmin task user_id commenterName) adminUsers) in
      createAll notificationPromises ;;;
      ret (json (TaskJson task))
  end.

(** [validStatuses.includes(status)], with the status it names. *)
Definition validStatus (s : string) : option Status :=
  if String.eqb s "pending" then Some pending
  else if String.eqb s "in_progress" then Some in_progress
  else if String.eqb s "completed" then Some completed
  else if String.eqb s "overdue" then Some overdue
  else None.

(** lines 256-325: PATCH /:id/status *)
Definition patch_status (req_user : userSchema.doc) (id : ObjectId)
    (status : option string) : M Response :=
  if falsy status then ret (mkResponse 400 (Message "Status is required"))
  else
    match status ≫= validStatus with
    | None =>
        ret (mkResponse 400 (Message
          "Invalid status value. Must be one of: pending, in_progress, completed, overdue"))
    | Some status =>
        task <~ Task.findById id ;;
        match task with
        | None => ret (mkResponse 404 (Message "Task not found"))
        | Some task =>
            let isAssigned :=
              bool_decide (assignedTo task = userSchema._id req_user) in
            let isAdmin := bool_decide (userSchema.role req_user = admin) in
            if negb isAssigned && negb isAdmin then
              ret (mkResponse 403 (Message
                "You are not authorized to update this task status"))
            else
              let task := set_status status task in
              rewardInfo <~
                match status with
                | completed =>
                    completedTask <~ Task.completeTask task ;;
                    user <~ User.findById (assignedTo task) ;;
                    ret (match user with
                         | Some user =>
                             Some (mkRewardInfo
                               (rewardPoints completedTask)
                               (userSchema.rewardPoints user)
                               (userSchema.currentStreak user)
                               (isCompletedOnTime completedTask))
                         | None => None
                         end)
                | _ => Task.save task ;;; ret None
                end ;;
              updatedTask <~ Task.findById id ;;
              ret (json (TaskAndReward updatedTask rewardInfo))
        end
    end.
(** lines 362-413: POST /:id/extension-request.  [newDueDate] is the date
    the body's string denotes, when the field is there. *)
Definition post_extension_request (req_user : userSchema.doc)
    (id : ObjectId) (reason : option string) (newDueDate : option Z)
    : M Response :=
  task <~ Task.findById id ;;
  match task with
  | None => ret (mkResponse 404 (Message "Task not found"))
  | Some task =>
      if bool_decide (assignedTo task ≠ userSchema._id req_user) then
        ret (mkResponse 403 (Message "You are not assigned to this task"))
      else
        match (if falsy reason then None else newDueDate) with
        | None =>
            ret (mkResponse 400
                   (Message "Reason and new due date are required"))
        | Some proposedDate =>
            if proposedDate <=? dueDate task then
              ret (mkResponse 400
                     (Message "New due date must be after current due date"))
            else
              now <~ newDate ;;
              let task :=
                set_extensionRequest
                  (ExtensionRequest.mk true ext_pending
                     (Some (userSchema._id req_user)) (Some now) reason
                     (Some proposedDate) None None)
                  task in
              task <~ Task.save task ;;
              Notification.create
                (notificationSchema.mk (createdBy task) (_id task)
                   extension_request (userSchema._id req_user)
                   ("Extension requested for task: " +:+ title task)) ;;;
              ret (json (MessageAndTask
                           "Extension request submitted successfully" task))
        end
  end.

(** The resolutions the handler accepts:
    [['approved', 'rejected'].includes(status)]. *)
Definition resolution (s : string) : option ExtensionStatus :=
  if String.eqb s "approved" then Some ext_approved
  else if String.eqb s "rejected" then Some ext_rejected
  else None.

Definition responseMessage (task : doc) (status : string) : string :=
  "Your extension request for task " +:+ dquote +:+ title task +:+ dquote +:+
  " has been " +:+ status.

(** lines 443-447 *)
Definition approve (task : doc) (proposedDate : Z) (by_ : ObjectId)
    (now : Z) : doc :=
  let task := set_dueDate proposedDate task in
  let e := extensionRequest task in
  set_extensionRequest
    (ExtensionRequest.mk (ExtensionRequest.requested e) ext_approved
       (ExtensionRequest.requestedBy e) (ExtensionRequest.requestedAt e)
       (ExtensionRequest.reason e) (Some proposedDate)
       (Some by_) (Some now))
    task.

(** lines 449-451 *)
Definition reject (task : doc) (by_ : ObjectId) (now : Z) : doc :=
  let e := extensionRequest task in
  set_extensionRequest
    (ExtensionRequest.mk (ExtensionRequest.requested e) ext_rejected
       (ExtensionRequest.requestedBy e) (ExtensionRequest.requestedAt e)
       (ExtensionRequest.reason e) (ExtensionRequest.newDueDate e)
       (Some by_) (Some now))
    task.

(** lines 454-470: the end of the handler, common to both resolutions. *)
Definition resolved (req_user : userSchema.doc) (task : doc)
    (status : string) : M Response :=
  task <~ Task.save task ;;
  Notification.create
    (notificationSchema.mk (assignedTo task) (_id task)
       extension_response (userSchema._id req_user)
       (responseMessage task status)) ;;;
  ret (json (MessageAndTask
               ("Extension request " +:+ status +:+ " successfully") task)).

(** lines 416-475: PATCH /:id/extension-request, behind the [isAdmin]
    middleware.  [newDueDate] is the date the body's string denotes, when
    the field is there. *)
Definition patch_extension_request (req_user : userSchema.doc)
    (id : ObjectId) (status : option string) (newDueDate : option Z)
    : M Response :=
  task <~ Task.findById id ;;
  match task with
  | None => ret (mkResponse 404 (Message "Task not found"))
  | Some task =>
      if negb (ExtensionRequest.requested (extensionRequest task)) then
        ret (mkResponse 400
               (Message "No extension request found for this task"))
      else
        match status, status ≫= resolution with
        | Some status, Some ext_approved =>
            match newDueDate with
            | None =>
                ret (mkResponse 400 (Message
                  "New due date is required when approving extension"))
            | Some proposedDate =>
                if proposedDate <=? dueDate task then
                  ret (mkResponse 400 (Message
                    "New due date must be after current due date"))
                else
                  now <~ newDate ;;
                  resolved req_user
                    (approve task proposedDate (userSchema._id req_user) now)
                    status
            end
        | Some status, Some ext_rejected =>
            now <~ newDate ;;
            resolved req_user
              (reject task (userSchema._id req_user) now) status
        | _, _ =>
            ret (mkResponse 400
                   (Message "Valid status (approved/rejected) is required"))
        end
  end.
End tasksRouter.

(** ** Notions of the specification *)

(** The sum of the values of the reward-log entries of type "points". *)
Fixpoint sumPoints (rs : list Reward.t) : Z :=
  match rs with
  | [] => 0
  | r :: rs =>
      match Reward.type r with
      | points => Reward.value r + sumPoints rs
      | gift => sumPoints rs
      end
  end.

(** The calendar day of an instant, in local time: days since the epoch. *)
Definition calendarDay (tz t : Z) : Z := (t + tz) / msPerDay.

(** The time of day of an instant, in local time: milliseconds since
    midnight. *)
Definition timeOfDay (tz t : Z) : Z := (t + tz) mod msPerDay.

(** What the reward rules keep true of a stored user. *)
Record sound (u : userSchema.doc) : Prop := mkSound {
  sound_points : userSchema.rewardPoints u = sumPoints (userSchema.rewards u);
  sound_streak : 0 ≤ userSchema.currentStreak u
}.

(** Every user is stored under its own id and is [sound]. *)
Definition consistent (w : World) : Prop :=
  ∀ id u, users w !! id = Some u → userSchema._id u = id ∧ sound u.

(** No stored user loses points from [w] to [w']. *)
Definition neverDecrements (w w' : World) : Prop :=
  ∀ id u, users w !! id = Some u →
    ∃ u', users w' !! id = Some u' ∧
          userSchema.rewardPoints u ≤ userSchema.rewardPoints u'.

(** What a call of [completeTask], in either version, does to the users:
    nothing, or one stored user is replaced by a sound one with the same id
    and no fewer points. *)
Definition awardsOne (w w' : World) : Prop :=
  users w' = users w ∨
  ∃ id user user',
    users w !! id = Some user ∧
    users w' = <[userSchema._id user := user']> (users w) ∧
    (sound user → sound user' ∧
                  userSchema._id user' = userSchema._id user ∧
                  userSchema.rewardPoints user ≤ userSchema.rewardPoints user').

(** Modelled from the spec: the registration route is not among the
    sources.  "Lifecycle: created at registration; rewardPoints and
    currentStreak mutated only by the Reward/Streak Engine": a registered
    user starts from the defaults of [userSchema]. *)
Definition register (id : ObjectId) (n e : string) (r : Role) : M unit :=
  User.save (userSchema.defaults id n e r).

(** One request served, or one call of [completeTask].  The routes of the
    sources that are not embedded write no user. *)
Inductive step : World → World → Prop :=
  | step_register id n e r w :
      users w !! id = None →
      step w (snd (register id n e r w))
  | step_completeTask this w :
      step w (snd (Task.completeTask this w))
  | step_completeTask_001 this w :
      step w (snd (Task_part_001.completeTask this w))
  | step_patch_status req_user id status w :
      step w (snd (tasksRouter.patch_status req_user id status w))
  | step_post_comments req_user id text w :
      step w (snd (tasksRouter.post_comments req_user id text w))
  | step_post_extension_request req_user id reason newDueDate w :
      step w (snd (tasksRouter.post_extension_request
                     req_user id reason newDueDate w))
  | step_patch_extension_request req_user id status newDueDate w :
      step w (snd (tasksRouter.patch_extension_request
                     req_user id status newDueDate w))
  | step_no_user_write w w' :
      (* the other routes: tasks, projects and notifications *)
      users w' = users w →
      step w w'.

(** The worlds the system can be in, from a database without users. *)
Inductive reachable : World → Prop :=
  | reachable_init w : users w = ∅ → reachable w
  | reachable_step w w' : reachable w → step w w' → reachable w'.

(** ** Sample data *)

Module Sample.
(** 2024-01-10T00:00:00.000Z *)
Definition jan10 : Z := 1704844800000.
Definition hour : Z := 1000 * 60 * 60.

(** A clock that starts at [t0] and moves by a millisecond per reading. *)
Definition clockFrom (t0 : Z) : nat → Z := λ n, t0 + Z.of_nat n.

Definition asha : userSchema.doc :=
  userSchema.defaults 2 "Asha" "asha@example.com" employee.

Definition root : userSchema.doc :=
  userSchema.defaults 9 "Root" "root@example.com" admin.

Definition task (id : ObjectId) (p : Priority) (due : Z) : taskSchema.doc :=
  taskSchema.mk id "Floor plan" "Draw the floor plan" 7 2 pending p due
    None false 0 9 ExtensionRequest.defaults [] 0 0.

(** A server on UTC whose clock shows [t0], with the users [us] and the
    tasks [ts]. *)
Definition world (us : list userSchema.doc) (ts : list taskSchema.doc)
    (t0 : Z) : World :=
  mkWorld (list_to_map (map (λ u, (userSchema._id u, u)) us))
          (list_to_map (map (λ t, (taskSchema._id t, t)) ts))
          [] [] (clockFrom t0) 0 0.

(** Asha on a streak of [s] days, for [s] below ten, with 50 points for
    each of them; her last completion was at [t]. *)
Definition ashaOnStreak (s t : Z) : userSchema.doc :=
  userSchema.mk 2 "Asha" "asha@example.com" employee
    (50 * s) s (Some t)
    (repeat (Reward.mk points 50 "On-time task completion: Floor plan" t)
            (Z.to_nat s)).
End Sample.

(** ** Scenarios *)

Module Scenario.
Import Sample.

(** The same world a while later, when the clock shows [t]. *)
Definition at_ (t : Z) (w : World) : World :=
  mkWorld (users w) (tasks w) (notifications w) (stderr w)
          (clockFrom t) 0 (tzOffsetMs w).

Definition day (n : Z) : Z := jan10 + n * msPerDay.

(** One task a day, each completed at 09:00 of the days [d], [d+1], ...;
    all of them due on day 30. *)
Fixpoint daily (n : nat) (d : Z) (w : World) : World :=
  match n with
  | O => w
  | S n =>
      let w := at_ (day d + 9 * hour) w in
      let w := snd (Task.completeTask (task 1 medium (day 30)) w) in
      daily n (d + 1) w
  end.

(** Asha registers, then completes a task on each of ten days in a row. *)
Definition tenDays : World :=
  daily 10 0 (snd (register 2 "Asha" "asha@example.com" employee
                     (world [] [] jan10))).

(** On the tenth day she completes one more task, at 10:00. *)
Definition oneMore : World :=
  snd (Task.completeTask (task 1 medium (day 30))
         (at_ (day 9 + 10 * hour) tenDays)).

(** Asha and an administrator; a task of high priority due on January 10,
    and a clock that shows 22:00 of that day. *)
Definition start : World :=
  world [asha; root] [task 1 high jan10] (jan10 + 22 * hour).

(** The administrator sets the task to "completed", and then once more. *)
Definition completedOnce : World :=
  snd (tasksRouter.patch_status root 1 (Some "completed") start).


(** The task and Asha as [completedOnce] holds them. *)
Definition taskOnce : taskSchema.doc :=
  taskSchema.mk 1 "Floor plan" "Draw the floor plan" 7 2 completed high
    jan10 (Some (jan10 + 22 * hour)) true 50 9 ExtensionRequest.defaults []
    0 (jan10 + 22 * hour + 1).

Definition ashaOnce : userSchema.doc :=
  userSchema.mk 2 "Asha" "asha@example.com" employee 50 1
    (Some (jan10 + 22 * hour))
    [Reward.mk points 50 "On-time task completion: Floor plan"
       (jan10 + 22 * hour + 3)].

(** The task with a request of Asha to move its due date to January 12,
    waiting for an answer. *)
Definition taskWithRequest : taskSchema.doc :=
  taskSchema.set_extensionRequest
    (ExtensionRequest.mk true ext_pending (Some 2%N)
       (Some (jan10 - 2 * hour)) (Some "The client moved the meeting")
       (Some (day 2)) None None)
    (task 1 high jan10).

(** Asha registers and completes a task on time. *)
Definition registered : World :=
  snd (register 2 "Asha" "asha@example.com" employee (world [] [] jan10)).

Definition firstTask : World :=
  snd (Task.completeTask (task 1 medium (day 30)) registered).
End Scenario.

(** ** The rest of the User model (src/unnamed/part_002) *)

Module UserHooks.

(** lines 70-92: what the pre-save hook leaves in [this.password].
    [bcrypt_hash] is [bcrypt.hash] with the salt the hook draws;
    [isModified] is [this.isModified('password')].  A password is taken to
    be made of one-byte characters, so that its [length] is the number of
    its characters. *)
Definition preSavePassword (bcrypt_hash : string → string) (isModified : bool)
    (password : string) : string :=
  if negb isModified then password
  else if (String.length password <? 30)%nat then bcrypt_hash password
  else password.

End UserHooks.

(** ** Notifications and projects as they are stored *)

(** Modelled from the spec: the Notification model is not among the
    sources.  "Notification: id; recipient; actor; task reference; type;
    message; isRead flag; createdAt."  A stored notification has the fields
    the task routes write and, besides them, its id, the read flag and the
    date of its creation. *)
Module storedNotification.
Record doc := mk {
  _id : ObjectId;
  fields : notificationSchema.doc;
  isRead : bool;
  createdAt : Z
}.

Definition set_isRead (v : bool) (n : doc) : doc :=
  mk (_id n) (fields n) v (createdAt n).
End storedNotification.

(** An element of [projectSchema.milestones], src/unnamed/part_000,
    lines 62-73. *)
Module Milestone.
Record t := mk {
  _id : ObjectId;
  title : string;
  description : string;
  dueDate : option Z;
  completed : bool;
  completedAt : option Z
}.
End Milestone.

(** src/unnamed/part_000.  [client], [startDate], [endDate], [status],
    [budget], [documents] and [createdAt] play no part in the routes
    embedded here and are left out. *)
Module projectSchema.
Record doc := mk {
  _id : ObjectId;
  name : string;
  description : string;
  team : list ObjectId;
  projectManager : ObjectId;
  milestones : list Milestone.t;
  updatedAt : Z
}.

Definition set_team (v : list ObjectId) (p : doc) : doc :=
  mk (_id p) (name p) (description p) v (projectManager p) (milestones p)
     (updatedAt p).
Definition set_milestones (v : list Milestone.t) (p : doc) : doc :=
  mk (_id p) (name p) (description p) (team p) (projectManager p) v
     (updatedAt p).
Definition set_updatedAt (v : Z) (p : doc) : doc :=
  mk (_id p) (name p) (description p) (team p) (projectManager p)
     (milestones p) v.
End projectSchema.

(** ** The rest of the task routes (src/unnamed/part_003) *)

(** A row of the leaderboard:
    [select('name email rewardPoints currentStreak')], and the id. *)
Record LeaderboardRow := mkLeaderboardRow {
  row_id : ObjectId;
  row_name : string;
  row_email : string;
  row_rewardPoints : Z;
  row_currentStreak : Z
}.

(** A notification as the read route answers it: the stored document, the
    actor as [populate('actor', 'name email')] leaves it, and the message
    with the name of the actor filled in. *)
Record ReadNotification := mkReadNotification {
  rn_doc : storedNotification.doc;
  rn_actor : option (ObjectId * string * string);
  rn_message : string
}.

(** The bodies these routes hand to [res.json]. *)
Inductive Json :=
  | JMessage (message : string)
  | JExtensionRequest (extensionRequest : ExtensionRequest.t)
  | JRewards (rewardPoints currentStreak : Z) (rewards : list Reward.t)
  | JLeaderboard (rows : list LeaderboardRow)
  | JNotification (notification : ReadNotification)
  | JReadAll (message : string) (modifiedCount : nat)
  | JCount (count : nat)
  | JProject (project : projectSchema.doc)
  | JDeletedProject (message : string) (deletedProjectId : ObjectId).

Record Answer := mkAnswer { answerCode : Z; answerBody : Json }.

(** [Task.findByIdAndDelete(id)], once the task is known to be there. *)
Definition removeTask (id : ObjectId) : M unit :=
  λ w, (tt, mkWorld (users w) (delete id (tasks w)) (notifications w)
                    (stderr w) (clock w) (tick w) (tzOffsetMs w)).

Module tasksRouterRest.
Import taskSchema.

(** lines 164-174: DELETE /:id, behind the [isAdmin] middleware *)
Definition delete_task (id : ObjectId) : M Response :=
  task <~ Task.findById id ;;
  match task with
  | None => ret (mkResponse 404 (Message "Task not found"))
  | Some _ =>
      removeTask id ;;;
      ret (json (Message "Task deleted successfully"))
  end.

(** lines 328-344: GET /rewards/me *)
Definition get_rewards_me (req_user : userSchema.doc) : M Answer :=
  user <~ User.findById (userSchema._id req_user) ;;
  match user with
  | None => ret (mkAnswer 404 (JMessage "User not found"))
  | Some user =>
      ret (mkAnswer 200
             (JRewards (userSchema.rewardPoints user)
                (userSchema.currentStreak user) (userSchema.rewards user)))
  end.

(** The order of [sort({ rewardPoints: -1 })]: more points first. *)
Definition morePoints (a b : userSchema.doc) : Prop :=
  userSchema.rewardPoints b ≤ userSchema.rewardPoints a.

#[global] Instance morePoints_dec : RelDecision morePoints.
Proof. intros a b. unfold morePoints. apply _. Defined.

Definition leaderboardRow (u : userSchema.doc) : LeaderboardRow :=
  mkLeaderboardRow (userSchema._id u) (userSchema.name u) (userSchema.email u)
    (userSchema.rewardPoints u) (userSchema.currentStreak u).

(** [User.find({ role: { $ne: 'admin' } })] *)
Definition find_not_admins (w : World) : list userSchema.doc :=
  filter (λ u, userSchema.role u ≠ admin) (snd <$> map_to_list (users w)).

(** [.sort({ rewardPoints: -1 }).limit(10)].  The database leaves the order
    of users with equal points open; here it is the one of the merge
    sort. *)
Definition topTen (w : World) : list userSchema.doc :=
  take 10 (merge_sort morePoints (find_not_admins w)).

(** lines 347-359: GET /rewards/leaderboard *)
Definition get_rewards_leaderboard : M Answer :=
  λ w, (mkAnswer 200 (JLeaderboard (leaderboardRow <$> topTen w)), w).

(** lines 478-497: GET /:id/extension-request *)
Definition get_extension_request (req_user : userSchema.doc) (id : ObjectId)
    : M Answer :=
  task <~ Task.findById id ;;
  match task with
  | None => ret (mkAnswer 404 (JMessage "Task not found"))
  | Some task =>
      if bool_decide (assignedTo task ≠ userSchema._id req_user) &&
         bool_decide (createdBy task ≠ userSchema._id req_user) &&
         bool_decide (userSchema.role req_user ≠ admin)
      then ret (mkAnswer 403 (JMessage
                  "You are not authorized to view this extension request"))
      else ret (mkAnswer 200 (JExtensionRequest (extensionRequest task)))
  end.

End tasksRouterRest.

(** ** The notification routes (src/routes/notifications.js) *)

(** [s.replace(pattern, replacement)] for a pattern that is a string: the
    first occurrence of the pattern is replaced, and in the replacement
    [$$], [$&], [$`] and [$'] stand for a dollar sign, the match, the text
    before it and the text after it. *)
Module JsString.

(** The text before and after the first occurrence of [pattern]. *)
Fixpoint splitAtFirst (pattern s : string) : option (string * string) :=
  if String.prefix pattern s
  then Some (EmptyString, String.substring (String.length pattern)
                            (String.length s - String.length pattern) s)
  else match s with
       | EmptyString => None
       | String c s' =>
           match splitAtFirst pattern s' with
           | Some (before, after) => Some (String c before, after)
           | None => None
           end
       end.

Fixpoint getSubstitution (matched before after template : string) : string :=
  match template with
  | EmptyString => EmptyString
  | String c rest =>
      if Ascii.eqb c "$" then
        match rest with
        | EmptyString => String c EmptyString
        | String d rest' =>
            if Ascii.eqb d "$" then String d (getSubstitution matched before after rest')
            else if Ascii.eqb d "&" then matched +:+ getSubstitution matched before after rest'
            else if Ascii.eqb d "`" then before +:+ getSubstitution matched before after rest'
            else if Ascii.eqb d "'" then after +:+ getSubstitution matched before after rest'
            else String c (getSubstitution matched before after rest)
        end
      else String c (getSubstitution matched before after rest)
  end.

Definition replace (s pattern replacement : string) : string :=
  match splitAtFirst pattern s with
  | None => s
  | Some (before, after) =>
      before +:+ getSubstitution pattern before after replacement +:+ after
  end.

End JsString.

Module notificationsRouter.
Import storedNotification.

(** lines 64-68: the name of the actor, or 'unknown' when the populated
    actor is null: [populate] leaves the actor of a user that exists. *)
Definition actorName (users : gmap N userSchema.doc) (n : doc) : string :=
  match users !! notificationSchema.actor (fields n) with
  | Some actor => userSchema.name actor
  | None => "unknown"
  end.

Definition populateActor (users : gmap N userSchema.doc) (n : doc)
    : option (ObjectId * string * string) :=
  match users !! notificationSchema.actor (fields n) with
  | Some actor =>
      Some (userSchema._id actor, userSchema.name actor, userSchema.email actor)
  | None => None
  end.

(** lines 46-84: PATCH /:id/read *)
Definition patch_read (req_user : userSchema.doc) (id : ObjectId)
    (users : gmap N userSchema.doc) (inbox : gmap N doc)
    : Answer * gmap N doc :=
  match inbox !! id with
  | None => (mkAnswer 404 (JMessage "Notification not found"), inbox)
  | Some notification =>
      if bool_decide (notificationSchema.recipient (fields notification) ≠
                      userSchema._id req_user)
      then (mkAnswer 403 (JMessage
              "Not authorized to mark this notification as read"), inbox)
      else
        let notification := set_isRead true notification in
        let inbox := <[_id notification := notification]> inbox in
        (mkAnswer 200 (JNotification
           (mkReadNotification notification (populateActor users notification)
              (JsString.replace
                 (notificationSchema.message (fields notification))
                 "unknown" (actorName users notification)))),
         inbox)
  end.

(** The filter [{ recipient: req.user._id, isRead: false }]. *)
Definition unreadOf (user_id : ObjectId) (n : doc) : Prop :=
  notificationSchema.recipient (fields n) = user_id ∧ isRead n = false.

#[global] Instance unreadOf_dec user_id n : Decision (unreadOf user_id n).
Proof. unfold unreadOf. apply _. Defined.

(** [Notification.countDocuments({ recipient, isRead: false })] *)
Definition countUnread (user_id : ObjectId) (inbox : gmap N doc) : nat :=
  size (filter (λ kv, unreadOf user_id (snd kv)) inbox).

(** [Notification.updateMany({ recipient, isRead: false },
    { $set: { isRead: true } })] *)
Definition updateMany_read (user_id : ObjectId) (inbox : gmap N doc)
    : gmap N doc :=
  (λ n, if decide (unreadOf user_id n) then set_isRead true n else n) <$> inbox.

(** lines 87-109: PATCH /read-all *)
Definition patch_read_all (req_user : userSchema.doc) (inbox : gmap N doc)
    : Answer * gmap N doc :=
  let modifiedCount := countUnread (userSchema._id req_user) inbox in
  let inbox := updateMany_read (userSchema._id req_user) inbox in
  if (modifiedCount =? 0)%nat
  then (mkAnswer 404 (JMessage "No unread notifications found"), inbox)
  else (mkAnswer 200 (JReadAll "All notifications marked as read" modifiedCount),
        inbox).

(** lines 112-127: GET /unread/count *)
Definition get_unread_count (req_user : userSchema.doc) (inbox : gmap N doc)
    : Answer :=
  mkAnswer 200 (JCount (countUnread (userSchema._id req_user) inbox)).

End notificationsRouter.

(** ** The project routes (src/routes/projects.js) *)

(** [Task.deleteMany({ project: id })] *)
Definition deleteManyTasks (project : ObjectId) : M unit :=
  λ w, (tt, mkWorld (users w)
                    (filter (λ kv, taskSchema.project (snd kv) ≠ project)
                            (tasks w))
                    (notifications w) (stderr w)
                    (clock w) (tick w) (tzOffsetMs w)).

(** The handlers read and write the projects, passed along next to the
    world. *)
Module projectsRouter.
Import projectSchema.

(** src/unnamed/part_000, lines 98-101: the pre-save hook stamps
    [updatedAt], then the project is stored. *)
Definition save (this : doc) (projects : gmap N doc) : M (doc * gmap N doc) :=
  now <~ newDate ;;
  let this := set_updatedAt now this in
  ret (this, <[_id this := this]> projects).

(** lines 169-190: DELETE /:id, behind the [isAdmin] middleware *)
Definition delete_project (id : ObjectId) (projects : gmap N doc)
    : M (Answer * gmap N doc) :=
  match projects !! id with
  | None => ret (mkAnswer 404 (JMessage "Project not found"), projects)
  | Some project =>
      deleteManyTasks (_id project) ;;;
      ret (mkAnswer 200
             (JDeletedProject
                "Project and associated tasks deleted successfully"
                (_id project)),
           delete (_id project) projects)
  end.

(** lines 193-211: POST /:id/team, behind the [isAdmin] middleware.
    [userId] is taken to be a well-formed id; [includes] on the array of
    the team compares the ids. *)
Definition post_team (id userId : ObjectId) (projects : gmap N doc)
    : M (Answer * gmap N doc) :=
  match projects !! id with
  | None => ret (mkAnswer 404 (JMessage "Project not found"), projects)
  | Some project =>
      if bool_decide (userId ∈ team project) then
        ret (mkAnswer 200 (JProject project), projects)
      else
        r <~ save (set_team (team project ++ [userId]) project) projects ;;
        ret (mkAnswer 200 (JProject (fst r)), snd r)
  end.

(** lines 214-231: DELETE /:id/team/:userId, behind the [isAdmin]
    middleware *)
Definition delete_team_member (id userId : ObjectId) (projects : gmap N doc)
    : M (Answer * gmap N doc) :=
  match projects !! id with
  | None => ret (mkAnswer 404 (JMessage "Project not found"), projects)
  | Some project =>
      r <~ save (set_team (filter (λ memberId, memberId ≠ userId)
                                  (team project)) project) projects ;;
      ret (mkAnswer 200 (JProject (fst r)), snd r)
  end.

(** lines 279-281: the check that lets an administrator, a member of the
    team and the project manager through. *)
Definition accessDenied (req_user : userSchema.doc) (project : doc) : bool :=
  bool_decide (userSchema.role req_user ≠ admin) &&
  negb (bool_decide (userSchema._id req_user ∈ team project)) &&
  bool_decide (projectManager project ≠ userSchema._id req_user).

(** lines 285-288: [milestone.completed = req.body.completed], and the date
    when it is true. *)
Definition setCompleted (completed : bool) (now : Z) (m : Milestone.t)
    : Milestone.t :=
  Milestone.mk (Milestone._id m) (Milestone.title m) (Milestone.description m)
    (Milestone.dueDate m) completed
    (if completed then Some now else Milestone.completedAt m).

(** lines 265-295: PUT /:id/milestones/:milestoneId.  [completed] is the
    boolean of the body. *)
Definition put_milestone (req_user : userSchema.doc) (id milestoneId : ObjectId)
    (completed : bool) (projects : gmap N doc) : M (Answer * gmap N doc) :=
  match projects !! id with
  | None => ret (mkAnswer 404 (JMessage "Project not found"), projects)
  | Some project =>
      match list_find (λ m, Milestone._id m = milestoneId) (milestones project) with
      | None => ret (mkAnswer 404 (JMessage "Milestone not found"), projects)
      | Some (i, milestone) =>
          if accessDenied req_user project then
            ret (mkAnswer 403 (JMessage "Access denied"), projects)
          else
            now <~ (if completed then newDate else ret 0) ;;
            let milestone := setCompleted completed now milestone in
            r <~ save (set_milestones (<[i := milestone]> (milestones project))
                         project) projects ;;
            ret (mkAnswer 200 (JProject (fst r)), snd r)
      end
  end.

End projectsRouter.

(** ** More sample data *)

Module Fixture.

Definition ben : userSchema.doc :=
  userSchema.defaults 3 "Ben" "ben@example.com" designer.

Definition users : gmap N userSchema.doc :=
  list_to_map [(2%N, Sample.asha); (3%N, ben); (9%N, Sample.root)].

(** Two unread notifications for Asha, and a read one for Ben. *)
Definition notification (id recipient : ObjectId) (read : bool)
    : storedNotification.doc :=
  storedNotification.mk id
    (notificationSchema.mk recipient 1 comment 9
       "New comment on task Floor plan by unknown")
    read (Sample.jan10 + Z.of_N id).

Definition inbox : gmap N storedNotification.doc :=
  list_to_map [(11%N, notification 11 2 false);
               (12%N, notification 12 2 false);
               (13%N, notification 13 3 true)].

(** A project with Asha on the team, managed by Ben, with one milestone
    that was completed and is open again. *)
Definition house : projectSchema.doc :=
  projectSchema.mk 7 "House" "A house by the lake" [2%N] 3
    [Milestone.mk 21 "Plans" "Plans approved" (Some Sample.jan10) false
       (Some (Sample.jan10 - Sample.hour))] 0.

Definition projects : gmap N projectSchema.doc := {[ 7%N := house ]}.

(** The task of project 7, and a task of another project. *)
Definition world : World :=
  Sample.world [Sample.asha; ben; Sample.root]
    [Sample.task 1 high Sample.jan10;
     taskSchema.mk 2 "Quote" "Send the quote" 8 2 pending low Sample.jan10
       None false 0 9 ExtensionRequest.defaults [] 0 0]
    Sample.jan10.

End Fixture.

(** * Properties *)

(** ** The clock and the calendar *)

Lemma msPerDay_value : msPerDay = 86400000.
Proof. reflexivity. Qed.

(** [setHours(23, 59, 59, 999)] stays on the calendar day of its date and
    lands on its last millisecond. *)
Lemma setHours_calendarDay tz d :
  calendarDay tz (Task.setHours_23_59_59_999 tz d) = calendarDay tz d.
Proof.
  unfold calendarDay, Task.setHours_23_59_59_999.
  rewrite msPerDay_value.
  replace ((d + tz) / 86400000 * 86400000 + (86400000 - 1) - tz + tz)
    with (86399999 + (d + tz) / 86400000 * 86400000) by lia.
  rewrite Z.div_add by lia.
  rewrite (Z.div_small 86399999) by lia. lia.
Qed.

Lemma setHours_timeOfDay tz d :
  timeOfDay tz (Task.setHours_23_59_59_999 tz d) =
  ((23 * 60 + 59) * 60 + 59) * 1000 + 999.
Proof.
  unfold timeOfDay, Task.setHours_23_59_59_999.
  rewrite msPerDay_value.
  replace ((d + tz) / 86400000 * 86400000 + (86400000 - 1) - tz + tz)
    with (86399999 + (d + tz) / 86400000 * 86400000) by lia.
  rewrite Z.mod_add by lia. reflexivity.
Qed.

Lemma setHours_ge tz d : d ≤ Task.setHours_23_59_59_999 tz d.
Proof.
  unfold Task.setHours_23_59_59_999. rewrite msPerDay_value.
  pose proof (Z.mod_pos_bound (d + tz) 86400000 ltac:(lia)).
  pose proof (Z.div_mod (d + tz) 86400000 ltac:(lia)). lia.
Qed.

(** An instant is at or before the end of the day of [d] exactly when its
    calendar day is not after the one of [d]. *)
Lemma le_setHours_iff tz d t :
  t ≤ Task.setHours_23_59_59_999 tz d ↔ calendarDay tz t ≤ calendarDay tz d.
Proof.
  unfold Task.setHours_23_59_59_999, calendarDay. rewrite msPerDay_value.
  pose proof (Z.mod_pos_bound (t + tz) 86400000 ltac:(lia)).
  pose proof (Z.div_mod (t + tz) 86400000 ltac:(lia)).
  pose proof (Z.mod_pos_bound (d + tz) 86400000 ltac:(lia)).
  pose proof (Z.div_mod (d + tz) 86400000 ltac:(lia)).
  split; intros; lia.
Qed.

(** [daysDiff] counts whole periods of 24 hours. *)
Lemma daysDiff_spec now lastCompletion k :
  User.daysDiff now lastCompletion = k ↔
  k * msPerDay ≤ now - lastCompletion < (k + 1) * msPerDay.
Proof.
  unfold User.daysDiff. rewrite msPerDay_value.
  pose proof (Z.mod_pos_bound (now - lastCompletion) 86400000 ltac:(lia)).
  pose proof (Z.div_mod (now - lastCompletion) 86400000 ltac:(lia)).
  split; intros; nia.
Qed.

(** ** The User model *)

Section UserModel.
Import userSchema.
Variables (this : doc) (w : World).

Lemma addRewardPoints_fst pts reason :
  fst (User.addRewardPoints this pts reason w) =
  set_rewards (rewards this ++
                 [Reward.mk points pts reason (clock w (tick w))])
    (set_rewardPoints (rewardPoints this + pts) this).
Proof. reflexivity. Qed.

Lemma addRewardPoints_users pts reason :
  users (snd (User.addRewardPoints this pts reason w)) =
  <[_id this := fst (User.addRewardPoints this pts reason w)]> (users w).
Proof. reflexivity. Qed.

(** [updateStreak], read off as the code has it: the streak first, then
    the bonus when the new streak leaves no remainder by ten. *)
Lemma updateStreak_fst taskCompletionDate :
  let s := User.nextStreak this (clock w (tick w)) in
  let u := set_lastTaskCompletion (Some taskCompletionDate)
             (set_currentStreak s this) in
  fst (User.updateStreak this taskCompletionDate w) =
  if Z.rem s 10 =? 0 then
    set_rewards (rewards this ++
                   [Reward.mk points (s * 100) (User.streakDescription s)
                      (clock w (S (tick w)))])
      (set_rewardPoints (rewardPoints this + s * 100) u)
  else u.
Proof.
  cbv zeta. unfold User.updateStreak, bind, newDate. cbn.
  destruct (Z.rem _ 10 =? 0); reflexivity.
Qed.

Lemma updateStreak_users taskCompletionDate :
  users (snd (User.updateStreak this taskCompletionDate w)) =
  <[_id this := fst (User.updateStreak this taskCompletionDate w)]> (users w).
Proof.
  unfold User.updateStreak, bind, newDate. cbn.
  destruct (Z.rem _ 10 =? 0); cbn; [|reflexivity].
  apply insert_insert_eq.
Qed.

Lemma updateStreak_currentStreak taskCompletionDate :
  currentStreak (fst (User.updateStreak this taskCompletionDate w)) =
  User.nextStreak this (clock w (tick w)).
Proof.
  rewrite updateStreak_fst. cbv zeta.
  destruct (Z.rem _ 10 =? 0); reflexivity.
Qed.

Lemma updateStreak_lastTaskCompletion taskCompletionDate :
  lastTaskCompletion (fst (User.updateStreak this taskCompletionDate w)) =
  Some taskCompletionDate.
Proof.
  rewrite updateStreak_fst. cbv zeta.
  destruct (Z.rem _ 10 =? 0); reflexivity.
Qed.

(** What the code does: the bonus entry is appended exactly when the
    streak after the update leaves no remainder by ten, whether or not
    the update changed it. *)
Lemma updateStreak_bonus_iff taskCompletionDate :
  let u' := fst (User.updateStreak this taskCompletionDate w) in
  let s := currentStreak u' in
  (Z.rem s 10 = 0 →
     rewardPoints u' = rewardPoints this + s * 100 ∧
     rewards u' = rewards this ++
                    [Reward.mk points (s * 100) (User.streakDescription s)
                       (clock w (S (tick w)))]) ∧
  (Z.rem s 10 ≠ 0 →
     rewardPoints u' = rewardPoints this ∧ rewards u' = rewards this).
Proof.
  cbv zeta. rewrite updateStreak_currentStreak, updateStreak_fst. cbv zeta.
  destruct (Z.eqb_spec (Z.rem (User.nextStreak this (clock w (tick w))) 10) 0);
    split; intros; try contradiction; split; reflexivity.
Qed.
End UserModel.

Lemma nextStreak_cases (this : userSchema.doc) (now last : Z) :
  userSchema.lastTaskCompletion this = Some last →
  (User.daysDiff now last = 1 →
     User.nextStreak this now = userSchema.currentStreak this + 1) ∧
  (User.daysDiff now last > 1 → User.nextStreak this now = 1) ∧
  (User.daysDiff now last < 1 →
     User.nextStreak this now = userSchema.currentStreak this).
Proof.
  intros Hlast. unfold User.nextStreak. rewrite Hlast.
  destruct (Z.eqb_spec (User.daysDiff now last) 1) as [->|Hne].
  - repeat split; intros; try reflexivity; lia.
  - destruct (Z.gtb_spec (User.daysDiff now last) 1);
      repeat split; intros; try reflexivity; lia.
Qed.

(** On the next calendar day less than 48 hours have gone by, and possibly
    less than 24. *)
Lemma next_calendarDay_elapsed tz now last :
  calendarDay tz now = calendarDay tz last + 1 →
  0 < now - last < 2 * msPerDay.
Proof.
  unfold calendarDay. rewrite msPerDay_value. intros Hday.
  pose proof (Z.mod_pos_bound (now + tz) 86400000 ltac:(lia)).
  pose proof (Z.div_mod (now + tz) 86400000 ltac:(lia)).
  pose proof (Z.mod_pos_bound (last + tz) 86400000 ltac:(lia)).
  pose proof (Z.div_mod (last + tz) 86400000 ltac:(lia)).
  lia.
Qed.

(** A user without a completion date starts a streak of one. *)
Lemma updateStreak_first (this : userSchema.doc) (d : Z) (w : World) :
  userSchema.lastTaskCompletion this = None →
  userSchema.currentStreak (fst (User.updateStreak this d w)) = 1.
Proof.
  intros Hnone. rewrite updateStreak_currentStreak.
  unfold User.nextStreak. now rewrite Hnone.
Qed.

(** A streak of zero with a completion date on record, as the schema allows
    it: a repeat within 24 hours leaves the streak at zero, and an entry of
    zero points is logged as a streak reward. *)
Lemma updateStreak_streak_0_logs_entry :
  let u := userSchema.mk 2 "Asha" "asha@example.com" employee 0 0
             (Some Sample.jan10) [] in
  let w := Sample.world [u] [] (Sample.jan10 + Sample.hour) in
  let u' := fst (User.updateStreak u (Sample.jan10 + Sample.hour) w) in
  userSchema.currentStreak u' = 0 ∧
  userSchema.rewards u' =
    [Reward.mk points 0 "Streak reward for 0 consecutive tasks"
       (Sample.jan10 + Sample.hour + 1)].
Proof. vm_compute. split; reflexivity. Qed.

(** C1, at the input where the code departs from it.  Asha has completed a
    task on each of ten days in a row: her streak is 10 and the bonus of
    1000 points has been paid.  [updateStreak] runs once more an hour after
    her last completion: the streak is left at 10 by the same-day repeat, and
    the bonus of 1000 points is awarded again, with a new entry in the reward
    log. *)
Theorem C1_bonus_fires_again_on_same_day_repeat :
  ∃ u last,
    users Scenario.tenDays !! 2%N = Some u ∧
    userSchema.currentStreak u = 10 ∧
    userSchema.rewardPoints u = 10 * 50 + 1000 ∧
    userSchema.lastTaskCompletion u = Some last ∧
    let w := Scenario.at_ (Scenario.day 9 + 10 * Sample.hour) Scenario.tenDays in
    let now := clock w (tick w) in
    let u' := fst (User.updateStreak u now w) in
    User.daysDiff now last = 0 ∧
    userSchema.currentStreak u' = userSchema.currentStreak u ∧
    userSchema.rewardPoints u' = userSchema.rewardPoints u + 1000 ∧
    userSchema.rewards u' =
      userSchema.rewards u ++
        [Reward.mk points 1000 "Streak reward for 10 consecutive tasks"
           (now + 1)].
Proof.
  eexists. exists (Scenario.day 9 + 9 * Sample.hour).
  split; [vm_compute; reflexivity|].
  vm_compute. repeat split; reflexivity.
Qed.

(** The same through [completeTask]: the one task more of the tenth day
    brings 50 points and the bonus of 1000 a second time. *)
Lemma oneMore_pays_the_bonus_twice :
  (userSchema.rewardPoints <$> users Scenario.tenDays !! 2%N) =
    Some (10 * 50 + 1000) ∧
  (userSchema.currentStreak <$> users Scenario.oneMore !! 2%N) = Some 10 ∧
  (userSchema.rewardPoints <$> users Scenario.oneMore !! 2%N) =
    Some (11 * 50 + 2 * 1000).
Proof. vm_compute. repeat split; reflexivity. Qed.

(** C2, as the code has it.  For a user with a prior completion timestamp,
    [updateStreak] takes the number of whole periods of 24 hours between the
    clock and [lastTaskCompletion]: if it is 1 (24 to 48 hours) the streak
    grows by one; if it is more than 1 the streak is reset to 1; if it is
    less than 1 the streak is unchanged.  [lastTaskCompletion] becomes the
    completion time in every case, and the user is stored.  A completion on
    the next calendar day grows the streak when at least 24 hours have gone
    by since the previous one, and leaves it unchanged otherwise. *)
Theorem C2_updateStreak_counts_periods_of_24_hours
    (this : userSchema.doc) (w : World) (taskCompletionDate last : Z) :
  userSchema.lastTaskCompletion this = Some last →
  let now := clock w (tick w) in
  let r := User.updateStreak this taskCompletionDate w in
  let streak := userSchema.currentStreak this in
  let streak' := userSchema.currentStreak (fst r) in
  (User.daysDiff now last = 1 → streak' = streak + 1) ∧
  (User.daysDiff now last > 1 → streak' = 1) ∧
  (User.daysDiff now last < 1 → streak' = streak) ∧
  (User.daysDiff now last = 1 ↔ msPerDay ≤ now - last < 2 * msPerDay) ∧
  userSchema.lastTaskCompletion (fst r) = Some taskCompletionDate ∧
  users (snd r) !! userSchema._id this = Some (fst r) ∧
  (∀ tz, calendarDay tz now = calendarDay tz last + 1 →
         streak' = if msPerDay <=? now - last then streak + 1 else streak).
Proof.
  intros Hlast now r streak streak'. subst r streak'.
  rewrite updateStreak_currentStreak, updateStreak_lastTaskCompletion,
    updateStreak_users, lookup_insert_eq.
  fold now.
  destruct (nextStreak_cases this now last Hlast) as (H1 & Hgt & Hlt).
  pose proof (daysDiff_spec now last 1) as Hspec.
  repeat split; try tauto; try (apply Hspec; lia); try (apply Hspec; tauto).
  intros tz Hday. apply next_calendarDay_elapsed in Hday.
  destruct (Z.leb_spec msPerDay (now - last)).
  - apply H1, Hspec. lia.
  - apply Hlt.
    assert (User.daysDiff now last = 0) as ->; [|lia].
    apply daysDiff_spec. lia.
Qed.

Lemma C2_updateStreak_witness :
  let this := Sample.ashaOnStreak 3 Sample.jan10 in
  let w := Sample.world [this] [] (Sample.jan10 + 30 * Sample.hour) in
  userSchema.currentStreak
    (fst (User.updateStreak this (Sample.jan10 + 30 * Sample.hour) w)) = 4.
Proof.
  cbv zeta.
  apply (C2_updateStreak_counts_periods_of_24_hours
           (Sample.ashaOnStreak 3 Sample.jan10)
           (Sample.world [Sample.ashaOnStreak 3 Sample.jan10] []
              (Sample.jan10 + 30 * Sample.hour))
           (Sample.jan10 + 30 * Sample.hour) Sample.jan10 eq_refl).
  reflexivity.
Defined.

(** C2 as stated does not hold: a task completed at 23:00 and the next one
    at 01:00 of the following calendar day are two hours apart, and the
    streak is not incremented. *)
Lemma C2_counterexample :
  let last := Sample.jan10 + 23 * Sample.hour in
  let now := Sample.jan10 + 25 * Sample.hour in
  let this := Sample.ashaOnStreak 3 last in
  let w := Sample.world [this] [] now in
  let u' := fst (User.updateStreak this now w) in
  userSchema.lastTaskCompletion this = Some last ∧
  clock w (tick w) = now ∧
  calendarDay 0 now = calendarDay 0 last + 1 ∧
  userSchema.currentStreak this = 3 ∧
  userSchema.currentStreak u' = 3 ∧
  userSchema.currentStreak u' ≠ userSchema.currentStreak this + 1.
Proof. vm_compute. repeat split; try reflexivity. discriminate. Qed.

(** ** The Task model *)

Section TaskModel.
Import taskSchema.
Variables (this : doc) (w : World).

Let now := clock w (tick w).
Let onTime := now <=? Task.setHours_23_59_59_999 (tzOffsetMs w) (dueDate this).

(** The task is completed at the first reading of the clock and saved at
    the second one. *)
Lemma completeTask_fst :
  fst (Task.completeTask this w) =
  set_updatedAt (clock w (S (tick w)))
    (set_rewardPoints (if onTime then 50 else 0)
       (set_isCompletedOnTime onTime
          (set_completionDate (Some now) (set_status completed this)))).
Proof.
  unfold Task.completeTask, bind, newDate, getTzOffsetMs. cbn.
  fold now. fold onTime.
  destruct onTime; cbn; destruct (users w !! assignedTo this); reflexivity.
Qed.

Lemma completeTask_tasks :
  tasks (snd (Task.completeTask this w)) =
  <[_id this := fst (Task.completeTask this w)]> (tasks w).
Proof.
  rewrite completeTask_fst.
  unfold Task.completeTask, bind, newDate, getTzOffsetMs. cbn.
  fold now. fold onTime.
  destruct onTime; cbn; destruct (users w !! assignedTo this); cbn;
    try reflexivity.
  unfold User.updateStreak, bind, newDate. cbn.
  destruct (Z.rem _ 10 =? 0); reflexivity.
Qed.

(** A late completion leaves the users and the console as they were. *)
Lemma completeTask_late_users :
  onTime = false →
  users w !! assignedTo this ≠ None →
  users (snd (Task.completeTask this w)) = users w ∧
  stderr (snd (Task.completeTask this w)) = stderr w.
Proof.
  intros Hlate Hsome.
  unfold Task.completeTask, bind, newDate, getTzOffsetMs. cbn.
  fold now. fold onTime. rewrite Hlate. cbn.
  destruct (users w !! assignedTo this); [split; reflexivity|contradiction].
Qed.

(** Without the assigned user no user is touched, and the console says
    so. *)
Lemma completeTask_missing_user :
  users w !! assignedTo this = None →
  users (snd (Task.completeTask this w)) = users w ∧
  stderr (snd (Task.completeTask this w)) =
    stderr w ++ [UserNotFound (assignedTo this) (_id this)].
Proof.
  intros Hnone.
  unfold Task.completeTask, bind, newDate, getTzOffsetMs. cbn.
  fold now. fold onTime.
  destruct onTime; cbn; rewrite Hnone; split; reflexivity.
Qed.

(** On time, with the assigned user [user] in the database: the streak is
    updated at the third reading of the clock, and the points of the task
    are added after it. *)
Lemma completeTask_on_time_users (user : userSchema.doc) :
  onTime = true →
  users w !! assignedTo this = Some user →
  let w1 := mkWorld (users w) (tasks w) (notifications w) (stderr w)
              (clock w) (S (S (tick w))) (tzOffsetMs w) in
  let r1 := User.updateStreak user now w1 in
  let r2 := User.addRewardPoints (fst r1) 50
              (Task.completionReason this) (snd r1) in
  users (snd (Task.completeTask this w)) =
    <[userSchema._id user := fst r2]> (users w) ∧
  stderr (snd (Task.completeTask this w)) = stderr w.
Proof.
  intros Hon Hsome. cbv zeta.
  unfold Task.completeTask, bind, newDate, getTzOffsetMs. cbn.
  fold now. fold onTime. rewrite Hon. cbn. rewrite Hsome. cbn.
  unfold User.updateStreak, bind, newDate. cbn.
  destruct (Z.rem _ 10 =? 0); cbn;
    rewrite ?insert_insert_eq; split; reflexivity.
Qed.
End TaskModel.

Section TaskModel_part_001.
Import taskSchema.
Variables (this : doc) (w : World).

Let now := clock w (tick w).
Let onTime := now <=? dueDate this.

Lemma completeTask_001_fst :
  fst (Task_part_001.completeTask this w) =
  let this := set_isCompletedOnTime onTime
                (set_completionDate (Some now) (set_status completed this)) in
  set_updatedAt (clock w (S (tick w)))
    (if onTime
     then set_rewardPoints (50 + Task_part_001.priorityPoints (priority this)) this
     else this).
Proof.
  unfold Task_part_001.completeTask, bind, newDate. cbn.
  fold now. fold onTime.
  destruct onTime; cbn; destruct (users w !! assignedTo this); reflexivity.
Qed.

(** A late completion under this version leaves the points of the task as
    they were: zero for a task completed for the first time, and the
    points of the previous completion otherwise. *)
Lemma completeTask_001_late :
  dueDate this < now →
  isCompletedOnTime (fst (Task_part_001.completeTask this w)) = false ∧
  rewardPoints (fst (Task_part_001.completeTask this w)) = rewardPoints this ∧
  users (snd (Task_part_001.completeTask this w)) = users w.
Proof.
  intros Hlate.
  assert (onTime = false) as Hoff by (apply Z.leb_gt; exact Hlate).
  rewrite completeTask_001_fst. cbv zeta. rewrite Hoff.
  repeat split.
  unfold Task_part_001.completeTask, bind, newDate. cbn.
  fold now. fold onTime. rewrite Hoff. cbn.
  destruct (users w !! assignedTo this); reflexivity.
Qed.

Lemma completeTask_001_missing_user :
  users w !! assignedTo this = None →
  users (snd (Task_part_001.completeTask this w)) = users w.
Proof.
  intros Hnone.
  unfold Task_part_001.completeTask, bind, newDate. cbn.
  fold now. fold onTime.
  destruct onTime; cbn; rewrite Hnone; reflexivity.
Qed.

Lemma completeTask_001_on_time_users (user : userSchema.doc) :
  onTime = true →
  users w !! assignedTo this = Some user →
  let w1 := mkWorld (users w) (tasks w) (notifications w) (stderr w)
              (clock w) (S (S (tick w))) (tzOffsetMs w) in
  let r1 := User.updateStreak user now w1 in
  let r2 := User.addRewardPoints (fst r1)
              (50 + Task_part_001.priorityPoints (priority this))
              (Task_part_001.completionReason this) (snd r1) in
  users (snd (Task_part_001.completeTask this w)) =
    <[userSchema._id user := fst r2]> (users w).
Proof.
  intros Hon Hsome. cbv zeta.
  unfold Task_part_001.completeTask, bind, newDate. cbn.
  fold now. fold onTime. rewrite Hon. cbn. rewrite Hsome. cbn.
  unfold User.updateStreak, bind, newDate. cbn.
  destruct (Z.rem _ 10 =? 0); cbn;
    rewrite ?insert_insert_eq; reflexivity.
Qed.
End TaskModel_part_001.

(** The version of src/unnamed/part_001 compares with the due date itself:
    a task due on January 10 (00:00) and completed that day at 22:00 is late
    for it, and on time for src/models/Task.js. *)
Lemma completeTask_versions_differ :
  let w := Sample.world [Sample.asha]
             [Sample.task 1 high Sample.jan10]
             (Sample.jan10 + 22 * Sample.hour) in
  let this := Sample.task 1 high Sample.jan10 in
  taskSchema.isCompletedOnTime (fst (Task.completeTask this w)) = true ∧
  taskSchema.isCompletedOnTime (fst (Task_part_001.completeTask this w)) = false.
Proof. vm_compute. split; reflexivity. Qed.

(** C3.  A task completed at or before the last millisecond (23:59:59.999)
    of the calendar day of its due date is on time: [completeTask] returns
    and stores it with [isCompletedOnTime] true and [rewardPoints] above
    zero. *)
Theorem C3_on_time_until_end_of_due_day (this : taskSchema.doc) (w : World) :
  clock w (tick w) ≤
    Task.setHours_23_59_59_999 (tzOffsetMs w) (taskSchema.dueDate this) →
  let r := Task.completeTask this w in
  taskSchema.isCompletedOnTime (fst r) = true ∧
  taskSchema.rewardPoints (fst r) > 0 ∧
  taskSchema.status (fst r) = completed ∧
  taskSchema.completionDate (fst r) = Some (clock w (tick w)) ∧
  tasks (snd r) !! taskSchema._id this = Some (fst r).
Proof.
  intros Hle r. subst r.
  rewrite completeTask_tasks, lookup_insert_eq, completeTask_fst.
  apply Z.leb_le in Hle. rewrite Hle. cbn.
  repeat split; reflexivity.
Qed.

Lemma C3_on_time_witness :
  let this := Sample.task 1 high Sample.jan10 in
  let w := Sample.world [Sample.asha] [this]
             (Sample.jan10 + 22 * Sample.hour) in
  taskSchema.isCompletedOnTime (fst (Task.completeTask this w)) = true.
Proof.
  cbv zeta.
  apply (C3_on_time_until_end_of_due_day
           (Sample.task 1 high Sample.jan10)
           (Sample.world [Sample.asha] [Sample.task 1 high Sample.jan10]
              (Sample.jan10 + 22 * Sample.hour))).
  vm_compute. discriminate.
Defined.

(** C4.  An on-time completion sets the points of the task to 50 plus the
    bonus of its priority (urgent 50, high 30, medium 20, low 10) under the
    tiered version (src/unnamed/part_001), and to 50 whatever the priority
    under the flat version (src/models/Task.js); for a task of priority
    "high" that is 80 and 50. *)
Theorem C4_points_of_an_on_time_completion (this : taskSchema.doc) (w : World) :
  let tiered := fst (Task_part_001.completeTask this w) in
  let flat := fst (Task.completeTask this w) in
  (taskSchema.isCompletedOnTime tiered = true →
     taskSchema.rewardPoints tiered =
       50 + match taskSchema.priority this with
            | urgent => 50 | high => 30 | medium => 20 | low => 10
            end ∧
     (taskSchema.priority this = high → taskSchema.rewardPoints tiered = 80)) ∧
  (taskSchema.isCompletedOnTime flat = true →
     taskSchema.rewardPoints flat = 50).
Proof.
  cbv zeta. rewrite completeTask_001_fst, completeTask_fst. cbv zeta.
  split.
  - destruct (clock w (tick w) <=? taskSchema.dueDate this); cbn;
      [|discriminate].
    intros _. split; [reflexivity|]. intros ->. reflexivity.
  - destruct (clock w (tick w) <=? Task.setHours_23_59_59_999 _ _); cbn;
      [reflexivity|discriminate].
Qed.

Lemma C4_points_witness :
  let this := Sample.task 1 high Sample.jan10 in
  let w := Sample.world [Sample.asha] [this] (Sample.jan10 - Sample.hour) in
  taskSchema.rewardPoints (fst (Task_part_001.completeTask this w)) = 80 ∧
  taskSchema.rewardPoints (fst (Task.completeTask this w)) = 50.
Proof.
  cbv zeta.
  destruct (C4_points_of_an_on_time_completion
              (Sample.task 1 high Sample.jan10)
              (Sample.world [Sample.asha] [Sample.task 1 high Sample.jan10]
                 (Sample.jan10 - Sample.hour))) as [Htiered Hflat].
  split.
  - apply Htiered; reflexivity.
  - apply Hflat; reflexivity.
Defined.

(** C5.  A task completed after the last millisecond of the calendar day of
    its due date is late: [completeTask] returns and stores it with
    [isCompletedOnTime] false and [rewardPoints] 0, and the users of the
    database, the assigned one among them, are left as they were. *)
Theorem C5_late_completion_touches_no_user (this : taskSchema.doc) (w : World) :
  Task.setHours_23_59_59_999 (tzOffsetMs w) (taskSchema.dueDate this) <
    clock w (tick w) →
  let r := Task.completeTask this w in
  taskSchema.isCompletedOnTime (fst r) = false ∧
  taskSchema.rewardPoints (fst r) = 0 ∧
  tasks (snd r) !! taskSchema._id this = Some (fst r) ∧
  users (snd r) = users w.
Proof.
  intros Hlate r. subst r.
  apply Z.leb_gt in Hlate.
  rewrite completeTask_tasks, lookup_insert_eq, completeTask_fst, Hlate.
  repeat split.
  destruct (users w !! taskSchema.assignedTo this) eqn:Huser.
  - apply completeTask_late_users; [exact Hlate|]. rewrite Huser. discriminate.
  - apply completeTask_missing_user, Huser.
Qed.

Lemma C5_late_completion_witness :
  let this := Sample.task 1 high Sample.jan10 in
  let w := Sample.world [Sample.asha] [this]
             (Sample.jan10 + 24 * Sample.hour) in
  users (snd (Task.completeTask this w)) = users w.
Proof.
  cbv zeta.
  apply (C5_late_completion_touches_no_user
           (Sample.task 1 high Sample.jan10)
           (Sample.world [Sample.asha] [Sample.task 1 high Sample.jan10]
              (Sample.jan10 + 24 * Sample.hour))).
  reflexivity.
Defined.

(** C7, as the code has it.  When [assignedTo] does not resolve to a user,
    [completeTask] still returns the task, marked completed and stored; the
    miss is written to the error console and no user is touched.  The
    points of the task are computed before the user is looked up, so they
    are as for any other completion: 50 when on time, 0 when late. *)
Theorem C7_missing_user_keeps_the_points_of_the_task
    (this : taskSchema.doc) (w : World) :
  users w !! taskSchema.assignedTo this = None →
  let now := clock w (tick w) in
  let onTime :=
    now <=? Task.setHours_23_59_59_999 (tzOffsetMs w) (taskSchema.dueDate this) in
  let r := Task.completeTask this w in
  taskSchema.status (fst r) = completed ∧
  taskSchema.completionDate (fst r) = Some now ∧
  taskSchema.isCompletedOnTime (fst r) = onTime ∧
  taskSchema.rewardPoints (fst r) = (if onTime then 50 else 0) ∧
  tasks (snd r) !! taskSchema._id this = Some (fst r) ∧
  users (snd r) = users w ∧
  stderr (snd r) =
    stderr w ++ [UserNotFound (taskSchema.assignedTo this) (taskSchema._id this)].
Proof.
  intros Hnone now onTime r. subst r.
  destruct (completeTask_missing_user this w Hnone) as [Husers Herr].
  rewrite completeTask_tasks, lookup_insert_eq, completeTask_fst.
  repeat split; assumption.
Qed.

Lemma C7_missing_user_witness :
  let this := Sample.task 1 high Sample.jan10 in
  let w := Sample.world [] [this] (Sample.jan10 + 22 * Sample.hour) in
  stderr (snd (Task.completeTask this w)) = [UserNotFound 2 1].
Proof.
  cbv zeta.
  apply (C7_missing_user_keeps_the_points_of_the_task
           (Sample.task 1 high Sample.jan10)
           (Sample.world [] [Sample.task 1 high Sample.jan10]
              (Sample.jan10 + 22 * Sample.hour))).
  reflexivity.
Defined.

(** C7 as stated does not hold: the assigned user is missing and the task,
    completed on time, carries 50 points, not zero. *)
Lemma C7_counterexample :
  let this := Sample.task 1 high Sample.jan10 in
  let w := Sample.world [] [this] (Sample.jan10 + 22 * Sample.hour) in
  let r := Task.completeTask this w in
  users w !! taskSchema.assignedTo this = None ∧
  taskSchema.status (fst r) = completed ∧
  stderr (snd r) = [UserNotFound 2 1] ∧
  taskSchema.rewardPoints (fst r) = 50 ∧
  taskSchema.rewardPoints (fst r) ≠ 0 ∧
  (taskSchema.rewardPoints <$> tasks (snd r) !! 1%N) = Some 50.
Proof. vm_compute. repeat split; try reflexivity. discriminate. Qed.

(** ** The routes *)

(** Asking for "completed" runs [completeTask], whatever the status of the
    task was. *)
Lemma patch_status_completed (req_user : userSchema.doc) (id : ObjectId)
    (w : World) (task : taskSchema.doc) :
  tasks w !! id = Some task →
  taskSchema.assignedTo task = userSchema._id req_user ∨
    userSchema.role req_user = admin →
  snd (tasksRouter.patch_status req_user id (Some "completed") w) =
  snd (Task.completeTask (taskSchema.set_status completed task) w).
Proof.
  intros Htask Hauth.
  unfold tasksRouter.patch_status, bind, Task.findById. cbn.
  rewrite Htask. cbn.
  assert (negb (bool_decide (taskSchema.assignedTo task = userSchema._id req_user))
          && negb (bool_decide (userSchema.role req_user = admin)) = false) as ->.
  { destruct Hauth as [H|H].
    - rewrite (bool_decide_eq_true_2 _ H). reflexivity.
    - rewrite (bool_decide_eq_true_2 _ H). apply andb_false_r. }
  reflexivity.
Qed.

Lemma sumPoints_app (rs rs' : list Reward.t) :
  sumPoints (rs ++ rs') = sumPoints rs + sumPoints rs'.
Proof.
  induction rs as [|r rs IH]; cbn; [reflexivity|].
  destruct (Reward.type r); lia.
Qed.




(** ** The invariant of the reward log *)

Lemma addRewardPoints_sound (u : userSchema.doc) (pts : Z) (reason : string)
    (w : World) :
  sound u → sound (fst (User.addRewardPoints u pts reason w)).
Proof.
  intros [Hpoints Hstreak]. rewrite addRewardPoints_fst.
  split; cbn; [|exact Hstreak].
  rewrite sumPoints_app, Hpoints. cbn. lia.
Qed.

Lemma nextStreak_nonneg (u : userSchema.doc) (now : Z) :
  0 ≤ userSchema.currentStreak u → 0 ≤ User.nextStreak u now.
Proof.
  intros Hstreak. unfold User.nextStreak.
  destruct (userSchema.lastTaskCompletion u); [|lia].
  destruct (_ =? 1); [lia|]. destruct (_ >? 1); lia.
Qed.

Lemma updateStreak_points (u : userSchema.doc) (d : Z) (w : World) :
  userSchema.rewardPoints u = sumPoints (userSchema.rewards u) →
  userSchema.rewardPoints (fst (User.updateStreak u d w)) =
  sumPoints (userSchema.rewards (fst (User.updateStreak u d w))).
Proof.
  intros Hpoints. rewrite updateStreak_fst. cbv zeta.
  destruct (Z.rem _ 10 =? 0); cbn -[Z.rem]; [|exact Hpoints].
  rewrite sumPoints_app, Hpoints. cbn -[Z.rem]. lia.
Qed.

Lemma updateStreak_sound (u : userSchema.doc) (d : Z) (w : World) :
  sound u → sound (fst (User.updateStreak u d w)).
Proof.
  intros [Hpoints Hstreak]. split.
  - apply updateStreak_points, Hpoints.
  - rewrite updateStreak_currentStreak. apply nextStreak_nonneg, Hstreak.
Qed.

Lemma updateStreak_id (u : userSchema.doc) (d : Z) (w : World) :
  userSchema._id (fst (User.updateStreak u d w)) = userSchema._id u.
Proof.
  rewrite updateStreak_fst. cbv zeta. destruct (Z.rem _ 10 =? 0); reflexivity.
Qed.

Lemma updateStreak_never_decrements (u : userSchema.doc) (d : Z) (w : World) :
  0 ≤ userSchema.currentStreak u →
  userSchema.rewardPoints u ≤
  userSchema.rewardPoints (fst (User.updateStreak u d w)).
Proof.
  intros Hstreak. rewrite updateStreak_fst. cbv zeta.
  pose proof (nextStreak_nonneg u (clock w (tick w)) Hstreak).
  destruct (Z.rem _ 10 =? 0); cbn -[Z.rem]; lia.
Qed.

(** The user after an on-time completion worth [pts] points: the streak is
    updated, then the points are added. *)
Lemma award_sound (user : userSchema.doc) (now pts : Z) (reason : string)
    (w : World) :
  sound user → 0 ≤ pts →
  let r1 := User.updateStreak user now w in
  let r2 := User.addRewardPoints (fst r1) pts reason (snd r1) in
  sound (fst r2) ∧
  userSchema._id (fst r2) = userSchema._id user ∧
  userSchema.rewardPoints user ≤ userSchema.rewardPoints (fst r2).
Proof.
  intros Hsound Hpts r1 r2. subst r2 r1.
  split; [apply addRewardPoints_sound, updateStreak_sound, Hsound|].
  rewrite addRewardPoints_fst. cbn -[User.updateStreak].
  split; [apply updateStreak_id|].
  pose proof (updateStreak_never_decrements user now w (sound_streak _ Hsound)).
  lia.
Qed.

Lemma completeTask_awardsOne (this : taskSchema.doc) (w : World) :
  awardsOne w (snd (Task.completeTask this w)).
Proof.
  destruct (users w !! taskSchema.assignedTo this) as [user|] eqn:Huser.
  - destruct (clock w (tick w) <=?
              Task.setHours_23_59_59_999 (tzOffsetMs w) (taskSchema.dueDate this))
      eqn:Hon.
    + right. exists (taskSchema.assignedTo this), user. eexists.
      split; [exact Huser|].
      split; [apply (completeTask_on_time_users this w user Hon Huser)|].
      intros Hsound. apply award_sound; [exact Hsound|lia].
    + left. apply completeTask_late_users; [exact Hon|].
      rewrite Huser. discriminate.
  - left. apply completeTask_missing_user, Huser.
Qed.

Lemma completeTask_001_awardsOne (this : taskSchema.doc) (w : World) :
  awardsOne w (snd (Task_part_001.completeTask this w)).
Proof.
  destruct (users w !! taskSchema.assignedTo this) as [user|] eqn:Huser.
  - destruct (clock w (tick w) <=? taskSchema.dueDate this) eqn:Hon.
    + right. exists (taskSchema.assignedTo this), user. eexists.
      split; [exact Huser|].
      split; [apply (completeTask_001_on_time_users this w user Hon Huser)|].
      intros Hsound. apply award_sound; [exact Hsound|].
      destruct (taskSchema.priority this); cbn; lia.
    + left. apply completeTask_001_late. apply Z.leb_gt, Hon.
  - left. apply completeTask_001_missing_user, Huser.
Qed.

Lemma save_users (t : taskSchema.doc) (w : World) :
  users (snd (Task.save t w)) = users w.
Proof. reflexivity. Qed.

Lemma createAll_users (ns : list notificationSchema.doc) (w : World) :
  users (snd (tasksRouter.createAll ns w)) = users w.
Proof.
  revert w. induction ns as [|n ns IH]; intros w; [reflexivity|].
  cbn. unfold bind. rewrite IH. reflexivity.
Qed.

Lemma patch_status_awardsOne req_user id status (w : World) :
  awardsOne w (snd (tasksRouter.patch_status req_user id status w)).
Proof.
  unfold tasksRouter.patch_status.
  destruct (tasksRouter.falsy status); [left; reflexivity|].
  destruct (status ≫= tasksRouter.validStatus) as [st|]; [|left; reflexivity].
  unfold bind, Task.findById. cbn.
  destruct (tasks w !! id) as [task|]; [|left; reflexivity].
  cbn. destruct (_ && _); [left; reflexivity|].
  destruct st; cbn; try (left; reflexivity).
  apply completeTask_awardsOne.
Qed.

Lemma post_comments_users req_user id text (w : World) :
  users (snd (tasksRouter.post_comments req_user id text w)) = users w.
Proof.
  unfold tasksRouter.post_comments, bind, Task.findById. cbn.
  destruct (tasks w !! id) as [task|]; [|reflexivity].
  cbn. rewrite createAll_users. reflexivity.
Qed.

Lemma post_extension_request_users req_user id reason newDueDate (w : World) :
  users (snd (tasksRouter.post_extension_request
                req_user id reason newDueDate w)) = users w.
Proof.
  unfold tasksRouter.post_extension_request, bind, Task.findById. cbn.
  destruct (tasks w !! id) as [task|]; [|reflexivity].
  cbn. destruct (bool_decide _); [reflexivity|].
  destruct (if tasksRouter.falsy reason then None else newDueDate);
    [|reflexivity].
  destruct (_ <=? _); reflexivity.
Qed.

Lemma patch_extension_request_users req_user id status newDueDate (w : World) :
  users (snd (tasksRouter.patch_extension_request
                req_user id status newDueDate w)) = users w.
Proof.
  unfold tasksRouter.patch_extension_request, bind, Task.findById. cbn.
  destruct (tasks w !! id) as [task|]; [|reflexivity].
  cbn. destruct (negb _); [reflexivity|].
  destruct status as [status|]; [|reflexivity].
  cbn. destruct (tasksRouter.resolution status) as [[]|]; try reflexivity.
  destruct newDueDate; [|reflexivity].
  destruct (_ <=? _); reflexivity.
Qed.

Lemma awardsOne_consistent (w w' : World) :
  awardsOne w w' → consistent w → consistent w'.
Proof.
  intros [Hsame|(id & user & user' & Hlookup & Husers & Hsound)] Hcons.
  - unfold consistent. rewrite Hsame. exact Hcons.
  - destruct (Hcons id user Hlookup) as [Hid Huser].
    destruct (Hsound Huser) as (Hsound' & Hid' & _).
    intros id0 u. rewrite Husers, Hid.
    destruct (decide (id = id0)) as [<-|Hne].
    + rewrite lookup_insert_eq. intros [= <-]. split; [congruence|assumption].
    + rewrite lookup_insert_ne by exact Hne. apply Hcons.
Qed.

Lemma awardsOne_neverDecrements (w w' : World) :
  awardsOne w w' → consistent w → neverDecrements w w'.
Proof.
  intros [Hsame|(id & user & user' & Hlookup & Husers & Hsound)] Hcons id0 u Hu.
  - exists u. rewrite Hsame. split; [exact Hu|lia].
  - destruct (Hcons id user Hlookup) as [Hid Huser].
    destruct (Hsound Huser) as (_ & _ & Hle).
    rewrite Husers, Hid.
    destruct (decide (id = id0)) as [<-|Hne].
    + exists user'. rewrite lookup_insert_eq. split; [reflexivity|].
      rewrite Hlookup in Hu. injection Hu as <-. exact Hle.
    + exists u. rewrite lookup_insert_ne by exact Hne. split; [exact Hu|lia].
Qed.

Lemma users_same_awardsOne (w w' : World) : users w' = users w → awardsOne w w'.
Proof. intros H. left. exact H. Qed.

Lemma defaults_sound id n e r : sound (userSchema.defaults id n e r).
Proof. split; cbn; [reflexivity|lia]. Qed.

Lemma step_consistent (w w' : World) :
  step w w' → consistent w → consistent w'.
Proof.
  intros Hstep Hcons.
  destruct Hstep as [id n e r w Hfresh| | | | | | |w w' Hsame].
  1: { intros id0 u. cbn.
       destruct (decide (id = id0)) as [<-|Hne].
       - rewrite lookup_insert_eq. intros [= <-].
         split; [reflexivity|apply defaults_sound].
       - rewrite lookup_insert_ne by exact Hne. apply Hcons. }
  all: eapply awardsOne_consistent; [|exact Hcons].
  - apply completeTask_awardsOne.
  - apply completeTask_001_awardsOne.
  - apply patch_status_awardsOne.
  - apply users_same_awardsOne, post_comments_users.
  - apply users_same_awardsOne, post_extension_request_users.
  - apply users_same_awardsOne, patch_extension_request_users.
  - apply users_same_awardsOne, Hsame.
Qed.

Lemma step_neverDecrements (w w' : World) :
  step w w' → consistent w → neverDecrements w w'.
Proof.
  intros Hstep Hcons.
  destruct Hstep as [id n e r w Hfresh| | | | | | |w w' Hsame].
  1: { intros id0 u Hu. exists u. cbn.
       rewrite lookup_insert_ne by congruence. split; [exact Hu|lia]. }
  all: eapply awardsOne_neverDecrements; [|exact Hcons].
  - apply completeTask_awardsOne.
  - apply completeTask_001_awardsOne.
  - apply patch_status_awardsOne.
  - apply users_same_awardsOne, post_comments_users.
  - apply users_same_awardsOne, post_extension_request_users.
  - apply users_same_awardsOne, patch_extension_request_users.
  - apply users_same_awardsOne, Hsame.
Qed.

Lemma reachable_consistent (w : World) : reachable w → consistent w.
Proof.
  induction 1 as [w Hempty|w w' _ IH Hstep].
  - intros id u. rewrite Hempty, lookup_empty. discriminate.
  - exact (step_consistent w w' Hstep IH).
Qed.

(** C8.  In every reachable world the points of each user are the sum of
    the values of the "points" entries of the user's reward log.
    [addRewardPoints], and [updateStreak] with its bonus, keep the two
    equal, and no step of the system takes points from a user. *)
Theorem C8_points_are_the_sum_of_the_log :
  (∀ w, reachable w →
     ∀ id u, users w !! id = Some u →
       userSchema.rewardPoints u = sumPoints (userSchema.rewards u)) ∧
  (∀ u pts reason w,
     userSchema.rewardPoints u = sumPoints (userSchema.rewards u) →
     let u' := fst (User.addRewardPoints u pts reason w) in
     userSchema.rewardPoints u' = sumPoints (userSchema.rewards u')) ∧
  (∀ u taskCompletionDate w,
     userSchema.rewardPoints u = sumPoints (userSchema.rewards u) →
     let u' := fst (User.updateStreak u taskCompletionDate w) in
     userSchema.rewardPoints u' = sumPoints (userSchema.rewards u')) ∧
  (∀ w w', reachable w → step w w' → neverDecrements w w').
Proof.
  split; [|split; [|split]].
  - intros w Hreach id u Hu.
    apply (reachable_consistent w Hreach id u Hu).
  - intros u pts reason w Hpoints u'. subst u'.
    rewrite addRewardPoints_fst. cbn.
    rewrite sumPoints_app, Hpoints. cbn. lia.
  - intros u d w Hpoints. apply updateStreak_points, Hpoints.
  - intros w w' Hreach Hstep.
    apply step_neverDecrements; [exact Hstep|].
    apply reachable_consistent, Hreach.
Qed.

Lemma firstTask_reachable : reachable Scenario.firstTask.
Proof.
  apply reachable_step with (w := Scenario.registered).
  - apply reachable_step with (w := Sample.world [] [] Sample.jan10).
    + apply reachable_init. reflexivity.
    + apply step_register. reflexivity.
  - apply step_completeTask.
Defined.

Lemma C8_points_witness :
  (∃ u, users Scenario.firstTask !! 2%N = Some u ∧
        userSchema.rewardPoints u = sumPoints (userSchema.rewards u)) ∧
  userSchema.rewardPoints
    (fst (User.addRewardPoints Sample.asha 50 "Gift" Scenario.registered)) = 50 ∧
  userSchema.rewardPoints
    (fst (User.updateStreak Scenario.ashaOnce Sample.jan10
            Scenario.completedOnce)) = 50 ∧
  neverDecrements Scenario.registered Scenario.firstTask.
Proof.
  destruct C8_points_are_the_sum_of_the_log as (Hsum & Hadd & Hstreak & Hnever).
  split; [|split; [|split]].
  - eexists. split; [vm_compute; reflexivity|].
    apply (Hsum Scenario.firstTask firstTask_reachable 2%N).
    vm_compute. reflexivity.
  - rewrite (Hadd Sample.asha 50 "Gift" Scenario.registered eq_refl).
    reflexivity.
  - rewrite (Hstreak Scenario.ashaOnce Sample.jan10 Scenario.completedOnce
               eq_refl).
    vm_compute. reflexivity.
  - apply Hnever.
    + apply reachable_step with (w := Sample.world [] [] Sample.jan10).
      * apply reachable_init. reflexivity.
      * apply step_register. reflexivity.
    + apply step_completeTask.
Defined.

(** ** Extension requests *)

Section ExtensionRequests.
Import taskSchema.
Variables (req_user : userSchema.doc) (id : ObjectId) (w : World)
          (task : doc).
Hypothesis Htask : tasks w !! id = Some task.
Hypothesis Hrequested :
  ExtensionRequest.requested (extensionRequest task) = true.

Lemma approve_after (proposedDate : Z) :
  dueDate task < proposedDate →
  tasksRouter.patch_extension_request req_user id (Some "approved")
    (Some proposedDate) w =
  (now <~ newDate ;;
   tasksRouter.resolved req_user
     (tasksRouter.approve task proposedDate (userSchema._id req_user) now)
     "approved") w.
Proof.
  intros Hafter.
  unfold tasksRouter.patch_extension_request at 1.
  unfold bind at 1, Task.findById at 1. cbn [fst snd].
  rewrite Htask, Hrequested. cbn [negb mbind option_bind].
  change (tasksRouter.resolution "approved") with (Some ext_approved).
  cbn [mbind option_bind].
  apply Z.leb_gt in Hafter. rewrite Hafter. reflexivity.
Qed.

Lemma approve_not_after (proposedDate : Z) :
  proposedDate ≤ dueDate task →
  tasksRouter.patch_extension_request req_user id (Some "approved")
    (Some proposedDate) w =
  (mkResponse 400 (Message "New due date must be after current due date"), w).
Proof.
  intros Hle.
  unfold tasksRouter.patch_extension_request, bind, Task.findById.
  cbn [fst snd].
  rewrite Htask, Hrequested. cbn [negb mbind option_bind].
  change (tasksRouter.resolution "approved") with (Some ext_approved).
  cbn [mbind option_bind].
  apply Z.leb_le in Hle. rewrite Hle. reflexivity.
Qed.

Lemma approve_without_date :
  tasksRouter.patch_extension_request req_user id (Some "approved") None w =
  (mkResponse 400
     (Message "New due date is required when approving extension"), w).
Proof.
  unfold tasksRouter.patch_extension_request, bind, Task.findById.
  cbn [fst snd].
  rewrite Htask, Hrequested. reflexivity.
Qed.

Lemma reject_any (newDueDate : option Z) :
  tasksRouter.patch_extension_request req_user id (Some "rejected")
    newDueDate w =
  (now <~ newDate ;;
   tasksRouter.resolved req_user
     (tasksRouter.reject task (userSchema._id req_user) now)
     "rejected") w.
Proof.
  unfold tasksRouter.patch_extension_request at 1.
  unfold bind at 1, Task.findById at 1. cbn [fst snd].
  rewrite Htask, Hrequested. reflexivity.
Qed.
End ExtensionRequests.

(** The end of the handler stores the task it is given, stamped by the
    pre-save hook, and answers 200. *)
Lemma resolved_run (req_user : userSchema.doc) (task : taskSchema.doc)
    (status : string) (w : World) :
  let r := tasksRouter.resolved req_user task status w in
  code (fst r) = 200 ∧
  tasks (snd r) !! taskSchema._id task =
    Some (taskSchema.set_updatedAt (clock w (tick w)) task).
Proof.
  cbv zeta. unfold tasksRouter.resolved, bind, Task.save, newDate. cbn.
  split; [reflexivity|apply lookup_insert_eq].
Qed.

(** C9.  An administrator resolves the extension request of a stored task.
    Approving with a new due date strictly after the current one answers
    200 and stores the task with that due date and the request approved;
    approving with a date that is not after the current one, or without a
    date, answers 400 and stores nothing.  Rejecting answers 200 and stores
    the task with its due date as it was and the request rejected. *)
Theorem C9_resolving_an_extension_request
    (req_user : userSchema.doc) (id : ObjectId) (w : World)
    (task : taskSchema.doc) (proposedDate : Z) (newDueDate : option Z) :
  tasks w !! id = Some task →
  taskSchema._id task = id →
  ExtensionRequest.requested (taskSchema.extensionRequest task) = true →
  let approved :=
    tasksRouter.patch_extension_request req_user id (Some "approved")
      (Some proposedDate) w in
  let undated :=
    tasksRouter.patch_extension_request req_user id (Some "approved") None w in
  let rejected :=
    tasksRouter.patch_extension_request req_user id (Some "rejected")
      newDueDate w in
  (taskSchema.dueDate task < proposedDate →
     code (fst approved) = 200 ∧
     ∃ task', tasks (snd approved) !! id = Some task' ∧
              taskSchema.dueDate task' = proposedDate ∧
              ExtensionRequest.newDueDate (taskSchema.extensionRequest task') =
                Some proposedDate ∧
              ExtensionRequest.status (taskSchema.extensionRequest task') =
                ext_approved) ∧
  (proposedDate ≤ taskSchema.dueDate task →
     code (fst approved) = 400 ∧ tasks (snd approved) = tasks w) ∧
  (code (fst undated) = 400 ∧ tasks (snd undated) = tasks w) ∧
  (code (fst rejected) = 200 ∧
   ∃ task', tasks (snd rejected) !! id = Some task' ∧
            taskSchema.dueDate task' = taskSchema.dueDate task ∧
            ExtensionRequest.status (taskSchema.extensionRequest task') =
              ext_rejected).
Proof.
  intros Htask Hid Hrequested approved undated rejected.
  subst approved undated rejected.
  split; [|split; [|split]].
  - intros Hafter.
    rewrite (approve_after req_user id w task Htask Hrequested _ Hafter).
    unfold bind at 1 2. cbn [fst snd newDate].
    match goal with
    | |- context [tasksRouter.resolved ?u ?t ?s ?w'] =>
        destruct (resolved_run u t s w') as [Hcode Hstored]
    end.
    split; [exact Hcode|].
    eexists. split; [rewrite <- Hid; exact Hstored|]. repeat split.
  - intros Hle.
    rewrite (approve_not_after req_user id w task Htask Hrequested _ Hle).
    split; reflexivity.
  - rewrite (approve_without_date req_user id w task Htask Hrequested).
    split; reflexivity.
  - rewrite (reject_any req_user id w task Htask Hrequested).
    unfold bind at 1 2. cbn [fst snd newDate].
    match goal with
    | |- context [tasksRouter.resolved ?u ?t ?s ?w'] =>
        destruct (resolved_run u t s w') as [Hcode Hstored]
    end.
    split; [exact Hcode|].
    eexists. split; [rewrite <- Hid; exact Hstored|]. split; reflexivity.
Qed.

Lemma C9_resolving_witness :
  let w := Sample.world [Sample.asha; Sample.root] [Scenario.taskWithRequest]
             (Sample.jan10 - Sample.hour) in
  (taskSchema.dueDate <$>
     tasks (snd (tasksRouter.patch_extension_request Sample.root 1
                   (Some "approved") (Some (Scenario.day 2)) w)) !! 1%N) =
    Some (Scenario.day 2) ∧
  (taskSchema.dueDate <$>
     tasks (snd (tasksRouter.patch_extension_request Sample.root 1
                   (Some "rejected") None w)) !! 1%N) =
    Some Sample.jan10.
Proof.
  cbv zeta.
  destruct (C9_resolving_an_extension_request
              Sample.root 1%N
              (Sample.world [Sample.asha; Sample.root]
                 [Scenario.taskWithRequest] (Sample.jan10 - Sample.hour))
              Scenario.taskWithRequest (Scenario.day 2) None)
    as (Happroved & _ & _ & _ & task' & Hstored' & Hdue' & _).
  - vm_compute. reflexivity.
  - reflexivity.
  - reflexivity.
  - destruct Happroved as (_ & task'' & Hstored'' & Hdue'' & _);
      [reflexivity|].
    rewrite Hstored'', Hstored'. cbn [fmap option_fmap option_map].
    rewrite Hdue'', Hdue'. split; reflexivity.
Defined.

(** ** Comments *)

Lemma createAll_notifications (ns : list notificationSchema.doc) (w : World) :
  notifications (snd (tasksRouter.createAll ns w)) = notifications w ++ ns.
Proof.
  revert w. induction ns as [|n ns IH]; intros w; cbn.
  - symmetry. apply app_nil_r.
  - unfold bind. rewrite IH. cbn. rewrite <- app_assoc. reflexivity.
Qed.

Section Comments.
Import taskSchema.
Variables (task : doc) (user_id : ObjectId) (commenterName : string).

Lemma notifyCreator_elem n :
  n ∈ tasksRouter.notifyCreator task user_id commenterName →
  notificationSchema.recipient n = createdBy task ∧
  createdBy task ≠ user_id.
Proof.
  unfold tasksRouter.notifyCreator. case_bool_decide as Hne.
  - intros ->%list_elem_of_singleton. split; [reflexivity|exact Hne].
  - intros []%elem_of_nil.
Qed.

Lemma notifyAssigned_elem n :
  n ∈ tasksRouter.notifyAssigned task user_id commenterName →
  notificationSchema.recipient n = assignedTo task ∧
  assignedTo task ≠ user_id.
Proof.
  unfold tasksRouter.notifyAssigned. case_bool_decide as Hne.
  - intros ->%list_elem_of_singleton. split; [reflexivity|exact Hne].
  - intros []%elem_of_nil.
Qed.

Lemma notifyAdmin_elem (a : userSchema.doc) n :
  n ∈ tasksRouter.notifyAdmin task user_id commenterName a →
  notificationSchema.recipient n = userSchema._id a ∧
  userSchema._id a ≠ user_id ∧
  userSchema._id a ≠ createdBy task ∧
  userSchema._id a ≠ assignedTo task.
Proof.
  unfold tasksRouter.notifyAdmin.
  repeat case_bool_decide; cbn; try (intros []%elem_of_nil).
  intros ->%list_elem_of_singleton. repeat split; assumption.
Qed.

Lemma notifyAdmins_elem (admins : list userSchema.doc) n :
  n ∈ concat (map (tasksRouter.notifyAdmin task user_id commenterName) admins) →
  ∃ a, a ∈ admins ∧
       n ∈ tasksRouter.notifyAdmin task user_id commenterName a.
Proof.
  induction admins as [|a admins IH]; cbn.
  - intros []%elem_of_nil.
  - intros [Hhere|Hthere]%elem_of_app.
    + exists a. split; [left|exact Hhere].
    + destruct (IH Hthere) as (a' & Hin & Hn).
      exists a'. split; [right; exact Hin|exact Hn].
Qed.
End Comments.

Lemma find_admins_elem (a : userSchema.doc) (w : World) :
  a ∈ fst (User.find_admins w) →
  userSchema.role a = admin ∧ ∃ k, users w !! k = Some a.
Proof.
  unfold User.find_admins. cbn.
  intros [Hrole Hin]%list_elem_of_filter. split; [exact Hrole|].
  apply list_elem_of_fmap in Hin as ([k a'] & -> & Hin).
  exists k. apply elem_of_map_to_list in Hin. exact Hin.
Qed.

(** What the comment route adds to the notifications. *)
Lemma post_comments_notifications (req_user : userSchema.doc) (id : ObjectId)
    (text : string) (w : World) :
  notifications (snd (tasksRouter.post_comments req_user id text w)) =
  notifications w ++
  match tasks w !! id with
  | None => []
  | Some task =>
      let commenterName :=
        match users w !! userSchema._id req_user with
        | Some currentUser => userSchema.name currentUser
        | None => "unknown"
        end in
      let user_id := userSchema._id req_user in
      let task :=
        taskSchema.set_updatedAt (clock w (S (tick w)))
          (taskSchema.set_comments
             (taskSchema.comments task ++
                [Comment.mk text user_id (clock w (tick w))]) task) in
      tasksRouter.notifyCreator task user_id commenterName ++
      tasksRouter.notifyAssigned task user_id commenterName ++
      concat (map (tasksRouter.notifyAdmin task user_id commenterName)
                  (fst (User.find_admins w)))
  end.
Proof.
  unfold tasksRouter.post_comments, bind, Task.findById. cbn.
  destruct (tasks w !! id) as [task|]; cbn.
  - rewrite createAll_notifications. reflexivity.
  - symmetry. apply app_nil_r.
Qed.

(** C10.  Every notification the comment route creates is addressed to
    someone other than the commenter, who is its actor.  It goes to the
    creator of the task or to the assigned user, each only when not the
    commenter, or to an administrator who is neither the commenter, nor the
    creator, nor the assigned user. *)
Theorem C10_no_notification_to_the_commenter
    (req_user : userSchema.doc) (id : ObjectId) (text : string) (w : World) :
  ∃ created,
    notifications (snd (tasksRouter.post_comments req_user id text w)) =
      notifications w ++ created ∧
    (∀ n, n ∈ created →
       notificationSchema.recipient n ≠ userSchema._id req_user ∧
       notificationSchema.actor n = userSchema._id req_user ∧
       notificationSchema.type n = comment) ∧
    (∀ task, tasks w !! id = Some task →
       ∀ n, n ∈ created →
         notificationSchema.recipient n = taskSchema.createdBy task ∨
         notificationSchema.recipient n = taskSchema.assignedTo task ∨
         (notificationSchema.recipient n ≠ taskSchema.createdBy task ∧
          notificationSchema.recipient n ≠ taskSchema.assignedTo task ∧
          ∃ k a, users w !! k = Some a ∧ userSchema.role a = admin ∧
                 notificationSchema.recipient n = userSchema._id a)).
Proof.
  eexists. split; [apply post_comments_notifications|].
  destruct (tasks w !! id) as [task|]; cbv zeta.
  - set (name := match users w !! userSchema._id req_user with
                 | Some u => userSchema.name u | None => "unknown" end).
    set (task' := taskSchema.set_updatedAt _ _).
    assert (∀ n, n ∈ tasksRouter.notifyCreator task' (userSchema._id req_user) name ++
                     tasksRouter.notifyAssigned task' (userSchema._id req_user) name ++
                     concat (map (tasksRouter.notifyAdmin task'
                                    (userSchema._id req_user) name)
                               (fst (User.find_admins w))) →
            notificationSchema.actor n = userSchema._id req_user ∧
            notificationSchema.type n = comment ∧
            ((notificationSchema.recipient n = taskSchema.createdBy task ∧
              taskSchema.createdBy task ≠ userSchema._id req_user) ∨
             (notificationSchema.recipient n = taskSchema.assignedTo task ∧
              taskSchema.assignedTo task ≠ userSchema._id req_user) ∨
             (notificationSchema.recipient n ≠ userSchema._id req_user ∧
              notificationSchema.recipient n ≠ taskSchema.createdBy task ∧
              notificationSchema.recipient n ≠ taskSchema.assignedTo task ∧
              ∃ k a, users w !! k = Some a ∧ userSchema.role a = admin ∧
                     notificationSchema.recipient n = userSchema._id a)))
      as Hall.
    { intros n [Hc|[Ha|Hadm]%elem_of_app]%elem_of_app.
      - split; [|split].
        + unfold tasksRouter.notifyCreator in Hc. case_bool_decide;
            [apply list_elem_of_singleton in Hc as ->; reflexivity
            |apply elem_of_nil in Hc as []].
        + unfold tasksRouter.notifyCreator in Hc. case_bool_decide;
            [apply list_elem_of_singleton in Hc as ->; reflexivity
            |apply elem_of_nil in Hc as []].
        + left. apply (notifyCreator_elem task' _ _ n Hc).
      - split; [|split].
        + unfold tasksRouter.notifyAssigned in Ha. case_bool_decide;
            [apply list_elem_of_singleton in Ha as ->; reflexivity
            |apply elem_of_nil in Ha as []].
        + unfold tasksRouter.notifyAssigned in Ha. case_bool_decide;
            [apply list_elem_of_singleton in Ha as ->; reflexivity
            |apply elem_of_nil in Ha as []].
        + right. left. apply (notifyAssigned_elem task' _ _ n Ha).
      - apply notifyAdmins_elem in Hadm as (a & Hin & Hn).
        apply find_admins_elem in Hin as (Hrole & k & Hk).
        destruct (notifyAdmin_elem task' _ _ a n Hn) as (Hr & H1 & H2 & H3).
        split; [|split].
        + unfold tasksRouter.notifyAdmin in Hn.
          destruct (_ && _); [apply list_elem_of_singleton in Hn as ->; reflexivity
                             |apply elem_of_nil in Hn as []].
        + unfold tasksRouter.notifyAdmin in Hn.
          destruct (_ && _); [apply list_elem_of_singleton in Hn as ->; reflexivity
                             |apply elem_of_nil in Hn as []].
        + right. right. rewrite Hr. repeat split; try assumption.
          exists k, a. repeat split; assumption. }
    split.
    + intros n Hn. destruct (Hall n Hn) as (Hactor & Htype & Hcases).
      split; [|split; assumption].
      destruct Hcases as [[-> Hne]|[[-> Hne]|(Hne & _)]]; assumption.
    + intros task0 [= <-] n Hn.
      destruct (Hall n Hn) as (_ & _ & [[Hr _]|[[Hr _]|(_ & H1 & H2 & H3)]]).
      * left. exact Hr.
      * right. left. exact Hr.
      * right. right. repeat split; assumption.
  - split.
    + intros n []%elem_of_nil.
    + intros task0 [=].
Qed.

Lemma C10_no_notification_witness :
  let w := Sample.world [Sample.asha; Sample.root]
             [Sample.task 1 high Sample.jan10] Sample.jan10 in
  let created :=
    notifications (snd (tasksRouter.post_comments Sample.root 1 "Done" w)) in
  Forall (λ n, notificationSchema.recipient n ≠ 9%N) created ∧
  Forall (λ n, notificationSchema.recipient n = 9%N ∨
               notificationSchema.recipient n = 2%N ∨
               notificationSchema.recipient n ≠ 9%N ∧
               notificationSchema.recipient n ≠ 2%N) created.
Proof.
  cbv zeta.
  destruct (C10_no_notification_to_the_commenter Sample.root 1%N "Done"
              (Sample.world [Sample.asha; Sample.root]
                 [Sample.task 1 high Sample.jan10] Sample.jan10))
    as (created & -> & Hother & Hwho).
  specialize (Hwho (Sample.task 1 high Sample.jan10) eq_refl).
  split; apply Forall_forall; intros n Hn.
  - apply Hother, Hn.
  - destruct (Hwho n Hn) as [H|[H|(H1 & H2 & _)]].
    + left. exact H.
    + right. left. exact H.
    + right. right. split; [exact H1|exact H2].
Defined.

(** * More of the code *)

(** ** Completing a task, once more *)

Lemma completeTask_notifications (this : taskSchema.doc) (w : World) :
  notifications (snd (Task.completeTask this w)) = notifications w.
Proof.
  unfold Task.completeTask, bind, newDate, getTzOffsetMs. cbn.
  destruct (_ <=? _); cbn; destruct (users w !! taskSchema.assignedTo this);
    cbn; try reflexivity.
  unfold User.updateStreak, bind, newDate. cbn.
  destruct (Z.rem _ 10 =? 0); reflexivity.
Qed.

Lemma updateStreak_clock (u : userSchema.doc) (d : Z) (w : World) :
  clock (snd (User.updateStreak u d w)) = clock w ∧
  tick (snd (User.updateStreak u d w)) =
    if Z.rem (User.nextStreak u (clock w (tick w))) 10 =? 0
    then S (S (tick w)) else S (tick w).
Proof.
  unfold User.updateStreak, bind, newDate. cbn -[Z.rem].
  destruct (Z.rem _ 10 =? 0); split; reflexivity.
Qed.

(** X1.  [completeTask] writes the record of the task and, at most, the record
    of the assigned user: every other task and user is as before, and no
    notification is created. *)
Theorem completeTask_writes_one_task_and_one_user
    (this : taskSchema.doc) (w : World) :
  let w' := snd (Task.completeTask this w) in
  (∀ id, id ≠ taskSchema._id this → tasks w' !! id = tasks w !! id) ∧
  (∀ id, (∀ user, users w !! taskSchema.assignedTo this = Some user →
                  id ≠ userSchema._id user) →
         users w' !! id = users w !! id) ∧
  notifications w' = notifications w.
Proof.
  cbv zeta. split; [|split].
  - intros id Hne. rewrite completeTask_tasks.
    apply lookup_insert_ne. congruence.
  - intros id Hother.
    destruct (users w !! taskSchema.assignedTo this) as [user|] eqn:Huser.
    + destruct (clock w (tick w) <=?
                Task.setHours_23_59_59_999 (tzOffsetMs w) (taskSchema.dueDate this))
        eqn:Hon.
      * destruct (completeTask_on_time_users this w user Hon Huser) as [-> _].
        apply lookup_insert_ne. specialize (Hother user eq_refl). congruence.
      * destruct (completeTask_late_users this w Hon) as [-> _];
          [rewrite Huser; discriminate|reflexivity].
    + destruct (completeTask_missing_user this w Huser) as [-> _]. reflexivity.
  - apply completeTask_notifications.
Qed.

Lemma completeTask_writes_witness :
  let w := Scenario.start in
  users (snd (Task.completeTask (Sample.task 1 high Sample.jan10) w)) !! 9%N =
  users w !! 9%N.
Proof.
  cbv zeta.
  apply (completeTask_writes_one_task_and_one_user
           (Sample.task 1 high Sample.jan10) Scenario.start).
  intros user Huser. vm_compute in Huser. injection Huser as <-.
  cbn. discriminate.
Defined.

(** X2.  The first on-time completion of a user who has no completion on record
    starts a streak of one: the user gets the 50 points of the task and no
    bonus, with one new entry in the reward log, and the date of the last
    completion is the completion date of the task. *)
Theorem first_completion_starts_a_streak_of_one
    (this : taskSchema.doc) (w : World) (user : userSchema.doc) :
  users w !! taskSchema.assignedTo this = Some user →
  userSchema._id user = taskSchema.assignedTo this →
  userSchema.lastTaskCompletion user = None →
  clock w (tick w) ≤
    Task.setHours_23_59_59_999 (tzOffsetMs w) (taskSchema.dueDate this) →
  let r := Task.completeTask this w in
  ∃ user',
    users (snd r) !! taskSchema.assignedTo this = Some user' ∧
    userSchema.currentStreak user' = 1 ∧
    userSchema.lastTaskCompletion user' = taskSchema.completionDate (fst r) ∧
    userSchema.rewardPoints user' = userSchema.rewardPoints user + 50 ∧
    userSchema.rewards user' =
      userSchema.rewards user ++
        [Reward.mk points 50
           ("On-time task completion: " +:+ taskSchema.title this)
           (clock w (3 + tick w)%nat)].
Proof.
  intros Huser Hid Hnone Hle r. subst r.
  apply Z.leb_le in Hle.
  destruct (completeTask_on_time_users this w user Hle Huser) as [Husers _].
  cbv zeta in Husers.
  eexists. split; [rewrite Husers, <- Hid; apply lookup_insert_eq|].
  rewrite completeTask_fst, addRewardPoints_fst.
  destruct (updateStreak_clock user (clock w (tick w))
              (mkWorld (users w) (tasks w) (notifications w) (stderr w)
                 (clock w) (S (S (tick w))) (tzOffsetMs w))) as [-> ->].
  rewrite updateStreak_fst. cbv zeta.
  unfold User.nextStreak. rewrite Hnone.
  change (Z.rem 1 10 =? 0) with false. cbn.
  repeat split; reflexivity.
Qed.

Lemma first_completion_witness :
  ∃ user', users Scenario.firstTask !! 2%N = Some user' ∧
           userSchema.currentStreak user' = 1.
Proof.
  destruct (first_completion_starts_a_streak_of_one
              (Sample.task 1 medium (Scenario.day 30)) Scenario.registered
              Sample.asha)
    as (user' & Hstored & Hstreak & _).
  - vm_compute. reflexivity.
  - reflexivity.
  - reflexivity.
  - vm_compute. discriminate.
  - exists user'. split; [exact Hstored|exact Hstreak].
Defined.

(** X3.  An on-time completion one day after the previous one (24 to 48 hours)
    that brings the streak to a multiple of ten: the streak grows by one,
    the bonus of 100 points per day of the streak is logged first, the 50
    points of the task after it, and the user has both. *)
Theorem completion_on_the_tenth_day_pays_bonus_then_points
    (this : taskSchema.doc) (w : World) (user : userSchema.doc) (last : Z) :
  users w !! taskSchema.assignedTo this = Some user →
  userSchema._id user = taskSchema.assignedTo this →
  userSchema.lastTaskCompletion user = Some last →
  msPerDay ≤ clock w (2 + tick w)%nat - last < 2 * msPerDay →
  Z.rem (userSchema.currentStreak user + 1) 10 = 0 →
  clock w (tick w) ≤
    Task.setHours_23_59_59_999 (tzOffsetMs w) (taskSchema.dueDate this) →
  let streak := userSchema.currentStreak user + 1 in
  ∃ user',
    users (snd (Task.completeTask this w)) !! taskSchema.assignedTo this =
      Some user' ∧
    userSchema.currentStreak user' = streak ∧
    userSchema.rewardPoints user' =
      userSchema.rewardPoints user + streak * 100 + 50 ∧
    userSchema.rewards user' =
      userSchema.rewards user ++
        [Reward.mk points (streak * 100) (User.streakDescription streak)
           (clock w (3 + tick w)%nat);
         Reward.mk points 50
           ("On-time task completion: " +:+ taskSchema.title this)
           (clock w (4 + tick w)%nat)].
Proof.
  intros Huser Hid Hlast Hday Hrem Hle streak.
  apply Z.leb_le in Hle.
  destruct (completeTask_on_time_users this w user Hle Huser) as [Husers _].
  cbv zeta in Husers.
  eexists. split; [rewrite Husers, <- Hid; apply lookup_insert_eq|].
  rewrite addRewardPoints_fst.
  destruct (updateStreak_clock user (clock w (tick w))
              (mkWorld (users w) (tasks w) (notifications w) (stderr w)
                 (clock w) (S (S (tick w))) (tzOffsetMs w))) as [-> ->].
  rewrite updateStreak_fst. cbv zeta.
  assert (User.nextStreak user (clock w (2 + tick w)%nat) = streak) as Hnext.
  { apply (nextStreak_cases user _ last Hlast). apply daysDiff_spec. lia. }
  cbn [clock tick]. change (S (S (tick w))) with (2 + tick w)%nat.
  rewrite Hnext.
  subst streak. rewrite Hrem. cbn -[Z.rem Z.mul].
  rewrite <- app_assoc. repeat split.
Qed.

Lemma completion_on_the_tenth_day_witness :
  ∃ user',
    users (snd (Task.completeTask (Sample.task 1 medium (Scenario.day 30))
                  (Scenario.at_ (Scenario.day 9 + 9 * Sample.hour)
                     (Scenario.daily 9 0 Scenario.registered))))
      !! 2%N = Some user' ∧
    userSchema.currentStreak user' = 10.
Proof.
  destruct (completion_on_the_tenth_day_pays_bonus_then_points
              (Sample.task 1 medium (Scenario.day 30))
              (Scenario.at_ (Scenario.day 9 + 9 * Sample.hour)
                 (Scenario.daily 9 0 Scenario.registered))
              (userSchema.mk 2 "Asha" "asha@example.com" employee 450 9
                 (Some (Scenario.day 8 + 9 * Sample.hour))
                 (userSchema.rewards
                    (default Sample.asha
                       (users (Scenario.daily 9 0 Scenario.registered) !! 2%N))))
              (Scenario.day 8 + 9 * Sample.hour))
    as (user' & Hstored & Hstreak & _).
  - vm_compute. reflexivity.
  - reflexivity.
  - reflexivity.
  - vm_compute. split; [discriminate|reflexivity].
  - reflexivity.
  - vm_compute. discriminate.
  - exists user'. split; [exact Hstored|exact Hstreak].
Defined.

(** X4.  Under the tiered version the user is credited what the task carries:
    after an on-time completion the points of the user have grown by the
    points of the task, 50 plus the bonus of its priority, and by the streak
    bonus when there is one; the last entry of the reward log is the one of
    the task. *)
Theorem tiered_completion_credits_the_points_of_the_task
    (this : taskSchema.doc) (w : World) (user : userSchema.doc) :
  users w !! taskSchema.assignedTo this = Some user →
  userSchema._id user = taskSchema.assignedTo this →
  clock w (tick w) ≤ taskSchema.dueDate this →
  let r := Task_part_001.completeTask this w in
  ∃ user' date,
    users (snd r) !! taskSchema.assignedTo this = Some user' ∧
    taskSchema.rewardPoints (fst r) =
      50 + match taskSchema.priority this with
           | urgent => 50 | high => 30 | medium => 20 | low => 10
           end ∧
    userSchema.rewardPoints user' =
      userSchema.rewardPoints user + taskSchema.rewardPoints (fst r) +
      (if Z.rem (userSchema.currentStreak user') 10 =? 0
       then userSchema.currentStreak user' * 100 else 0) ∧
    last (userSchema.rewards user') =
      Some (Reward.mk points (taskSchema.rewardPoints (fst r))
              ("Task completion reward: " +:+ taskSchema.title this) date).
Proof.
  intros Huser Hid Hle r. subst r.
  apply Z.leb_le in Hle.
  pose proof (completeTask_001_on_time_users this w user Hle Huser) as Husers.
  cbv zeta in Husers.
  eexists. eexists.
  split; [rewrite Husers, <- Hid; apply lookup_insert_eq|].
  rewrite completeTask_001_fst. cbv zeta. rewrite Hle.
  rewrite addRewardPoints_fst.
  cbn -[Z.rem User.updateStreak].
  split; [destruct (taskSchema.priority this); reflexivity|].
  rewrite last_snoc.
  split; [|reflexivity].
  rewrite updateStreak_currentStreak, updateStreak_fst. cbv zeta.
  cbn -[Z.rem].
  destruct (Z.rem _ 10 =? 0); cbn -[Z.rem]; lia.
Qed.

Lemma tiered_completion_witness :
  ∃ user',
    users (snd (Task_part_001.completeTask (Sample.task 1 high Sample.jan10)
                  (Sample.world [Sample.asha] [] (Sample.jan10 - Sample.hour))))
      !! 2%N = Some user' ∧
    userSchema.rewardPoints user' = 80.
Proof.
  destruct (tiered_completion_credits_the_points_of_the_task
              (Sample.task 1 high Sample.jan10)
              (Sample.world [Sample.asha] [] (Sample.jan10 - Sample.hour))
              Sample.asha)
    as (user' & date & Hstored & Htask & Hpoints & _).
  - vm_compute. reflexivity.
  - reflexivity.
  - vm_compute. discriminate.
  - exists user'. split; [exact Hstored|].
    rewrite Hpoints, Htask.
    assert (userSchema.currentStreak user' = 1) as ->.
    { vm_compute in Hstored. injection Hstored as <-. reflexivity. }
    reflexivity.
Defined.

(** X5.  Under the tiered version a late completion does not reset the points of
    the task: a task completed on time and completed again after its due
    date is marked late and still carries the points of the first
    completion. *)
Theorem tiered_late_completion_keeps_earlier_points
    (this : taskSchema.doc) (w w2 : World) :
  clock w (tick w) ≤ taskSchema.dueDate this →
  taskSchema.dueDate this < clock w2 (tick w2) →
  let first := fst (Task_part_001.completeTask this w) in
  let second := fst (Task_part_001.completeTask first w2) in
  taskSchema.isCompletedOnTime first = true ∧
  taskSchema.isCompletedOnTime second = false ∧
  taskSchema.completionDate second = Some (clock w2 (tick w2)) ∧
  taskSchema.rewardPoints second = taskSchema.rewardPoints first ∧
  taskSchema.rewardPoints second > 0.
Proof.
  intros Hle Hlate first second. subst second first.
  apply Z.leb_le in Hle. apply Z.leb_gt in Hlate.
  rewrite !completeTask_001_fst. cbv zeta. rewrite Hle. cbn.
  rewrite Hlate. cbn.
  repeat split. destruct (taskSchema.priority this); cbn; lia.
Qed.

Lemma tiered_late_completion_witness :
  let this := Sample.task 1 high Sample.jan10 in
  let w := Sample.world [Sample.asha] [] (Sample.jan10 - Sample.hour) in
  let w2 := Sample.world [Sample.asha] [] (Sample.jan10 + Sample.hour) in
  taskSchema.rewardPoints
    (fst (Task_part_001.completeTask
            (fst (Task_part_001.completeTask this w)) w2)) > 0.
Proof.
  cbv zeta.
  apply (tiered_late_completion_keeps_earlier_points
           (Sample.task 1 high Sample.jan10)
           (Sample.world [Sample.asha] [] (Sample.jan10 - Sample.hour))
           (Sample.world [Sample.asha] [] (Sample.jan10 + Sample.hour))).
  - vm_compute. discriminate.
  - reflexivity.
Defined.

(** ** The status route, once more *)

Lemma validStatus_elem (s : string) :
  s ∈ ["pending"; "in_progress"; "completed"; "overdue"] ↔
  is_Some (tasksRouter.validStatus s).
Proof.
  unfold tasksRouter.validStatus. split.
  - intros Hin. repeat (apply elem_of_cons in Hin as [->|Hin]);
      [eexists; reflexivity..|apply elem_of_nil in Hin as []].
  - intros [st Hst].
    destruct (String.eqb_spec s "pending") as [->|_]; [set_solver|].
    destruct (String.eqb_spec s "in_progress") as [->|_]; [set_solver|].
    destruct (String.eqb_spec s "completed") as [->|_]; [set_solver|].
    destruct (String.eqb_spec s "overdue") as [->|_]; [set_solver|].
    discriminate.
Qed.

Lemma validStatus_not_falsy (s : string) :
  is_Some (tasksRouter.validStatus s) → tasksRouter.falsy (Some s) = false.
Proof. destruct s; [intros [st Hst]; discriminate|reflexivity]. Qed.

(** X6.  The status route refuses without writing anything: 400 for a missing
    status or one that is not among the four, 404 for a task that is not
    there, 403 for a user who is neither the assigned user nor an
    administrator.  The world is left as it was. *)
Theorem patch_status_refuses_without_writing
    (req_user : userSchema.doc) (id : ObjectId) (w : World) :
  (∀ status,
     status = None ∨
     (∃ s, status = Some s ∧
           s ∉ ["pending"; "in_progress"; "completed"; "overdue"]) →
     code (fst (tasksRouter.patch_status req_user id status w)) = 400 ∧
     snd (tasksRouter.patch_status req_user id status w) = w) ∧
  (∀ s, s ∈ ["pending"; "in_progress"; "completed"; "overdue"] →
     tasks w !! id = None →
     code (fst (tasksRouter.patch_status req_user id (Some s) w)) = 404 ∧
     snd (tasksRouter.patch_status req_user id (Some s) w) = w) ∧
  (∀ s task, s ∈ ["pending"; "in_progress"; "completed"; "overdue"] →
     tasks w !! id = Some task →
     taskSchema.assignedTo task ≠ userSchema._id req_user →
     userSchema.role req_user ≠ admin →
     code (fst (tasksRouter.patch_status req_user id (Some s) w)) = 403 ∧
     snd (tasksRouter.patch_status req_user id (Some s) w) = w).
Proof.
  split; [|split].
  - intros status [->|(s & -> & Hnot)]; [split; reflexivity|].
    unfold tasksRouter.patch_status.
    destruct (tasksRouter.falsy (Some s)); [split; reflexivity|].
    cbn [mbind option_bind].
    destruct (tasksRouter.validStatus s) eqn:Hvalid; [|split; reflexivity].
    exfalso. apply Hnot, validStatus_elem. eexists. exact Hvalid.
  - intros s Hin Hnone. apply validStatus_elem in Hin.
    unfold tasksRouter.patch_status.
    rewrite (validStatus_not_falsy s Hin). cbn [mbind option_bind].
    destruct Hin as [st ->].
    unfold bind, Task.findById. cbn. rewrite Hnone. split; reflexivity.
  - intros s task Hin Htask Hassigned Hrole. apply validStatus_elem in Hin.
    unfold tasksRouter.patch_status.
    rewrite (validStatus_not_falsy s Hin). cbn [mbind option_bind].
    destruct Hin as [st ->].
    unfold bind, Task.findById. cbn. rewrite Htask. cbn.
    rewrite (bool_decide_eq_false_2 _ Hassigned),
      (bool_decide_eq_false_2 _ Hrole).
    split; reflexivity.
Qed.

Lemma patch_status_refuses_witness :
  code (fst (tasksRouter.patch_status Sample.asha 1 (Some "done")
               Scenario.start)) = 400 ∧
  code (fst (tasksRouter.patch_status Sample.asha 5 (Some "overdue")
               Scenario.start)) = 404 ∧
  snd (tasksRouter.patch_status
         (userSchema.defaults 3 "Ben" "ben@example.com" designer) 1
         (Some "completed") Scenario.start) = Scenario.start.
Proof.
  destruct (patch_status_refuses_without_writing Sample.asha 5%N Scenario.start)
    as (_ & Hmissing & _).
  destruct (patch_status_refuses_without_writing Sample.asha 1%N Scenario.start)
    as (Hbad & _ & _).
  destruct (patch_status_refuses_without_writing
              (userSchema.defaults 3 "Ben" "ben@example.com" designer) 1%N
              Scenario.start)
    as (_ & _ & Hforbidden).
  split; [|split].
  - apply Hbad. right. exists "done". split; [reflexivity|].
    intros Hin. repeat (apply elem_of_cons in Hin as [Hin|Hin]; [discriminate|]).
    apply elem_of_nil in Hin as [].
  - apply Hmissing; [repeat constructor|reflexivity].
  - apply (Hforbidden "completed" (Sample.task 1 high Sample.jan10));
      [repeat constructor|reflexivity|discriminate|discriminate].
Defined.

(** X7.  A status other than "completed" is stored and nothing else of the
    rewards moves: the task keeps its points, its on-time flag and its
    completion date, also when it had been completed before; no user is
    touched and the answer carries no reward information. *)
Theorem patch_status_other_than_completed_keeps_the_rewards
    (req_user : userSchema.doc) (id : ObjectId) (w : World)
    (task : taskSchema.doc) (s : string) (st : Status) :
  tasks w !! id = Some task →
  taskSchema._id task = id →
  taskSchema.assignedTo task = userSchema._id req_user ∨
    userSchema.role req_user = admin →
  tasksRouter.validStatus s = Some st →
  st ≠ completed →
  let r := tasksRouter.patch_status req_user id (Some s) w in
  ∃ task',
    fst r = json (TaskAndReward (Some task') None) ∧
    tasks (snd r) !! id = Some task' ∧
    taskSchema.status task' = st ∧
    taskSchema.rewardPoints task' = taskSchema.rewardPoints task ∧
    taskSchema.isCompletedOnTime task' = taskSchema.isCompletedOnTime task ∧
    taskSchema.completionDate task' = taskSchema.completionDate task ∧
    users (snd r) = users w.
Proof.
  intros Htask Hid Hauth Hvalid Hst r. subst r id.
  assert (negb (bool_decide (taskSchema.assignedTo task = userSchema._id req_user))
          && negb (bool_decide (userSchema.role req_user = admin)) = false)
    as Hok.
  { destruct Hauth as [H|H]; rewrite (bool_decide_eq_true_2 _ H);
      [reflexivity|apply andb_false_r]. }
  exists (taskSchema.set_updatedAt (clock w (tick w)) (taskSchema.set_status st task)).
  unfold tasksRouter.patch_status.
  rewrite (validStatus_not_falsy s) by (eexists; exact Hvalid).
  cbn [mbind option_bind]. rewrite Hvalid.
  unfold bind, Task.findById. cbn. rewrite Htask. cbn. rewrite Hok.
  destruct st; try contradiction; cbn;
    rewrite lookup_insert_eq; repeat split; reflexivity.
Qed.

Lemma patch_status_other_witness :
  (taskSchema.rewardPoints <$>
     tasks (snd (tasksRouter.patch_status Sample.root 1 (Some "pending")
                   Scenario.completedOnce)) !! 1%N) = Some 50.
Proof.
  destruct (patch_status_other_than_completed_keeps_the_rewards
              Sample.root 1%N Scenario.completedOnce Scenario.taskOnce
              "pending" pending)
    as (task' & _ & Hstored & _ & Hpoints & _).
  - vm_compute. reflexivity.
  - reflexivity.
  - right. reflexivity.
  - reflexivity.
  - discriminate.
  - rewrite Hstored. cbn. rewrite Hpoints. reflexivity.
Defined.

(** X8.  What the status route answers on a completion is what the database
    holds afterwards: the task under the id, and the points and the streak
    of the stored assigned user.  [pointsEarned] are the points of the task,
    without the streak bonus; when the assigned user does not exist the
    reward information is null. *)
Theorem patch_status_completed_reports_the_stored_records
    (req_user : userSchema.doc) (id : ObjectId) (w : World)
    (task : taskSchema.doc) :
  tasks w !! id = Some task →
  taskSchema._id task = id →
  taskSchema.assignedTo task = userSchema._id req_user ∨
    userSchema.role req_user = admin →
  let r := tasksRouter.patch_status req_user id (Some "completed") w in
  ∃ task',
    tasks (snd r) !! id = Some task' ∧
    taskSchema.status task' = completed ∧
    fst r =
      json (TaskAndReward (Some task')
              (match users (snd r) !! taskSchema.assignedTo task with
               | Some user =>
                   Some (mkRewardInfo (taskSchema.rewardPoints task')
                           (userSchema.rewardPoints user)
                           (userSchema.currentStreak user)
                           (taskSchema.isCompletedOnTime task'))
               | None => None
               end)).
Proof.
  intros Htask Hid Hauth r.
  pose proof (patch_status_completed req_user id w task Htask Hauth) as Hsnd.
  fold r in Hsnd.
  set (this := taskSchema.set_status completed task) in *.
  exists (fst (Task.completeTask this w)).
  assert (tasks (snd r) !! id = Some (fst (Task.completeTask this w))) as Hstored.
  { rewrite Hsnd, completeTask_tasks, <- Hid. apply lookup_insert_eq. }
  split; [exact Hstored|].
  split; [rewrite completeTask_fst; reflexivity|].
  rewrite <- Hstored, Hsnd at 1. clear Hstored.
  subst r. unfold tasksRouter.patch_status, bind, Task.findById. cbn.
  rewrite Htask. cbn.
  assert (negb (bool_decide (taskSchema.assignedTo task = userSchema._id req_user))
          && negb (bool_decide (userSchema.role req_user = admin)) = false) as ->.
  { destruct Hauth as [H|H]; rewrite (bool_decide_eq_true_2 _ H);
      [reflexivity|apply andb_false_r]. }
  cbn. fold this.
  destruct (users (snd (Task.completeTask this w)) !! taskSchema.assignedTo task);
    reflexivity.
Qed.

Lemma patch_status_completed_witness :
  ∃ task',
    fst (tasksRouter.patch_status Sample.root 1 (Some "completed")
           Scenario.start) =
    json (TaskAndReward (Some task') (Some (mkRewardInfo 50 50 1 true))).
Proof.
  destruct (patch_status_completed_reports_the_stored_records
              Sample.root 1%N Scenario.start (Sample.task 1 high Sample.jan10))
    as (task' & Hstored & _ & Hbody).
  - vm_compute. reflexivity.
  - reflexivity.
  - right. reflexivity.
  - exists task'. rewrite Hbody.
    vm_compute in Hstored. injection Hstored as <-.
    vm_compute. reflexivity.
Defined.

(** ** Extension requests, once more *)

Lemma falsy_false (s : string) :
  s ≠ EmptyString → tasksRouter.falsy (Some s) = false.
Proof. destruct s; [contradiction|reflexivity]. Qed.

(** X9.  Asking for an extension is refused without writing anything: 404 for a
    task that is not there, 403 for a user other than the assigned one, 400
    when the reason or the date is missing and when the date is not after
    the current due date. *)
Theorem post_extension_request_refuses_without_writing
    (req_user : userSchema.doc) (id : ObjectId) (reason : option string)
    (newDueDate : option Z) (w : World) :
  let r := tasksRouter.post_extension_request req_user id reason newDueDate w in
  (tasks w !! id = None → code (fst r) = 404 ∧ snd r = w) ∧
  (∀ task, tasks w !! id = Some task →
     (taskSchema.assignedTo task ≠ userSchema._id req_user →
        code (fst r) = 403 ∧ snd r = w) ∧
     (taskSchema.assignedTo task = userSchema._id req_user →
        reason = None ∨ reason = Some EmptyString ∨ newDueDate = None →
        code (fst r) = 400 ∧ snd r = w) ∧
     (taskSchema.assignedTo task = userSchema._id req_user →
        ∀ d, newDueDate = Some d → d ≤ taskSchema.dueDate task →
             code (fst r) = 400 ∧ snd r = w)).
Proof.
  cbv zeta.
  unfold tasksRouter.post_extension_request, bind, Task.findById. cbn.
  split.
  - intros ->. split; reflexivity.
  - intros task ->. cbn. split; [|split].
    + intros Hne. rewrite (bool_decide_eq_true_2 _ Hne). split; reflexivity.
    + intros Heq Hmissing.
      rewrite bool_decide_eq_false_2 by (intros Hne; apply Hne, Heq).
      destruct Hmissing as [->|[->| ->]]; try (split; reflexivity).
      destruct (tasksRouter.falsy reason); split; reflexivity.
    + intros Heq d -> Hle.
      rewrite bool_decide_eq_false_2 by (intros Hne; apply Hne, Heq).
      destruct (tasksRouter.falsy reason); [split; reflexivity|].
      apply Z.leb_le in Hle. rewrite Hle. split; reflexivity.
Qed.

Lemma post_extension_request_refuses_witness :
  let w := Scenario.start in
  code (fst (tasksRouter.post_extension_request Sample.asha 5
               (Some "Late") (Some (Scenario.day 2)) w)) = 404 ∧
  code (fst (tasksRouter.post_extension_request Sample.root 1
               (Some "Late") (Some (Scenario.day 2)) w)) = 403 ∧
  code (fst (tasksRouter.post_extension_request Sample.asha 1
               (Some "Late") None w)) = 400 ∧
  code (fst (tasksRouter.post_extension_request Sample.asha 1
               (Some "Late") (Some Sample.jan10) w)) = 400.
Proof.
  cbv zeta. split; [|split; [|split]].
  - apply (post_extension_request_refuses_without_writing Sample.asha 5%N
             (Some "Late") (Some (Scenario.day 2)) Scenario.start).
    reflexivity.
  - apply (post_extension_request_refuses_without_writing Sample.root 1%N
             (Some "Late") (Some (Scenario.day 2)) Scenario.start)
      with (task := Sample.task 1 high Sample.jan10);
      [reflexivity|discriminate].
  - apply (post_extension_request_refuses_without_writing Sample.asha 1%N
             (Some "Late") None Scenario.start)
      with (task := Sample.task 1 high Sample.jan10);
      [reflexivity|reflexivity|right; right; reflexivity].
  - apply (post_extension_request_refuses_without_writing Sample.asha 1%N
             (Some "Late") (Some Sample.jan10) Scenario.start)
      with (task := Sample.task 1 high Sample.jan10) (d := Sample.jan10);
      [reflexivity|reflexivity|reflexivity|discriminate].
Defined.

Lemma post_extension_request_accepted
    (req_user : userSchema.doc) (id : ObjectId) (reason : string) (d : Z)
    (w : World) (task : taskSchema.doc) :
  tasks w !! id = Some task →
  taskSchema.assignedTo task = userSchema._id req_user →
  reason ≠ EmptyString →
  taskSchema.dueDate task < d →
  let task' :=
    taskSchema.set_updatedAt (clock w (S (tick w)))
      (taskSchema.set_extensionRequest
         (ExtensionRequest.mk true ext_pending (Some (userSchema._id req_user))
            (Some (clock w (tick w))) (Some reason) (Some d) None None)
         task) in
  tasksRouter.post_extension_request req_user id (Some reason) (Some d) w =
  (json (MessageAndTask "Extension request submitted successfully" task'),
   mkWorld (users w) (<[taskSchema._id task := task']> (tasks w))
     (notifications w ++
        [notificationSchema.mk (taskSchema.createdBy task) (taskSchema._id task)
           extension_request (userSchema._id req_user)
           ("Extension requested for task: " +:+ taskSchema.title task)])
     (stderr w) (clock w) (S (S (tick w))) (tzOffsetMs w)).
Proof.
  intros Htask Hassigned Hreason Hafter. cbv zeta.
  unfold tasksRouter.post_extension_request.
  rewrite (falsy_false reason Hreason).
  unfold bind, Task.findById. cbn.
  rewrite Htask. cbn.
  rewrite bool_decide_eq_false_2 by (intros Hne; apply Hne, Hassigned).
  apply Z.leb_gt in Hafter. rewrite Hafter. reflexivity.
Qed.

(** X10.  An accepted request for an extension is stored on the task as pending,
    with the user, the reason, the date asked for and the time of the
    request; an earlier resolution is wiped, the due date does not move, one
    notification goes to the creator of the task, and the request can be
    read back by the user through the GET route. *)
Theorem post_extension_request_opens_a_pending_request
    (req_user : userSchema.doc) (id : ObjectId) (reason : string) (d : Z)
    (w : World) (task : taskSchema.doc) :
  tasks w !! id = Some task →
  taskSchema._id task = id →
  taskSchema.assignedTo task = userSchema._id req_user →
  reason ≠ EmptyString →
  taskSchema.dueDate task < d →
  let r := tasksRouter.post_extension_request req_user id (Some reason)
             (Some d) w in
  let request :=
    ExtensionRequest.mk true ext_pending (Some (userSchema._id req_user))
      (Some (clock w (tick w))) (Some reason) (Some d) None None in
  code (fst r) = 200 ∧
  (∃ task', tasks (snd r) !! id = Some task' ∧
            taskSchema.extensionRequest task' = request ∧
            taskSchema.dueDate task' = taskSchema.dueDate task) ∧
  notifications (snd r) =
    notifications w ++
      [notificationSchema.mk (taskSchema.createdBy task) id extension_request
         (userSchema._id req_user)
         ("Extension requested for task: " +:+ taskSchema.title task)] ∧
  users (snd r) = users w ∧
  fst (tasksRouterRest.get_extension_request req_user id (snd r)) =
    mkAnswer 200 (JExtensionRequest request).
Proof.
  intros Htask Hid Hassigned Hreason Hafter r request. subst r request id.
  rewrite (post_extension_request_accepted req_user _ reason d w task
             Htask Hassigned Hreason Hafter).
  cbv zeta. cbn [fst snd code json users tasks notifications].
  split; [reflexivity|]. split.
  - eexists. split; [apply lookup_insert_eq|]. split; reflexivity.
  - split; [reflexivity|]. split; [reflexivity|].
    unfold tasksRouterRest.get_extension_request, bind, Task.findById.
    cbn [fst snd tasks].
    rewrite lookup_insert_eq. cbn.
    rewrite (bool_decide_eq_false_2 (taskSchema.assignedTo task ≠ _))
      by (intros Hne; apply Hne, Hassigned).
    reflexivity.
Qed.

Lemma post_extension_request_witness :
  notificationSchema.recipient <$>
    notifications (snd (tasksRouter.post_extension_request Sample.asha 1
                          (Some "Late") (Some (Scenario.day 2))
                          Scenario.start)) = [9%N].
Proof.
  destruct (post_extension_request_opens_a_pending_request
              Sample.asha 1%N "Late" (Scenario.day 2) Scenario.start
              (Sample.task 1 high Sample.jan10))
    as (_ & _ & -> & _).
  - vm_compute. reflexivity.
  - reflexivity.
  - reflexivity.
  - discriminate.
  - reflexivity.
  - reflexivity.
Defined.

(** X11.  Asking and approving compose: once the assigned user has asked for a
    later date, an approval with that date answers 200 and moves the due
    date there, keeping who asked and recording who approved.  The same
    approval sent a second time answers 400, since the date is no longer
    after the due date. *)
Theorem extension_asked_then_approved
    (asker approver : userSchema.doc) (id : ObjectId) (reason : string)
    (d : Z) (w : World) (task : taskSchema.doc) :
  tasks w !! id = Some task →
  taskSchema._id task = id →
  taskSchema.assignedTo task = userSchema._id asker →
  reason ≠ EmptyString →
  taskSchema.dueDate task < d →
  let asked :=
    snd (tasksRouter.post_extension_request asker id (Some reason) (Some d) w) in
  let approved :=
    tasksRouter.patch_extension_request approver id (Some "approved")
      (Some d) asked in
  let again :=
    tasksRouter.patch_extension_request approver id (Some "approved")
      (Some d) (snd approved) in
  code (fst approved) = 200 ∧
  (∃ task', tasks (snd approved) !! id = Some task' ∧
            taskSchema.dueDate task' = d ∧
            ExtensionRequest.status (taskSchema.extensionRequest task') =
              ext_approved ∧
            ExtensionRequest.requestedBy (taskSchema.extensionRequest task') =
              Some (userSchema._id asker) ∧
            ExtensionRequest.approvedBy (taskSchema.extensionRequest task') =
              Some (userSchema._id approver)) ∧
  code (fst again) = 400 ∧
  tasks (snd again) = tasks (snd approved).
Proof.
  intros Htask Hid Hassigned Hreason Hafter asked approved again.
  pose proof (post_extension_request_accepted asker id reason d w task
                Htask Hassigned Hreason Hafter) as Hasked.
  cbv zeta in Hasked.
  set (task1 := taskSchema.set_updatedAt _ _) in Hasked.
  assert (tasks asked !! id = Some task1) as Hstored1.
  { subst asked. rewrite Hasked. cbn [snd tasks].
    rewrite Hid. apply lookup_insert_eq. }
  assert (ExtensionRequest.requested (taskSchema.extensionRequest task1) = true)
    as Hrequested1 by reflexivity.
  assert (taskSchema.dueDate task1 < d) as Hafter1 by exact Hafter.
  assert (taskSchema._id task1 = id) as Hid1 by exact Hid.
  pose proof (approve_after approver id asked task1 Hstored1 Hrequested1 d
                Hafter1) as Hrun.
  fold approved in Hrun.
  set (task2 := tasksRouter.approve task1 d (userSchema._id approver)
                  (clock asked (tick asked))).
  assert (tasks (snd approved) !! id =
          Some (taskSchema.set_updatedAt (clock asked (S (tick asked))) task2))
    as Hstored2.
  { rewrite Hrun. unfold bind. cbn [fst snd newDate].
    match goal with
    | |- context [tasksRouter.resolved ?u ?t ?s ?w'] =>
        destruct (resolved_run u t s w') as [_ Hstored]
    end.
    rewrite <- Hid1. exact Hstored. }
  split; [rewrite Hrun; reflexivity|].
  split.
  - eexists. split; [exact Hstored2|].
    repeat split; reflexivity.
  - subst again.
    rewrite (approve_not_after approver id (snd approved) _ Hstored2);
      [split; reflexivity|cbn; exact Hrequested1|cbn; lia].
Qed.

Lemma extension_asked_then_approved_witness :
  code (fst (tasksRouter.patch_extension_request Sample.root 1
               (Some "approved") (Some (Scenario.day 2))
               (snd (tasksRouter.post_extension_request Sample.asha 1
                       (Some "Late") (Some (Scenario.day 2))
                       Scenario.start)))) = 200.
Proof.
  apply (extension_asked_then_approved Sample.asha Sample.root 1%N "Late"
           (Scenario.day 2) Scenario.start (Sample.task 1 high Sample.jan10)).
  - vm_compute. reflexivity.
  - reflexivity.
  - reflexivity.
  - discriminate.
  - reflexivity.
Defined.

(** X12.  Resolving is refused without writing anything when there is nothing to
    resolve: 404 for a task that is not there, 400 for a task on which no
    extension was asked, 400 for a resolution other than "approved" and
    "rejected". *)
Theorem patch_extension_request_refuses_without_writing
    (req_user : userSchema.doc) (id : ObjectId) (status : option string)
    (newDueDate : option Z) (w : World) :
  let r := tasksRouter.patch_extension_request req_user id status newDueDate w in
  (tasks w !! id = None → code (fst r) = 404 ∧ snd r = w) ∧
  (∀ task, tasks w !! id = Some task →
     (ExtensionRequest.requested (taskSchema.extensionRequest task) = false →
        code (fst r) = 400 ∧ snd r = w) ∧
     (status ≠ Some "approved" → status ≠ Some "rejected" →
        code (fst r) = 400 ∧ snd r = w)).
Proof.
  cbv zeta.
  unfold tasksRouter.patch_extension_request, bind, Task.findById. cbn.
  split.
  - intros ->. split; reflexivity.
  - intros task ->. cbn. split.
    + intros ->. split; reflexivity.
    + intros Hnot_approved Hnot_rejected.
      destruct (negb _); [split; reflexivity|].
      destruct status as [s|]; [|split; reflexivity].
      cbn. unfold tasksRouter.resolution.
      destruct (String.eqb_spec s "approved") as [->|_]; [contradiction|].
      destruct (String.eqb_spec s "rejected") as [->|_]; [contradiction|].
      split; reflexivity.
Qed.

Lemma patch_extension_request_refuses_witness :
  code (fst (tasksRouter.patch_extension_request Sample.root 1
               (Some "approved") (Some (Scenario.day 2)) Scenario.start)) = 400 ∧
  code (fst (tasksRouter.patch_extension_request Sample.root 5
               (Some "approved") (Some (Scenario.day 2)) Scenario.start)) = 404.
Proof.
  split.
  - destruct (patch_extension_request_refuses_without_writing Sample.root 1%N
                (Some "approved") (Some (Scenario.day 2)) Scenario.start)
      as (_ & Hfound).
    destruct (Hfound (Sample.task 1 high Sample.jan10) eq_refl)
      as (Hnone & _).
    apply Hnone. reflexivity.
  - destruct (patch_extension_request_refuses_without_writing Sample.root 5%N
                (Some "approved") (Some (Scenario.day 2)) Scenario.start)
      as (Hmissing & _).
    apply Hmissing. reflexivity.
Defined.

(** X13.  A resolution that goes through creates one notification, for the
    assigned user, that names the task and the resolution; the users are
    left as they were. *)
Theorem resolution_notifies_the_assigned_user
    (req_user : userSchema.doc) (id : ObjectId) (w : World)
    (task : taskSchema.doc) (proposedDate : Z) (newDueDate : option Z) :
  tasks w !! id = Some task →
  ExtensionRequest.requested (taskSchema.extensionRequest task) = true →
  let approved :=
    tasksRouter.patch_extension_request req_user id (Some "approved")
      (Some proposedDate) w in
  let rejected :=
    tasksRouter.patch_extension_request req_user id (Some "rejected")
      newDueDate w in
  let notification (resolution : string) :=
    notificationSchema.mk (taskSchema.assignedTo task) (taskSchema._id task)
      extension_response (userSchema._id req_user)
      ("Your extension request for task " +:+ tasksRouter.dquote +:+
       taskSchema.title task +:+ tasksRouter.dquote +:+ " has been " +:+
       resolution) in
  (taskSchema.dueDate task < proposedDate →
     notifications (snd approved) =
       notifications w ++ [notification "approved"] ∧
     users (snd approved) = users w) ∧
  (proposedDate ≤ taskSchema.dueDate task →
     notifications (snd approved) = notifications w) ∧
  notifications (snd rejected) = notifications w ++ [notification "rejected"] ∧
  users (snd rejected) = users w.
Proof.
  intros Htask Hrequested approved rejected notification.
  subst approved rejected notification. split; [|split].
  - intros Hafter.
    rewrite (approve_after req_user id w task Htask Hrequested _ Hafter).
    split; reflexivity.
  - intros Hle.
    rewrite (approve_not_after req_user id w task Htask Hrequested _ Hle).
    reflexivity.
  - rewrite (reject_any req_user id w task Htask Hrequested).
    split; reflexivity.
Qed.

Lemma resolution_notifies_witness :
  let w := Sample.world [Sample.asha; Sample.root] [Scenario.taskWithRequest]
             (Sample.jan10 - Sample.hour) in
  notificationSchema.recipient <$>
    notifications (snd (tasksRouter.patch_extension_request Sample.root 1
                          (Some "approved") (Some (Scenario.day 2)) w)) =
  [2%N].
Proof.
  cbv zeta.
  destruct (resolution_notifies_the_assigned_user Sample.root 1%N
              (Sample.world [Sample.asha; Sample.root]
                 [Scenario.taskWithRequest] (Sample.jan10 - Sample.hour))
              Scenario.taskWithRequest (Scenario.day 2) None)
    as (Happroved & _).
  - vm_compute. reflexivity.
  - reflexivity.
  - destruct Happroved as [-> _]; reflexivity.
Defined.

(** X14.  The extension request of a task can be read by the assigned user, by
    the creator of the task and by an administrator, and by nobody else;
    reading writes nothing. *)
Theorem get_extension_request_is_for_assignee_creator_and_admin
    (req_user : userSchema.doc) (id : ObjectId) (w : World)
    (task : taskSchema.doc) :
  tasks w !! id = Some task →
  let r := tasksRouterRest.get_extension_request req_user id w in
  let allowed :=
    taskSchema.assignedTo task = userSchema._id req_user ∨
    taskSchema.createdBy task = userSchema._id req_user ∨
    userSchema.role req_user = admin in
  (allowed →
     fst r = mkAnswer 200 (JExtensionRequest (taskSchema.extensionRequest task))) ∧
  (¬ allowed → answerCode (fst r) = 403) ∧
  snd r = w.
Proof.
  intros Htask r allowed. subst r allowed.
  unfold tasksRouterRest.get_extension_request, bind, Task.findById. cbn.
  rewrite Htask. cbn.
  repeat case_bool_decide; cbn; repeat split; try reflexivity;
    intros; try tauto.
Qed.

Lemma get_extension_request_witness :
  let w := Sample.world [Sample.asha; Sample.root] [Scenario.taskWithRequest]
             (Sample.jan10 - Sample.hour) in
  answerCode (fst (tasksRouterRest.get_extension_request Sample.asha 1 w)) = 200 ∧
  answerCode
    (fst (tasksRouterRest.get_extension_request
            (userSchema.defaults 3 "Ben" "ben@example.com" designer) 1 w)) = 403.
Proof.
  cbv zeta. split.
  - destruct (get_extension_request_is_for_assignee_creator_and_admin
                Sample.asha 1%N
                (Sample.world [Sample.asha; Sample.root]
                   [Scenario.taskWithRequest] (Sample.jan10 - Sample.hour))
                Scenario.taskWithRequest eq_refl) as (Hallowed & _).
    rewrite Hallowed; [reflexivity|]. left. reflexivity.
  - destruct (get_extension_request_is_for_assignee_creator_and_admin
                (userSchema.defaults 3 "Ben" "ben@example.com" designer) 1%N
                (Sample.world [Sample.asha; Sample.root]
                   [Scenario.taskWithRequest] (Sample.jan10 - Sample.hour))
                Scenario.taskWithRequest eq_refl) as (_ & Hdenied & _).
    apply Hdenied. intros [H|[H|H]]; discriminate H.
Defined.

(** X15.  What the status route reports on a completion is what the assigned user
    reads right after through GET /rewards/me: the same total and the same
    streak; when the user does not exist the one answers without reward
    information and the other with 404. *)
Theorem rewards_me_agrees_with_the_status_route
    (req_user : userSchema.doc) (id : ObjectId) (w : World)
    (task : taskSchema.doc) :
  tasks w !! id = Some task →
  taskSchema.assignedTo task = userSchema._id req_user →
  let r := tasksRouter.patch_status req_user id (Some "completed") w in
  let me := tasksRouterRest.get_rewards_me req_user (snd r) in
  snd me = snd r ∧
  match users (snd r) !! userSchema._id req_user with
  | Some user =>
      ∃ task' info,
        fst r = json (TaskAndReward task' (Some info)) ∧
        fst me = mkAnswer 200 (JRewards (totalPoints info)
                                 (ri_currentStreak info)
                                 (userSchema.rewards user))
  | None =>
      answerCode (fst me) = 404 ∧
      ∃ task', fst r = json (TaskAndReward task' None)
  end.
Proof.
  intros Htask Hassigned r me.
  pose proof (patch_status_completed req_user id w task Htask
                (or_introl Hassigned)) as Hsnd.
  fold r in Hsnd.
  assert (fst r =
          json (TaskAndReward (tasks (snd r) !! id)
                  (match users (snd r) !! taskSchema.assignedTo task with
                   | Some user =>
                       Some (mkRewardInfo
                               (taskSchema.rewardPoints
                                  (fst (Task.completeTask
                                          (taskSchema.set_status completed task) w)))
                               (userSchema.rewardPoints user)
                               (userSchema.currentStreak user)
                               (taskSchema.isCompletedOnTime
                                  (fst (Task.completeTask
                                          (taskSchema.set_status completed task) w))))
                   | None => None
                   end))) as Hfst.
  { rewrite Hsnd. subst r.
    unfold tasksRouter.patch_status, bind, Task.findById. cbn.
    rewrite Htask. cbn.
    rewrite (bool_decide_eq_true_2 _ Hassigned). cbn.
    destruct (users (snd (Task.completeTask _ w)) !! taskSchema.assignedTo task);
      reflexivity. }
  rewrite Hassigned in Hfst.
  subst me. unfold tasksRouterRest.get_rewards_me, bind, User.findById.
  cbn [fst snd].
  destruct (users (snd r) !! userSchema._id req_user) as [user|].
  - split; [reflexivity|]. eexists. eexists. split; [exact Hfst|reflexivity].
  - split; [reflexivity|]. split; [reflexivity|]. eexists. exact Hfst.
Qed.

Lemma rewards_me_witness :
  answerCode
    (fst (tasksRouterRest.get_rewards_me Sample.asha
            (snd (tasksRouter.patch_status Sample.asha 1 (Some "completed")
                    Scenario.start)))) = 200.
Proof.
  destruct (rewards_me_agrees_with_the_status_route Sample.asha 1%N
              Scenario.start (Sample.task 1 high Sample.jan10))
    as (_ & Hagree).
  - vm_compute. reflexivity.
  - reflexivity.
  - assert (users (snd (tasksRouter.patch_status Sample.asha 1
                          (Some "completed") Scenario.start))
              !! userSchema._id Sample.asha = Some Scenario.ashaOnce) as Hstored
      by (vm_compute; reflexivity).
    rewrite Hstored in Hagree.
    destruct Hagree as (task' & info & _ & ->). reflexivity.
Defined.

(** ** Comments, once more *)

Lemma createAll_tasks_users (ns : list notificationSchema.doc) (w : World) :
  tasks (snd (tasksRouter.createAll ns w)) = tasks w.
Proof.
  revert w. induction ns as [|n ns IH]; intros w; [reflexivity|].
  cbn. unfold bind. rewrite IH. reflexivity.
Qed.

(** X16.  A comment on a task that is not there answers 404 and writes nothing.
    On a stored task the comment goes to the end of its comments, with the
    text, the commenter and the time; the comments before it, the status and
    the reward fields of the task stay, and no user is touched. *)
Theorem post_comments_appends_the_comment
    (req_user : userSchema.doc) (id : ObjectId) (text : string) (w : World) :
  let r := tasksRouter.post_comments req_user id text w in
  (tasks w !! id = None → code (fst r) = 404 ∧ snd r = w) ∧
  (∀ task, tasks w !! id = Some task → taskSchema._id task = id →
     ∃ task',
       fst r = json (TaskJson task') ∧
       tasks (snd r) !! id = Some task' ∧
       taskSchema.comments task' =
         taskSchema.comments task ++
           [Comment.mk text (userSchema._id req_user) (clock w (tick w))] ∧
       taskSchema.status task' = taskSchema.status task ∧
       taskSchema.dueDate task' = taskSchema.dueDate task ∧
       taskSchema.rewardPoints task' = taskSchema.rewardPoints task ∧
       users (snd r) = users w).
Proof.
  cbv zeta. split.
  - intros Hnone.
    unfold tasksRouter.post_comments, bind, Task.findById. cbn.
    rewrite Hnone. split; reflexivity.
  - intros task Htask <-.
    unfold tasksRouter.post_comments, bind, Task.findById. cbn.
    rewrite Htask. cbn. eexists.
    split; [reflexivity|].
    rewrite createAll_tasks_users, createAll_users. cbn.
    split; [apply lookup_insert_eq|]. repeat split; reflexivity.
Qed.

Lemma post_comments_appends_witness :
  (length ∘ taskSchema.comments <$>
     tasks (snd (tasksRouter.post_comments Sample.root 1 "Done"
                   Scenario.start)) !! 1%N) = Some 1%nat.
Proof.
  destruct (post_comments_appends_the_comment Sample.root 1%N "Done"
              Scenario.start) as (_ & Hfound).
  destruct (Hfound (Sample.task 1 high Sample.jan10))
    as (task' & _ & Hstored & Hcomments & _).
  - vm_compute. reflexivity.
  - reflexivity.
  - rewrite Hstored. cbn. rewrite Hcomments. reflexivity.
Defined.

(** X17.  When the creator of a task is also its assigned user and somebody else
    comments, that user gets the same notification twice: once as creator
    and once as assigned user. *)
Theorem post_comments_notifies_a_creator_who_is_assigned_twice
    (req_user : userSchema.doc) (id : ObjectId) (text : string) (w : World)
    (task : taskSchema.doc) :
  tasks w !! id = Some task →
  taskSchema.createdBy task = taskSchema.assignedTo task →
  taskSchema.createdBy task ≠ userSchema._id req_user →
  ∃ n rest,
    notifications (snd (tasksRouter.post_comments req_user id text w)) =
      notifications w ++ n :: n :: rest ∧
    notificationSchema.recipient n = taskSchema.createdBy task ∧
    ∀ n', n' ∈ rest →
      notificationSchema.recipient n' ≠ taskSchema.createdBy task.
Proof.
  intros Htask Hsame Hother.
  rewrite post_comments_notifications, Htask. cbv zeta.
  set (name := match users w !! userSchema._id req_user with
               | Some u => userSchema.name u | None => "unknown" end).
  set (task' := taskSchema.set_updatedAt _ _).
  unfold tasksRouter.notifyCreator, tasksRouter.notifyAssigned.
  change (taskSchema.createdBy task') with (taskSchema.createdBy task).
  change (taskSchema.assignedTo task') with (taskSchema.assignedTo task).
  rewrite <- Hsame, (bool_decide_eq_true_2 _ Hother). cbn [app].
  eexists. eexists. split; [reflexivity|]. split; [reflexivity|].
  intros n' Hin.
  apply notifyAdmins_elem in Hin as (a & _ & Hn).
  apply notifyAdmin_elem in Hn as (-> & _ & Hcreator & _).
  exact Hcreator.
Qed.

Lemma post_comments_twice_witness :
  let task :=
    taskSchema.mk 1 "Floor plan" "Draw the floor plan" 7 2 pending high
      Sample.jan10 None false 0 2 ExtensionRequest.defaults [] 0 0 in
  let w := Sample.world [Sample.asha; Sample.root] [task] Sample.jan10 in
  notificationSchema.recipient <$>
    notifications (snd (tasksRouter.post_comments Sample.root 1 "Done" w)) =
  [2%N; 2%N].
Proof.
  cbv zeta.
  destruct (post_comments_notifies_a_creator_who_is_assigned_twice
              Sample.root 1%N "Done"
              (Sample.world [Sample.asha; Sample.root]
                 [taskSchema.mk 1 "Floor plan" "Draw the floor plan" 7 2
                    pending high Sample.jan10 None false 0 2
                    ExtensionRequest.defaults [] 0 0] Sample.jan10)
              (taskSchema.mk 1 "Floor plan" "Draw the floor plan" 7 2
                 pending high Sample.jan10 None false 0 2
                 ExtensionRequest.defaults [] 0 0))
    as (n & rest & _ & _ & _).
  - vm_compute. reflexivity.
  - reflexivity.
  - discriminate.
  - vm_compute. reflexivity.
Defined.

(** ** Deleting a task *)

(** X18.  Deleting a task that is not there answers 404 and writes nothing.
    Deleting a stored task removes that task and no other; the users keep
    what they have, also the points earned with the task; deleting it a
    second time answers 404. *)
Theorem delete_task_removes_one_task (id : ObjectId) (w : World) :
  let r := tasksRouterRest.delete_task id w in
  (tasks w !! id = None → code (fst r) = 404 ∧ snd r = w) ∧
  (is_Some (tasks w !! id) →
     code (fst r) = 200 ∧
     tasks (snd r) !! id = None ∧
     (∀ id', id' ≠ id → tasks (snd r) !! id' = tasks w !! id') ∧
     users (snd r) = users w ∧
     code (fst (tasksRouterRest.delete_task id (snd r))) = 404).
Proof.
  cbv zeta. unfold tasksRouterRest.delete_task, bind, Task.findById. cbn.
  split.
  - intros ->. split; reflexivity.
  - intros [task ->]. cbn. rewrite lookup_delete_eq.
    repeat split; try reflexivity.
    intros id' Hne. apply lookup_delete_ne. congruence.
Qed.

Lemma delete_task_witness :
  tasks (snd (tasksRouterRest.delete_task 1 Scenario.completedOnce)) !! 1%N =
    None ∧
  (userSchema.rewardPoints <$>
     users (snd (tasksRouterRest.delete_task 1 Scenario.completedOnce)) !! 2%N) =
    Some 50.
Proof.
  destruct (delete_task_removes_one_task 1%N Scenario.completedOnce)
    as (_ & Hfound).
  destruct Hfound as (_ & Hgone & _ & Husers & _).
  - exists Scenario.taskOnce. vm_compute. reflexivity.
  - split; [exact Hgone|]. rewrite Husers. vm_compute. reflexivity.
Defined.

(** ** The leaderboard *)

#[local] Instance morePoints_transitive : Transitive tasksRouterRest.morePoints.
Proof. intros a b c. unfold tasksRouterRest.morePoints. lia. Qed.

#[local] Instance morePoints_total : Total tasksRouterRest.morePoints.
Proof. intros a b. unfold tasksRouterRest.morePoints. lia. Qed.

Lemma find_not_admins_elem (u : userSchema.doc) (w : World) :
  u ∈ tasksRouterRest.find_not_admins w ↔
  userSchema.role u ≠ admin ∧ ∃ k, users w !! k = Some u.
Proof.
  unfold tasksRouterRest.find_not_admins.
  rewrite list_elem_of_filter, list_elem_of_fmap. split.
  - intros (Hrole & [k u'] & -> & Hin). split; [exact Hrole|].
    exists k. apply elem_of_map_to_list, Hin.
  - intros (Hrole & k & Hk). split; [exact Hrole|].
    exists (k, u). split; [reflexivity|]. apply elem_of_map_to_list, Hk.
Qed.

(** X19.  The leaderboard holds at most ten users, none of them an administrator,
    each of them stored, in the order of their points, the highest first.
    Whoever is left out is not an administrator's miss: the users on the
    board and the ones left out are all the stored users who are not
    administrators, and nobody left out has more points than somebody on
    the board.  With ten such users or fewer, all of them are on the
    board. *)
Theorem leaderboard_is_the_top_ten (w : World) :
  let board := tasksRouterRest.topTen w in
  fst (tasksRouterRest.get_rewards_leaderboard w) =
    mkAnswer 200 (JLeaderboard (tasksRouterRest.leaderboardRow <$> board)) ∧
  snd (tasksRouterRest.get_rewards_leaderboard w) = w ∧
  (length board ≤ 10)%nat ∧
  (∀ u, u ∈ board →
        userSchema.role u ≠ admin ∧ ∃ k, users w !! k = Some u) ∧
  StronglySorted
    (λ a b, userSchema.rewardPoints b ≤ userSchema.rewardPoints a) board ∧
  (∃ rest,
     board ++ rest ≡ₚ tasksRouterRest.find_not_admins w ∧
     ∀ a b, a ∈ board → b ∈ rest →
            userSchema.rewardPoints b ≤ userSchema.rewardPoints a) ∧
  ((length (tasksRouterRest.find_not_admins w) ≤ 10)%nat →
     board ≡ₚ tasksRouterRest.find_not_admins w).
Proof.
  cbv zeta. unfold tasksRouterRest.topTen.
  set (l := tasksRouterRest.find_not_admins w).
  set (sorted := merge_sort tasksRouterRest.morePoints l).
  assert (StronglySorted tasksRouterRest.morePoints sorted) as Hsorted
    by (apply StronglySorted_merge_sort; apply _).
  assert (sorted ≡ₚ l) as Hperm by apply merge_sort_Permutation.
  rewrite <- (take_drop 10 sorted) in Hsorted, Hperm.
  split; [reflexivity|]. split; [reflexivity|].
  split; [rewrite length_take; lia|].
  split; [|split; [|split]].
  - intros u Hin. apply find_not_admins_elem. fold l.
    rewrite <- Hperm. apply elem_of_app. left. exact Hin.
  - apply (StronglySorted_app_1_l _ _ _ Hsorted).
  - exists (drop 10 sorted). split; [exact Hperm|].
    intros a b Ha Hb.
    apply (StronglySorted_app_1_elem_of _ _ _ _ _ Hsorted Ha Hb).
  - intros Hshort.
    rewrite take_ge; [apply merge_sort_Permutation|].
    subst sorted. rewrite merge_sort_Permutation. exact Hshort.
Qed.

Lemma leaderboard_witness :
  tasksRouterRest.topTen Scenario.completedOnce ≡ₚ
    tasksRouterRest.find_not_admins Scenario.completedOnce ∧
  Forall (λ u, userSchema.role u ≠ admin)
    (tasksRouterRest.topTen Scenario.completedOnce).
Proof.
  destruct (leaderboard_is_the_top_ten Scenario.completedOnce)
    as (_ & _ & _ & Hstored & _ & _ & Hall).
  split.
  - apply Hall. vm_compute. lia.
  - apply Forall_forall. intros u Hu. apply (Hstored u Hu).
Defined.

(** ** The password hook *)

(** X20.  A password goes through the hash at most once.  A modified password
    shorter than 30 characters is stored hashed; since a hash is 60
    characters long, saving the stored value again leaves it as it is.  A
    modified password of 30 characters or more is taken for a hash and
    stored as it was given. *)
Theorem preSavePassword_hashes_at_most_once
    (bcrypt_hash : string → string) (password : string) :
  (∀ p, String.length (bcrypt_hash p) = 60%nat) →
  let stored := UserHooks.preSavePassword bcrypt_hash true password in
  ((String.length password < 30)%nat → stored = bcrypt_hash password) ∧
  ((30 ≤ String.length password)%nat → stored = password) ∧
  UserHooks.preSavePassword bcrypt_hash true stored = stored ∧
  UserHooks.preSavePassword bcrypt_hash false password = password.
Proof.
  intros Hlength stored. subst stored. unfold UserHooks.preSavePassword.
  cbn [negb].
  destruct (Nat.ltb_spec (String.length password) 30) as [Hshort|Hlong].
  - split; [reflexivity|]. split; [lia|]. split; [|reflexivity].
    destruct (Nat.ltb_spec (String.length (bcrypt_hash password)) 30)
      as [Habs|_]; [|reflexivity].
    rewrite Hlength in Habs. lia.
  - split; [lia|]. split; [reflexivity|]. split; [|reflexivity].
    destruct (Nat.ltb_spec (String.length password) 30); [lia|reflexivity].
Qed.

Lemma preSavePassword_witness :
  let bcrypt_hash := λ _ : string,
    "$2a$10$N9qo8uLOickgx2ZMRZoMyeIjZAgcfl7p92ldGxad68LJZdL17lhWy" in
  UserHooks.preSavePassword bcrypt_hash true
    "a passphrase of more than thirty characters" =
  "a passphrase of more than thirty characters".
Proof.
  cbv zeta.
  destruct (preSavePassword_hashes_at_most_once
              (λ _ : string,
                 "$2a$10$N9qo8uLOickgx2ZMRZoMyeIjZAgcfl7p92ldGxad68LJZdL17lhWy")
              "a passphrase of more than thirty characters")
    as (_ & Hlong & _).
  - intros p. reflexivity.
  - apply Hlong. vm_compute. lia.
Defined.

(** ** Notifications *)

(** [replace] on the message of a comment, as the routes use it. *)
Lemma replace_unknown_by_the_name :
  JsString.replace "New comment on task Floor plan by unknown" "unknown" "Asha"
  = "New comment on task Floor plan by Asha".
Proof. reflexivity. Qed.

Lemma replace_without_the_pattern :
  JsString.replace "New comment on task Floor plan by Ben" "unknown" "Asha"
  = "New comment on task Floor plan by Ben".
Proof. reflexivity. Qed.

Lemma replace_with_dollar_patterns :
  JsString.replace "a-unknown-b" "unknown" "[$$|$&|$`|$'|$1]"
  = "a-[$|unknown|a-|-b|$1]-b".
Proof. reflexivity. Qed.

Section Notifications.
Import storedNotification.
Variables (req_user : userSchema.doc) (users : gmap N userSchema.doc)
          (inbox : gmap N doc).

Let me := userSchema._id req_user.

Lemma set_isRead_read (n : doc) : isRead n = true → set_isRead true n = n.
Proof. destruct n. cbn. intros ->. reflexivity. Qed.

Lemma updateMany_read_lookup (id : ObjectId) :
  notificationsRouter.updateMany_read me inbox !! id =
  (λ n, if decide (notificationSchema.recipient (fields n) = me)
        then set_isRead true n else n) <$> inbox !! id.
Proof.
  unfold notificationsRouter.updateMany_read. rewrite lookup_fmap.
  destruct (inbox !! id) as [n|]; [|reflexivity]. cbn. f_equal.
  destruct (decide (notificationsRouter.unreadOf me n)) as [[Hme Hread]|Hnot].
  - rewrite decide_True by exact Hme. reflexivity.
  - destruct (decide (notificationSchema.recipient (fields n) = me))
      as [Hme|Hme]; [|reflexivity].
    symmetry. apply set_isRead_read.
    destruct (isRead n) eqn:Hread; [reflexivity|].
    exfalso. apply Hnot. split; assumption.
Qed.

Lemma countUnread_updateMany_read :
  notificationsRouter.countUnread me
    (notificationsRouter.updateMany_read me inbox) = 0%nat.
Proof.
  unfold notificationsRouter.countUnread.
  apply map_size_empty_iff, map_empty. intros id.
  apply map_lookup_filter_None. rewrite updateMany_read_lookup.
  destruct (inbox !! id) as [n|]; [right|left; reflexivity].
  intros n' [= <-]. cbn. unfold notificationsRouter.unreadOf.
  case_decide; cbn; [intros [_ Habs]; discriminate Habs|tauto].
Qed.

Lemma countUnread_0 :
  notificationsRouter.countUnread me inbox = 0%nat →
  ∀ id n, inbox !! id = Some n → ¬ notificationsRouter.unreadOf me n.
Proof.
  unfold notificationsRouter.countUnread.
  intros Hzero%map_size_empty_iff id n Hn Hunread.
  assert (filter (λ kv, notificationsRouter.unreadOf me (snd kv)) inbox !! id
          = Some n) as Hin by (apply map_lookup_filter_Some; split; assumption).
  rewrite Hzero, lookup_empty in Hin. discriminate.
Qed.
End Notifications.

(** X21.  Marking a notification as read is for its recipient only: 404 for a
    notification that is not there and 403 for another user, the inbox
    staying as it was.  For the recipient the notification is stored as
    read, and no other notification changes. *)
Theorem patch_read_marks_one_notification_of_the_recipient
    (req_user : userSchema.doc) (id : ObjectId)
    (users : gmap N userSchema.doc) (inbox : gmap N storedNotification.doc) :
  let r := notificationsRouter.patch_read req_user id users inbox in
  (inbox !! id = None → answerCode (fst r) = 404 ∧ snd r = inbox) ∧
  (∀ n, inbox !! id = Some n →
     (notificationSchema.recipient (storedNotification.fields n) ≠
        userSchema._id req_user →
      answerCode (fst r) = 403 ∧ snd r = inbox) ∧
     (notificationSchema.recipient (storedNotification.fields n) =
        userSchema._id req_user →
      storedNotification._id n = id →
      answerCode (fst r) = 200 ∧
      snd r !! id = Some (storedNotification.set_isRead true n) ∧
      ∀ id', id' ≠ id → snd r !! id' = inbox !! id')).
Proof.
  cbv zeta. unfold notificationsRouter.patch_read. split.
  - intros ->. split; reflexivity.
  - intros n ->. split.
    + intros Hne. rewrite (bool_decide_eq_true_2 _ Hne). split; reflexivity.
    + intros Heq <-.
      rewrite bool_decide_eq_false_2 by (intros Hne; apply Hne, Heq).
      cbn. split; [reflexivity|]. split; [apply lookup_insert_eq|].
      intros id' Hne. apply lookup_insert_ne. congruence.
Qed.

Lemma patch_read_witness :
  answerCode (fst (notificationsRouter.patch_read Fixture.ben 11
                     Fixture.users Fixture.inbox)) = 403 ∧
  (storedNotification.isRead <$>
     snd (notificationsRouter.patch_read Sample.asha 11
            Fixture.users Fixture.inbox) !! 11%N) = Some true.
Proof.
  split.
  - destruct (patch_read_marks_one_notification_of_the_recipient
                Fixture.ben 11%N Fixture.users Fixture.inbox) as (_ & Hfound).
    destruct (Hfound (Fixture.notification 11 2 false) eq_refl) as (Hother & _).
    apply Hother. discriminate.
  - destruct (patch_read_marks_one_notification_of_the_recipient
                Sample.asha 11%N Fixture.users Fixture.inbox) as (_ & Hfound).
    destruct (Hfound (Fixture.notification 11 2 false) eq_refl) as (_ & Hmine).
    destruct Hmine as (_ & -> & _); reflexivity.
Defined.

(** X22.  Reading an unread notification takes one off the count of unread
    notifications of its recipient; reading one that was read already
    leaves the count. *)
Theorem patch_read_takes_one_off_the_unread_count
    (req_user : userSchema.doc) (id : ObjectId)
    (users : gmap N userSchema.doc) (inbox : gmap N storedNotification.doc)
    (n : storedNotification.doc) :
  inbox !! id = Some n →
  storedNotification._id n = id →
  notificationSchema.recipient (storedNotification.fields n) =
    userSchema._id req_user →
  let count := notificationsRouter.countUnread (userSchema._id req_user) in
  let inbox' := snd (notificationsRouter.patch_read req_user id users inbox) in
  (storedNotification.isRead n = false → S (count inbox') = count inbox) ∧
  (storedNotification.isRead n = true → count inbox' = count inbox).
Proof.
  intros Hn Hid Hmine count inbox'. subst count inbox'.
  unfold notificationsRouter.patch_read. rewrite Hn.
  rewrite bool_decide_eq_false_2 by (intros Hne; apply Hne, Hmine).
  cbn [snd storedNotification._id storedNotification.set_isRead]. rewrite Hid.
  unfold notificationsRouter.countUnread.
  set (P := λ kv : N * storedNotification.doc,
              notificationsRouter.unreadOf (userSchema._id req_user) (snd kv)).
  rewrite (map_filter_insert_False P)
    by (unfold P, notificationsRouter.unreadOf; cbn; intros [_ H]; discriminate H).
  rewrite map_filter_delete, map_size_delete. split.
  - intros Hunread.
    assert (filter P inbox !! id = Some n) as Hin.
    { apply map_lookup_filter_Some. split; [exact Hn|]. split; assumption. }
    rewrite Hin.
    assert (size (filter P inbox) ≠ 0%nat) as Hpos.
    { apply map_size_non_empty_iff. intros Hempty.
      rewrite Hempty, lookup_empty in Hin. discriminate. }
    lia.
  - intros Hread.
    assert (filter P inbox !! id = None) as ->; [|reflexivity].
    apply map_lookup_filter_None. right. intros n' Hn'.
    rewrite Hn in Hn'. injection Hn' as <-.
    unfold P, notificationsRouter.unreadOf. cbn. rewrite Hread.
    intros [_ H]. discriminate H.
Qed.

Lemma patch_read_count_witness :
  notificationsRouter.countUnread 2
    (snd (notificationsRouter.patch_read Sample.asha 11
            Fixture.users Fixture.inbox)) = 1%nat.
Proof.
  destruct (patch_read_takes_one_off_the_unread_count
              Sample.asha 11%N Fixture.users Fixture.inbox
              (Fixture.notification 11 2 false) eq_refl eq_refl eq_refl)
    as (Hunread & _).
  specialize (Hunread eq_refl).
  change (notificationsRouter.countUnread (userSchema._id Sample.asha)
            Fixture.inbox) with 2%nat in Hunread.
  exact (Nat.succ_inj _ 1%nat Hunread).
Defined.

(** X23.  After "read all" the user has no unread notification, each of the
    user's notifications is stored as read and the notifications of other
    users are as they were.  The answer tells how many were unread, and it
    is 404 when none was: asking a second time always answers 404. *)
Theorem patch_read_all_leaves_nothing_unread
    (req_user : userSchema.doc) (inbox : gmap N storedNotification.doc) :
  let me := userSchema._id req_user in
  let r := notificationsRouter.patch_read_all req_user inbox in
  notificationsRouter.countUnread me (snd r) = 0%nat ∧
  (∀ id n, inbox !! id = Some n →
     notificationSchema.recipient (storedNotification.fields n) = me →
     snd r !! id = Some (storedNotification.set_isRead true n)) ∧
  (∀ id n, inbox !! id = Some n →
     notificationSchema.recipient (storedNotification.fields n) ≠ me →
     snd r !! id = Some n) ∧
  (notificationsRouter.countUnread me inbox ≠ 0%nat →
     fst r = mkAnswer 200
               (JReadAll "All notifications marked as read"
                  (notificationsRouter.countUnread me inbox))) ∧
  (notificationsRouter.countUnread me inbox = 0%nat →
     answerCode (fst r) = 404 ∧ snd r = inbox) ∧
  answerCode (fst (notificationsRouter.patch_read_all req_user (snd r))) = 404.
Proof.
  cbv zeta. unfold notificationsRouter.patch_read_all.
  assert (∀ (b : bool) (x y : Answer * gmap N storedNotification.doc),
            snd x = snd y → snd (if b then x else y) = snd x) as Hsnd
    by (intros [] x y H; [reflexivity|symmetry; exact H]).
  rewrite Hsnd by reflexivity. cbn [snd].
  split; [apply countUnread_updateMany_read|].
  split; [|split; [|split; [|split]]].
  - intros id n Hn Hmine. rewrite updateMany_read_lookup, Hn. cbn.
    rewrite decide_True by exact Hmine. reflexivity.
  - intros id n Hn Hother. rewrite updateMany_read_lookup, Hn. cbn.
    rewrite decide_False by exact Hother. reflexivity.
  - intros Hsome. apply Nat.eqb_neq in Hsome. rewrite Hsome. reflexivity.
  - intros Hnone. rewrite Hnone. cbn. split; [reflexivity|].
    apply map_eq. intros id. unfold notificationsRouter.updateMany_read.
    rewrite lookup_fmap.
    destruct (inbox !! id) as [n|] eqn:Hn; [|reflexivity]. cbn.
    rewrite decide_False; [reflexivity|].
    apply (countUnread_0 req_user inbox Hnone id n Hn).
  - rewrite countUnread_updateMany_read. reflexivity.
Qed.

Lemma patch_read_all_witness :
  fst (notificationsRouter.patch_read_all Sample.asha Fixture.inbox) =
    mkAnswer 200 (JReadAll "All notifications marked as read" 2) ∧
  answerCode (fst (notificationsRouter.patch_read_all Fixture.ben
                     Fixture.inbox)) = 404.
Proof.
  split.
  - destruct (patch_read_all_leaves_nothing_unread Sample.asha Fixture.inbox)
      as (_ & _ & _ & Hsome & _).
    rewrite Hsome; [reflexivity|]. vm_compute. discriminate.
  - destruct (patch_read_all_leaves_nothing_unread Fixture.ben Fixture.inbox)
      as (_ & _ & _ & _ & Hnone & _).
    apply Hnone. reflexivity.
Defined.

(** ** Projects *)

(** X24.  Deleting a project that is not there answers 404 and writes nothing.
    Deleting a stored project removes it and every task of it: the tasks
    left are the tasks of the other projects, as they were.  The users are
    not touched, so the points earned with the deleted tasks stay. *)
Theorem delete_project_removes_its_tasks
    (id : ObjectId) (projects : gmap N projectSchema.doc) (w : World) :
  let r := projectsRouter.delete_project id projects w in
  (projects !! id = None →
     answerCode (fst (fst r)) = 404 ∧ snd (fst r) = projects ∧ snd r = w) ∧
  (∀ project, projects !! id = Some project → projectSchema._id project = id →
     fst (fst r) =
       mkAnswer 200
         (JDeletedProject "Project and associated tasks deleted successfully" id) ∧
     snd (fst r) !! id = None ∧
     (∀ id', id' ≠ id → snd (fst r) !! id' = projects !! id') ∧
     (∀ k task, tasks (snd r) !! k = Some task ↔
                tasks w !! k = Some task ∧ taskSchema.project task ≠ id) ∧
     users (snd r) = users w).
Proof.
  cbv zeta. unfold projectsRouter.delete_project. split.
  - intros ->. repeat split; reflexivity.
  - intros project -> <-. unfold bind. cbn.
    split; [reflexivity|]. split; [apply lookup_delete_eq|].
    split; [intros id' Hne; apply lookup_delete_ne; congruence|].
    split; [|reflexivity].
    intros k task. rewrite map_lookup_filter_Some. reflexivity.
Qed.

Lemma delete_project_witness :
  let r := projectsRouter.delete_project 7 Fixture.projects Fixture.world in
  tasks (snd r) !! 1%N = None ∧
  (taskSchema.title <$> tasks (snd r) !! 2%N) = Some "Quote".
Proof.
  cbv zeta.
  destruct (delete_project_removes_its_tasks 7%N Fixture.projects Fixture.world)
    as (_ & Hfound).
  destruct (Hfound Fixture.house eq_refl eq_refl) as (_ & _ & _ & Htasks & _).
  split.
  - destruct (tasks (snd (projectsRouter.delete_project 7 Fixture.projects
                            Fixture.world)) !! 1%N) as [task|] eqn:Hlookup;
      [|reflexivity].
    apply Htasks in Hlookup as [Hstored Hother].
    vm_compute in Hstored. injection Hstored as <-.
    exfalso. apply Hother. reflexivity.
  - assert (tasks (snd (projectsRouter.delete_project 7 Fixture.projects
                          Fixture.world)) !! 2%N =
            Some (taskSchema.mk 2 "Quote" "Send the quote" 8 2 pending low
                    Sample.jan10 None false 0 9 ExtensionRequest.defaults []
                    0 0)) as ->; [|reflexivity].
    apply Htasks. split; [vm_compute; reflexivity|discriminate].
Defined.

Lemma team_of_saved (now : Z) (team : list ObjectId) (p : projectSchema.doc) :
  projectSchema.team
    (projectSchema.set_updatedAt now (projectSchema.set_team team p)) = team.
Proof. reflexivity. Qed.

Section Team.
Import projectSchema.
Variables (id userId : ObjectId) (projects : gmap N doc) (w : World)
          (project : doc).
Hypothesis Hproject : projects !! id = Some project.
Hypothesis Hid : _id project = id.

Lemma post_team_new :
  userId ∉ team project →
  projectsRouter.post_team id userId projects w =
  let project' := set_updatedAt (clock w (tick w))
                    (set_team (team project ++ [userId]) project) in
  (mkAnswer 200 (JProject project'), <[id := project']> projects,
   snd (newDate w)).
Proof.
  intros Hnew. unfold projectsRouter.post_team. rewrite Hproject.
  rewrite (bool_decide_eq_false_2 _ Hnew).
  unfold bind, projectsRouter.save, bind. cbn. rewrite Hid. reflexivity.
Qed.

Lemma post_team_old :
  userId ∈ team project →
  projectsRouter.post_team id userId projects w =
  (mkAnswer 200 (JProject project), projects, w).
Proof.
  intros Hold. unfold projectsRouter.post_team. rewrite Hproject.
  rewrite (bool_decide_eq_true_2 _ Hold). reflexivity.
Qed.

Lemma delete_team_member_run :
  projectsRouter.delete_team_member id userId projects w =
  let project' := set_updatedAt (clock w (tick w))
                    (set_team (filter (λ memberId, memberId ≠ userId)
                                      (team project)) project) in
  (mkAnswer 200 (JProject project'), <[id := project']> projects,
   snd (newDate w)).
Proof.
  unfold projectsRouter.delete_team_member. rewrite Hproject.
  unfold bind, projectsRouter.save, bind. cbn. rewrite Hid. reflexivity.
Qed.
End Team.

(** X25.  Adding a member to the team of a stored project: afterwards the user
    is on the team, next to the members there were; a user who is on the
    team already is not added again and nothing is saved, so a team without
    duplicates stays without, and adding the same user a second time
    changes nothing. *)
Theorem post_team_adds_a_member_once
    (id userId : ObjectId) (projects : gmap N projectSchema.doc) (w : World)
    (project : projectSchema.doc) :
  projects !! id = Some project →
  projectSchema._id project = id →
  let r := projectsRouter.post_team id userId projects w in
  ∃ project',
    fst (fst r) = mkAnswer 200 (JProject project') ∧
    snd (fst r) !! id = Some project' ∧
    (∀ u, u ∈ projectSchema.team project' ↔
          u ∈ projectSchema.team project ∨ u = userId) ∧
    (NoDup (projectSchema.team project) → NoDup (projectSchema.team project')) ∧
    (userId ∈ projectSchema.team project → fst r = (fst (fst r), projects) ∧
                                           snd r = w) ∧
    projectsRouter.post_team id userId (snd (fst r)) (snd r) =
      (mkAnswer 200 (JProject project'), snd (fst r), snd r).
Proof.
  intros Hproject Hid r. subst r.
  destruct (decide (userId ∈ projectSchema.team project)) as [Hold|Hnew].
  - rewrite (post_team_old id userId projects w project Hproject Hold).
    exists project. cbn.
    split; [reflexivity|]. split; [exact Hproject|].
    split; [intros u; split; [tauto|intros [H| ->]; assumption]|].
    split; [tauto|]. split; [split; reflexivity|].
    apply (post_team_old id userId projects w project Hproject Hold).
  - rewrite (post_team_new id userId projects w project Hproject Hid Hnew).
    cbv zeta. eexists. cbn [fst snd]. rewrite !team_of_saved.
    split; [reflexivity|]. split; [apply lookup_insert_eq|].
    split; [intros u; rewrite elem_of_app, list_elem_of_singleton; reflexivity|].
    split.
    + intros Hnodup. apply NoDup_app. split; [exact Hnodup|].
      split; [|apply NoDup_singleton].
      intros u Hu ->%list_elem_of_singleton. contradiction.
    + split; [contradiction|].
      apply post_team_old; [apply lookup_insert_eq|].
      rewrite team_of_saved. apply elem_of_app. right. apply list_elem_of_singleton. reflexivity.
Qed.

Lemma post_team_witness :
  ∃ project',
    snd (fst (projectsRouter.post_team 7 3 Fixture.projects Fixture.world))
      !! 7%N = Some project' ∧
    projectSchema.team project' = [2%N; 3%N].
Proof.
  destruct (post_team_adds_a_member_once 7%N 3%N Fixture.projects Fixture.world
              Fixture.house eq_refl eq_refl)
    as (project' & _ & Hstored & _).
  exists project'. split; [exact Hstored|].
  vm_compute in Hstored. injection Hstored as <-. reflexivity.
Defined.

(** X26.  Removing a member from the team of a stored project: afterwards the
    user is not on the team and the other members are, in the order they
    were.  Adding a user who was not on the team and removing that user
    again gives the team back. *)
Theorem delete_team_member_removes_the_member
    (id userId : ObjectId) (projects : gmap N projectSchema.doc) (w : World)
    (project : projectSchema.doc) :
  projects !! id = Some project →
  projectSchema._id project = id →
  let r := projectsRouter.delete_team_member id userId projects w in
  let added := projectsRouter.post_team id userId projects w in
  let removed :=
    projectsRouter.delete_team_member id userId (snd (fst added)) (snd added) in
  (∃ project',
     fst (fst r) = mkAnswer 200 (JProject project') ∧
     snd (fst r) !! id = Some project' ∧
     (userId ∉ projectSchema.team project') ∧
     (∀ u, u ∈ projectSchema.team project' ↔
           u ∈ projectSchema.team project ∧ u ≠ userId) ∧
     (projectSchema.team project' `sublist_of` projectSchema.team project) ∧
     projectSchema.projectManager project' =
       projectSchema.projectManager project) ∧
  (userId ∉ projectSchema.team project →
     ∃ project'', snd (fst removed) !! id = Some project'' ∧
                  projectSchema.team project'' = projectSchema.team project).
Proof.
  intros Hproject Hid r added removed. subst r added removed. split.
  - rewrite (delete_team_member_run id userId projects w project Hproject Hid).
    cbv zeta. eexists. cbn [fst snd]. rewrite !team_of_saved.
    split; [reflexivity|]. split; [apply lookup_insert_eq|].
    split; [rewrite list_elem_of_filter; tauto|].
    split; [intros u; rewrite list_elem_of_filter; tauto|].
    split; [apply sublist_filter|reflexivity].
  - intros Hnew.
    rewrite (post_team_new id userId projects w project Hproject Hid Hnew).
    cbv zeta. cbn [fst snd].
    set (added := projectSchema.set_updatedAt _ _).
    rewrite (delete_team_member_run id userId (<[id:=added]> projects)
               (snd (newDate w)) added (lookup_insert_eq _ _ _) Hid).
    cbv zeta. eexists. cbn [fst snd]. split; [apply lookup_insert_eq|].
    subst added. rewrite !team_of_saved.
    rewrite filter_app, filter_cons, decide_False, filter_nil, app_nil_r
      by (intros Hne; apply Hne; reflexivity).
    clear Hproject. induction (projectSchema.team project) as [|u team IH];
      [reflexivity|].
    rewrite filter_cons. apply not_elem_of_cons in Hnew as [Hne Hnew].
    rewrite decide_True by congruence. f_equal. apply IH, Hnew.
Qed.

Lemma delete_team_member_witness :
  ∃ project',
    snd (fst (projectsRouter.delete_team_member 7 2 Fixture.projects
                Fixture.world)) !! 7%N = Some project' ∧
    projectSchema.team project' = [].
Proof.
  destruct (delete_team_member_removes_the_member 7%N 2%N Fixture.projects
              Fixture.world Fixture.house eq_refl eq_refl)
    as ((project' & _ & Hstored & _) & _).
  exists project'. split; [exact Hstored|].
  vm_compute in Hstored. injection Hstored as <-. reflexivity.
Defined.

(** X27.  Setting the state of a milestone is open to an administrator, to a
    member of the team and to the project manager.  Completing the
    milestone stores the flag and the time; reopening it stores the flag
    and leaves the time of the earlier completion where it was.  The other
    milestones and the team do not change. *)
Theorem put_milestone_sets_the_flag_and_keeps_the_date
    (req_user : userSchema.doc) (id milestoneId : ObjectId) (completed : bool)
    (projects : gmap N projectSchema.doc) (w : World)
    (project : projectSchema.doc) (i : nat) (m : Milestone.t) :
  projects !! id = Some project →
  projectSchema._id project = id →
  projectSchema.milestones project !! i = Some m →
  Milestone._id m = milestoneId →
  (∀ j m', projectSchema.milestones project !! j = Some m' → (j < i)%nat →
           Milestone._id m' ≠ milestoneId) →
  userSchema.role req_user = admin ∨
    userSchema._id req_user ∈ projectSchema.team project ∨
    projectSchema.projectManager project = userSchema._id req_user →
  let r := projectsRouter.put_milestone req_user id milestoneId completed
             projects w in
  ∃ project' m',
    fst (fst r) = mkAnswer 200 (JProject project') ∧
    snd (fst r) !! id = Some project' ∧
    projectSchema.milestones project' !! i = Some m' ∧
    Milestone.completed m' = completed ∧
    Milestone.completedAt m' =
      (if completed then Some (clock w (tick w)) else Milestone.completedAt m) ∧
    Milestone.title m' = Milestone.title m ∧
    Milestone.dueDate m' = Milestone.dueDate m ∧
    (∀ j, j ≠ i → projectSchema.milestones project' !! j =
                  projectSchema.milestones project !! j) ∧
    projectSchema.team project' = projectSchema.team project.
Proof.
  intros Hproject Hid Hm Hmid Hfirst Hallowed r. subst r.
  unfold projectsRouter.put_milestone. rewrite Hproject.
  assert (list_find (λ m, Milestone._id m = milestoneId)
            (projectSchema.milestones project) = Some (i, m)) as ->.
  { apply list_find_Some. split; [exact Hm|]. split; [exact Hmid|].
    intros j m' Hj Hlt. apply (Hfirst j m' Hj Hlt). }
  assert (projectsRouter.accessDenied req_user project = false) as ->.
  { unfold projectsRouter.accessDenied.
    destruct Hallowed as [H|[H|H]].
    - rewrite bool_decide_eq_false_2 by (intros Hne; apply Hne, H). reflexivity.
    - rewrite (bool_decide_eq_true_2 _ H). cbn [negb].
      rewrite andb_false_r. reflexivity.
    - rewrite (bool_decide_eq_false_2 (projectSchema.projectManager project ≠ _))
        by (intros Hne; apply Hne, H).
      apply andb_false_r. }
  assert (i < length (projectSchema.milestones project))%nat as Hlt
    by (apply lookup_lt_Some with m; exact Hm).
  unfold bind, projectsRouter.save, bind.
  destruct completed; cbn; rewrite Hid; eexists; eexists;
    (split; [reflexivity|]); (split; [apply lookup_insert_eq|]);
    (split; [apply list_lookup_insert_eq; exact Hlt|]);
    repeat split; try reflexivity;
    intros j Hne; apply list_lookup_insert_ne; congruence.
Qed.

Lemma put_milestone_witness :
  ∃ project',
    snd (fst (projectsRouter.put_milestone Sample.asha 7 21 true
                Fixture.projects Fixture.world)) !! 7%N = Some project' ∧
    Milestone.completedAt <$> projectSchema.milestones project' =
      [Some Sample.jan10].
Proof.
  destruct (put_milestone_sets_the_flag_and_keeps_the_date
              Sample.asha 7%N 21%N true Fixture.projects Fixture.world
              Fixture.house 0%nat
              (Milestone.mk 21 "Plans" "Plans approved" (Some Sample.jan10)
                 false (Some (Sample.jan10 - Sample.hour))))
    as (project' & m' & _ & Hstored & _).
  - reflexivity.
  - reflexivity.
  - reflexivity.
  - reflexivity.
  - intros j m' _ Hlt. lia.
  - right. left. repeat constructor.
  - exists project'. split; [exact Hstored|].
    vm_compute in Hstored. injection Hstored as <-. reflexivity.
Defined.

(** X28.  Setting the state of a milestone is refused without writing anything:
    404 for a project that is not there, 404 for a milestone the project
    does not have, whoever asks, and 403 for a user who is neither an
    administrator, nor on the team, nor the project manager. *)
Theorem put_milestone_refuses_without_writing
    (req_user : userSchema.doc) (id milestoneId : ObjectId) (completed : bool)
    (projects : gmap N projectSchema.doc) (w : World) :
  let r := projectsRouter.put_milestone req_user id milestoneId completed
             projects w in
  (projects !! id = None →
     fst r = (mkAnswer 404 (JMessage "Project not found"), projects) ∧
     snd r = w) ∧
  (∀ project, projects !! id = Some project →
     (Forall (λ m, Milestone._id m ≠ milestoneId)
             (projectSchema.milestones project) →
      fst r = (mkAnswer 404 (JMessage "Milestone not found"), projects) ∧
      snd r = w) ∧
     (Exists (λ m, Milestone._id m = milestoneId)
             (projectSchema.milestones project) →
      userSchema.role req_user ≠ admin →
      userSchema._id req_user ∉ projectSchema.team project →
      projectSchema.projectManager project ≠ userSchema._id req_user →
      fst r = (mkAnswer 403 (JMessage "Access denied"), projects) ∧
      snd r = w)).
Proof.
  cbv zeta. unfold projectsRouter.put_milestone. split.
  - intros ->. split; reflexivity.
  - intros project ->. split.
    + intros Hnone.
      assert (list_find (λ m, Milestone._id m = milestoneId)
                (projectSchema.milestones project) = None) as ->
        by (apply list_find_None; exact Hnone).
      split; reflexivity.
    + intros Hsome Hrole Hteam Hmanager.
      destruct (list_find _ (projectSchema.milestones project)) as [[i m]|] eqn:Hfind.
      * unfold projectsRouter.accessDenied.
        rewrite (bool_decide_eq_true_2 _ Hrole),
          (bool_decide_eq_false_2 _ Hteam), (bool_decide_eq_true_2 _ Hmanager).
        split; reflexivity.
      * apply list_find_None in Hfind. apply Exists_exists in Hsome as (m & Hin & Hm).
        rewrite Forall_forall in Hfind. destruct (Hfind m Hin Hm).
Qed.

Lemma put_milestone_refuses_witness :
  answerCode
    (fst (fst (projectsRouter.put_milestone Sample.root 7 22 true
                 Fixture.projects Fixture.world))) = 404 ∧
  answerCode
    (fst (fst (projectsRouter.put_milestone
                 (userSchema.defaults 4 "Cy" "cy@example.com" employee) 7 21
                 true Fixture.projects Fixture.world))) = 403.
Proof.
  split.
  - destruct (put_milestone_refuses_without_writing Sample.root 7%N 22%N true
                Fixture.projects Fixture.world) as (_ & Hfound).
    destruct (Hfound Fixture.house eq_refl) as (Hnone & _).
    destruct Hnone as [-> _]; [|reflexivity].
    repeat constructor. discriminate.
  - destruct (put_milestone_refuses_without_writing
                (userSchema.defaults 4 "Cy" "cy@example.com" employee)
                7%N 21%N true Fixture.projects Fixture.world) as (_ & Hfound).
    destruct (Hfound Fixture.house eq_refl) as (_ & Hdenied).
    destruct Hdenied as [-> _]; [| | | |reflexivity].
    + apply Exists_cons_hd. reflexivity.
    + discriminate.
    + intros Hin. apply list_elem_of_singleton in Hin. discriminate Hin.
    + discriminate.
Defined.
